(** * The tool synthesis, verification and execution pipeline of pdca-crewai

    A shallow embedding of three Python modules and the properties their
    specification states about them:

    - [tools/dynamic_tool_creator/dynamic_tool_creator.py] (module [Creator]):
      builds the syntax tree of a new tool class from a declarative
      definition and writes the generated source to disk;
    - [tools/verificador/tool_verifier.py] (module [Verifier]): the staged
      static and dynamic checks of a tool file;
    - [tools/dinamicas/executar_ferramenta_tool.py] (module [Executor]): loads
      a tool file, instantiates its class and calls it.

    Python's own machinery (the parser [ast.parse], the printer
    [astor.to_source], [importlib], class construction, [repr], the case
    tables of [str.lower] outside ASCII) is not code of the repository.  It
    enters the model as the fields of a [World] record: each function of the
    model takes the answers Python would give as data, and every theorem
    quantifies over all of them. *)

From Stdlib Require Import String Ascii List ZArith Lia Bool.
From stdpp Require Import gmap strings pretty.

Set Warnings "-register-all".
Local Open Scope Z_scope.

(** ** Python values, strings, exceptions and paths *)

Module Py.

(** *** Strings.  A Python [str] is a sequence of Unicode characters.  It
    is modelled as the Rocq [string] of the bytes of its UTF-8 encoding.
    Comparison, concatenation, search and replacement give the same answer
    on the bytes as on the characters; counting, cutting and stripping go
    by characters ([chars] below). *)

(** The text of one ASCII character, by its code: the escapes of the source,
    such as ["\n"]. *)
Definition chr (n : nat) : string := String (ascii_of_nat n) "".

(** The line feed, ["\n"] in the source. *)
Definition nl : string := chr 10.

(** [s * n] for a string [s] and [n >= 0], as in ["-" * 40]. *)
Fixpoint repeat_str (s : string) (n : nat) : string :=
  match n with
  | O => ""
  | S n' => s +:+ repeat_str s n'
  end.

(** [sep.join(l)]. *)
Definition join (sep : string) (l : list string) : string := String.concat sep l.

(** [p.startswith(s)] read as [startswith p s]: [p] is a prefix of [s]. *)
Definition startswith (p s : string) : bool := String.prefix p s.

(** [sub in s]. *)
Fixpoint py_in (sub s : string) : bool :=
  String.prefix sub s ||
  match s with
  | EmptyString => false
  | String _ s' => py_in sub s'
  end.

(** The relation decided by [py_in]. *)
Definition occurs_in (sub s : string) : Prop :=
  exists a b : string, s = a +:+ sub +:+ b.

(** [s.endswith(p)] read as [endswith p s]: [p] is [s] or ends its tail. *)
Fixpoint endswith (p s : string) : bool :=
  String.eqb p s ||
  match s with
  | EmptyString => false
  | String _ s' => endswith p s'
  end.

(** [c in s] for a character [c]. *)
Fixpoint has_char (c : ascii) (s : string) : bool :=
  match s with
  | EmptyString => false
  | String a s' => Ascii.eqb a c || has_char c s'
  end.

(** A byte that continues a character: [10xxxxxx]. *)
Definition is_continuation (c : ascii) : bool :=
  let 'Ascii _ _ _ _ _ _ b6 b7 := c in b7 && negb b6.

(** The characters of a text, each as the bytes of its encoding: a byte that
    starts a character, with the continuation bytes that follow it. *)
Fixpoint chars (s : string) : list string :=
  match s with
  | EmptyString => []
  | String c s' =>
      match chars s' with
      | (String d _ as g) :: gs =>
          if is_continuation d then String c g :: gs else String c "" :: g :: gs
      | gs => String c "" :: gs
      end
  end.

(** [len(s)]: the number of characters. *)
Definition len (s : string) : Z := Z.of_nat (length (chars s)).

(** [s[:n]] for [n >= 0]: the first [n] characters. *)
Definition take_chars (n : nat) (s : string) : string :=
  String.concat "" (take n (chars s)).

(** The text before and the text from the byte at offset [n]: [s[:i]] and
    [s[i:]] where [n] is the offset of character [i].  The offsets used
    with them come from a search in the same text ([rfind]) or count ASCII
    characters just matched. *)
Fixpoint str_take (n : nat) (s : string) : string :=
  match n, s with
  | S n', String c s' => String c (str_take n' s')
  | _, _ => ""
  end.

Fixpoint str_drop (n : nat) (s : string) : string :=
  match n, s with
  | S n', String _ s' => str_drop n' s'
  | _, _ => s
  end.

(** The character with code point [cp], encoded. *)
Definition utf8 (cp : N) : string :=
  let b (n : N) := ascii_of_N n in
  let cont (n : N) := b (128 + n mod 64)%N in
  if (cp <? 128)%N then String (b cp) ""
  else if (cp <? 2048)%N then String (b (192 + cp / 64)%N) (String (cont cp) "")
  else if (cp <? 65536)%N
  then String (b (224 + cp / 4096)%N) (String (cont (cp / 64)%N) (String (cont cp) ""))
  else String (b (240 + cp / 262144)%N)
         (String (cont (cp / 4096)%N) (String (cont (cp / 64)%N) (String (cont cp) ""))).

(** The characters [strip] removes, those for which [isspace] holds: tab to
    carriage return, the separators U+001C to U+001F, the space, and outside
    ASCII the next line U+0085, the no-break space U+00A0 and the spaces
    U+1680, U+2000 to U+200A, U+2028, U+2029, U+202F, U+205F and U+3000. *)
Definition whitespace : list string :=
  List.map utf8
    [9; 10; 11; 12; 13; 28; 29; 30; 31; 32; 133; 160; 5760;
     8192; 8193; 8194; 8195; 8196; 8197; 8198; 8199; 8200; 8201; 8202;
     8232; 8233; 8239; 8287; 12288]%N.

(** [ch.isspace()] for one character. *)
Definition isspace (ch : string) : bool := existsb (String.eqb ch) whitespace.

Fixpoint drop_spaces (l : list string) : list string :=
  match l with
  | ch :: l' => if isspace ch then drop_spaces l' else l
  | [] => []
  end.

(** [s.strip()]: the white space at both ends goes. *)
Definition strip (s : string) : string :=
  String.concat "" (rev (drop_spaces (rev (drop_spaces (chars s))))).

(** Whether a text is ASCII: no byte has its high bit set. *)
Fixpoint is_ascii (s : string) : bool :=
  match s with
  | EmptyString => true
  | String (Ascii _ _ _ _ _ _ _ b7) s' => negb b7 && is_ascii s'
  end.

(** [c.lower()] on ASCII: the letters [A] to [Z] change. *)
Definition lower_char (c : ascii) : ascii :=
  let n := nat_of_ascii c in
  if Nat.leb 65 n && Nat.leb n 90 then ascii_of_nat (n + 32) else c.

Fixpoint lower_ascii (s : string) : string :=
  match s with
  | EmptyString => EmptyString
  | String c s' => String (lower_char c) (lower_ascii s')
  end.

(** [s.lower()].  On ASCII text the letters [A] to [Z] change and nothing
    else.  On a text with other characters the result is read from the case
    tables of the interpreter's Unicode database: [unicode_lower] is what
    they give for the whole text. *)
Definition lower (unicode_lower : string -> string) (s : string) : string :=
  if is_ascii s then lower_ascii s else unicode_lower s.

(** [s.replace(c, r)] for a pattern [c] of one character. *)
Fixpoint replace_char (c : ascii) (r : string) (s : string) : string :=
  match s with
  | EmptyString => EmptyString
  | String a s' =>
      (if Ascii.eqb a c then r else String a "") +:+ replace_char c r s'
  end.

(** [s.split(c)] for a separator [c] of one character: never empty. *)
Fixpoint split_char (c : ascii) (s : string) : list string :=
  match s with
  | EmptyString => [EmptyString]
  | String a s' =>
      if Ascii.eqb a c then EmptyString :: split_char c s'
      else match split_char c s' with
           | [] => [String a ""]
           | w :: ws => String a w :: ws
           end
  end.

(** *** Lists: indexing and slicing with Python's conventions. *)

(** [l[i]]: a negative index counts from the end; [None] stands for the
    [IndexError] Python raises out of range. *)
Definition index {A} (l : list A) (i : Z) : option A :=
  let n := Z.of_nat (length l) in
  if (0 <=? i) && (i <? n) then l !! Z.to_nat i
  else if (- n <=? i) && (i <? 0) then l !! Z.to_nat (n + i)
  else None.

(** How a slice bound is clamped into [0 .. len]. *)
Definition clamp (n i : Z) : Z :=
  if i <? 0 then Z.max 0 (n + i) else Z.min i n.

(** [l[a:b]]. *)
Definition slice {A} (l : list A) (a b : Z) : list A :=
  let n := Z.of_nat (length l) in
  let a' := Z.to_nat (clamp n a) in
  let b' := Z.to_nat (clamp n b) in
  take (b' - a')%nat (drop a' l).

(** [not l] for a list. *)
Definition is_empty {A} (l : list A) : bool :=
  match l with
  | [] => true
  | _ => false
  end.

(** [enumerate(l, start)]. *)
Fixpoint enumerate {A} (start : Z) (l : list A) : list (Z * A) :=
  match l with
  | [] => []
  | x :: l' => (start, x) :: enumerate (start + 1) l'
  end.

(** [f"{i:4d}"]: the decimal digits of [i], right-aligned in four columns. *)
Definition fmt_4d (i : Z) : string :=
  let d := pretty i in
  repeat_str " " (4 - String.length d) +:+ d.

(** *** Constants.  The values that occur as literals in a tool definition
    and in [ast.Constant].  A finite float is the dyadic rational
    [m * 2 ^ e]; [PyFloat 0 0] is [0.0]. *)

Inductive pyval :=
| PyNone
| PyEllipsis
| PyBool (b : bool)
| PyInt (z : Z)
| PyFloat (m e : Z)
| PyStr (s : string)
| PyList (l : list pyval)
| PyDict (l : list (pyval * pyval)).

(** *** Exceptions. *)

(** The attributes of a [SyntaxError] the code reads, and its [str]. *)
Record syntax_error := {
  se_msg : string;
  se_lineno : option Z;
  se_offset : option Z;
  se_str : string
}.

Inductive exn :=
| SyntaxError (e : syntax_error)      (* also its subclass IndentationError *)
| ImportError (str : string)          (* also ModuleNotFoundError *)
| IndexError (str : string)
| TypeError (str : string)
| OSError (str : string)              (* FileExistsError, IsADirectoryError, ... *)
| OtherException (str : string)       (* any other subclass of Exception *)
| BaseExceptionOnly (str : string).   (* SystemExit, KeyboardInterrupt *)

(** [str(e)]. *)
Definition exn_str (e : exn) : string :=
  match e with
  | SyntaxError se => se_str se
  | ImportError s | IndexError s | TypeError s | OSError s
  | OtherException s | BaseExceptionOnly s => s
  end.

(** [isinstance(e, Exception)]: what [except Exception] catches. *)
Definition is_Exception (e : exn) : bool :=
  match e with
  | BaseExceptionOnly _ => false
  | _ => true
  end.

(** [SyntaxError(text)] as the code constructs it: no position. *)
Definition new_SyntaxError (text : string) : exn :=
  SyntaxError {| se_msg := text; se_lineno := None; se_offset := None; se_str := text |}.

(** What a call gives: a value, or the exception it raised. *)
Inductive outcome (A : Type) :=
| Returned (a : A)
| Raised (e : exn).
Arguments Returned {A} a.
Arguments Raised {A} e.

(** Sequencing: the first exception raised ends the computation.  With these
    instances [x ← c; k] reads as in the source: run [c], name its value [x],
    go on with [k]. *)
#[global] Instance outcome_ret : MRet outcome := fun A a => Returned a.
#[global] Instance outcome_bind : MBind outcome := fun A B f x =>
  match x with
  | Returned a => f a
  | Raised e => Raised e
  end.

(** *** Paths.  A [pathlib.Path] on POSIX is its tuple of [parts]: the
    anchor (["/"] or ["//"]) first when the path is absolute, then the
    components. *)

Abbreviation path := (list string).

Definition anchor_of (s : string) : string :=
  if startswith "//" s && negb (startswith "///" s) then "//"
  else if startswith "/" s then "/" else "".

(** The components of a path string: empty ones and ["."] are dropped. *)
Definition components (s : string) : path :=
  List.filter (fun c => negb (String.eqb c "") && negb (String.eqb c "."))
              (split_char "/" s).

(** [Path(s)]. *)
Definition Path (s : string) : path :=
  (if String.eqb (anchor_of s) "" then [] else [anchor_of s]) ++ components s.

(** [p / s] for a string [s]: an absolute [s] replaces [p]. *)
Definition truediv (p : path) (s : string) : path :=
  if startswith "/" s then Path s else p ++ components s.

(** [str(p)]. *)
Definition path_str (p : path) : string :=
  match p with
  | [] => "."
  | a :: rest => if startswith "/" a then a +:+ join "/" rest else join "/" p
  end.

(** [p.name]: the last component, empty for a bare anchor. *)
Definition name (p : path) : string :=
  match last p with
  | Some n => if startswith "/" n then "" else n
  | None => ""
  end.

(** [s.rfind(c)], scanning from index [i]; [None] for -1. *)
Fixpoint rfind_from (c : ascii) (s : string) (i : nat) (acc : option nat) : option nat :=
  match s with
  | EmptyString => acc
  | String a s' => rfind_from c s' (S i) (if Ascii.eqb a c then Some i else acc)
  end.

Definition rfind (c : ascii) (s : string) : option nat := rfind_from c s 0 None.

(** Where [p.suffix] and [p.stem] cut the name: at the last dot, unless it is
    the first or the last character. *)
Definition suffix_cut (nm : string) : option nat :=
  match rfind "." nm with
  | Some i => if Nat.ltb 0 i && Nat.ltb i (String.length nm - 1) then Some i else None
  | None => None
  end.

(** [p.suffix]. *)
Definition suffix (p : path) : string :=
  match suffix_cut (name p) with
  | Some i => str_drop i (name p)
  | None => ""
  end.

(** [p.stem]. *)
Definition stem (p : path) : string :=
  match suffix_cut (name p) with
  | Some i => str_take i (name p)
  | None => name p
  end.

(** [p.parent]. *)
Definition parent (p : path) : path :=
  match p with
  | [] => []
  | [a] => if startswith "/" a then p else []
  | _ => removelast p
  end.

(** *** The file system: the directories and the files (with their text)
    that exist, keyed by path.  Paths are compared part by part: [".."] and
    symbolic links are not resolved.  The current directory (the empty
    relative path) and the root always exist. *)

Record FS := {
  dirs : gset path;
  files : gmap path string
}.

Definition is_file (fs : FS) (p : path) : bool :=
  bool_decide (is_Some (files fs !! p)).

Definition is_dir (fs : FS) (p : path) : bool :=
  match p with
  | [] => true
  | [a] => startswith "/" a || bool_decide (p ∈ dirs fs)
  | _ => bool_decide (p ∈ dirs fs)
  end.

(** [p.exists()]. *)
Definition path_exists (fs : FS) (p : path) : bool := is_dir fs p || is_file fs p.

(** The non-empty prefixes of a path, shortest first: the directories
    [mkdir(parents=True)] walks through. *)
Fixpoint prefixes (p : path) : list path :=
  match p with
  | [] => []
  | x :: r => [x] :: List.map (cons x) (prefixes r)
  end.

(** [p.mkdir(parents=True, exist_ok=True)]: creates every missing directory
    on the way; raises when a file stands at the path ([FileExistsError]) or
    on the way to it ([NotADirectoryError]). *)
Definition mkdir_parents (fs : FS) (p : path) : outcome FS :=
  if is_file fs p
  then Raised (OSError ("[Errno 17] File exists: '" +:+ path_str p +:+ "'"))
  else if existsb (is_file fs) (prefixes p)
  then Raised (OSError ("[Errno 20] Not a directory: '" +:+ path_str p +:+ "'"))
  else Returned {| dirs := dirs fs ∪ list_to_set (prefixes p); files := files fs |}.

(** [open(p, "w").write(text)]. *)
Definition write_text (fs : FS) (p : path) (text : string) : outcome FS :=
  if is_dir fs p
  then Raised (OSError ("[Errno 21] Is a directory: '" +:+ path_str p +:+ "'"))
  else if is_dir fs (parent p)
  then Returned {| dirs := dirs fs; files := <[p := text]> (files fs) |}
  else Raised (OSError ("[Errno 2] No such file or directory: '" +:+ path_str p +:+ "'")).

(** *** Syntax trees.  A node of Python's [ast] module: its class, its
    scalar attributes and its child fields in the order of [_fields]; a field
    that holds one node is a list of one, an absent one the empty list. *)

Inductive node :=
| Node (cls : string) (attrs : list (string * pyval)) (fields : list (string * list node)).

Definition node_cls (n : node) : string := let 'Node c _ _ := n in c.

Fixpoint assoc {A} (k : string) (l : list (string * A)) : option A :=
  match l with
  | [] => None
  | (k', v) :: l' => if String.eqb k k' then Some v else assoc k l'
  end.

(** A scalar attribute that holds a string, such as [node.name] or [node.id]. *)
Definition node_str (k : string) (n : node) : option string :=
  let 'Node _ attrs _ := n in
  match assoc k attrs with
  | Some (PyStr s) => Some s
  | _ => None
  end.

(** A child field, such as [node.body] or [node.bases]. *)
Definition node_field (k : string) (n : node) : list node :=
  let 'Node _ _ fields := n in
  match assoc k fields with
  | Some l => l
  | None => []
  end.

(** [isinstance(n, ast.<c>)]. *)
Definition isinstance (n : node) (c : string) : bool := String.eqb (node_cls n) c.

(** [ast.iter_child_nodes(n)]. *)
Definition iter_child_nodes (n : node) : list node :=
  let 'Node _ _ fields := n in List.concat (List.map snd fields).

Fixpoint size (n : node) : nat :=
  let 'Node _ _ fields := n in
  S (list_sum (List.map (fun f => list_sum (List.map size (snd f))) fields)).

(** [ast.walk]: breadth first, from a queue.  Each step takes one node off
    the queue and appends its children, so [size n] steps empty it. *)
Fixpoint walk_queue (fuel : nat) (todo : list node) : list node :=
  match fuel, todo with
  | S fuel', n :: todo' => n :: walk_queue fuel' (todo' ++ iter_child_nodes n)
  | _, _ => []
  end.

Definition walk (n : node) : list node := walk_queue (size n) [n].

(** [ast.Module(body, type_ignores=[])]. *)
Definition Module_ (body : list node) : node :=
  Node "Module" [] [("body", body); ("type_ignores", [])].

(** [node.name] of a class or function definition, [node.id] of a name. *)
Definition node_name (n : node) : string := default "" (node_str "name" n).
Definition node_id (n : node) : string := default "" (node_str "id" n).

(** [x in l] and [l.remove(x)] (the first occurrence) on a list of strings. *)
Definition str_in_list (x : string) (l : list string) : bool :=
  existsb (String.eqb x) l.

Fixpoint remove_first (x : string) (l : list string) : list string :=
  match l with
  | [] => []
  | y :: l' => if String.eqb x y then l' else y :: remove_first x l'
  end.

(** [p.read_text()]. *)
Definition read_text (fs : FS) (p : path) : outcome string :=
  match files fs !! p with
  | Some text => Returned text
  | None => Raised (OSError ("[Errno 2] No such file or directory: '" +:+ path_str p +:+ "'"))
  end.

(** [s.replace(pat, rep)] for a pattern that is not empty: the occurrences
    are taken from the left and do not overlap.  [skip] counts the characters
    of an occurrence that are still to be passed over. *)
Fixpoint replace_from (pat rep : string) (skip : nat) (s : string) : string :=
  match s with
  | EmptyString => EmptyString
  | String c s' =>
      match skip with
      | S k => replace_from pat rep k s'
      | O =>
          if String.prefix pat s
          then rep +:+ replace_from pat rep (String.length pat - 1) s'
          else String c (replace_from pat rep 0 s')
      end
  end.

Definition str_replace (pat rep s : string) : string := replace_from pat rep 0 s.

(** The carriage return, ["\r"] in the source. *)
Definition cr : string := chr 13.

(** The nodes of a tree: the tree itself and the nodes of its children. *)
Inductive subnode (m : node) : node -> Prop :=
| subnode_here : subnode m m
| subnode_child n c : In c (iter_child_nodes n) -> subnode m c -> subnode m n.

End Py.


(** ** The Python runtime, as data

    What the three modules observe of the objects Python hands them, and the
    answers of the library calls they make. *)

Module Runtime.
Import Py.

(** The result of [args_schema.model_json_schema()]: whether the dictionary
    is non-empty and whether it has the key ['properties']. *)
Record schema_view := {
  schema_truthy : bool;
  schema_has_properties : bool
}.

(** A class found as the value of an attribute. *)
Record class_view := {
  cv_name : string;                          (* __name__ *)
  cv_is_BaseModel : bool;                    (* issubclass(c, BaseModel) *)
  cv_type_repr : string;                     (* str(type(c)) *)
  cv_model_json_schema : outcome schema_view (* c.model_json_schema() *)
}.

(** The value of an instance attribute. *)
Inductive attr :=
| AttrStr (s : string)
| AttrClass (c : class_view)
| AttrOther (truthy : bool) (type_repr : string).

(** Keyword arguments: names and values, in order. *)
Abbreviation kwargs := (list (string * pyval)).

(** An instance of a tool class.  An absent attribute is [None];
    [inst_run args] is the text of the result of [instance.run] called with
    the keyword arguments [args], or what the call
    (or printing its result) raised. *)
Record instance_view := {
  inst_truthy : bool;                        (* bool(instance) *)
  inst_name : option attr;
  inst_description : option attr;
  inst_args_schema : option attr;
  inst_run_callable : bool;                  (* hasattr "run" and callable *)
  inst_run : kwargs -> outcome string
}.

(** A member of a loaded module. *)
Record member := {
  mb_isclass : bool;                         (* inspect.isclass(obj) *)
  mb_is_BaseTool : bool;                     (* issubclass(obj, BaseTool) *)
  mb_run_callable : bool;                    (* hasattr "_run" and callable *)
  mb_call : outcome instance_view            (* obj() *)
}.

(** A loaded module: [inspect.getmembers], names sorted and distinct. *)
Abbreviation module_view := (list (string * member)).

Record World := {
  (** [ast.parse(text).body], or what the parser raised. *)
  py_parse : string -> outcome (list node);
  (** [astor.to_source(tree)]. *)
  to_source : node -> string;
  (** [traceback.format_exc()] while the exception is handled. *)
  format_exc : exn -> string;
  (** [repr] of a dictionary of keyword arguments, as an f-string prints it. *)
  repr_kwargs : kwargs -> string;
  (** [s.lower()] on a text with characters outside ASCII: the case tables
      of the interpreter. *)
  str_lower : string -> string;
  (** [importlib.util.spec_from_file_location] followed by
      [module_from_spec], for a module name and the text of a path: [false]
      when there is no spec or no loader. *)
  import_spec : string -> string -> outcome bool;
  (** [str(p.parent.resolve())]. *)
  resolve_parent : path -> string;
  (** [spec.loader.exec_module(module)], given [sys.path] at that moment: the
      loaded module or the exception of its top-level code, and [sys.path]
      as that code leaves it. *)
  exec_module : string -> string -> list string -> outcome module_view * list string;
  (** [os.path.exists] on the text of a path. *)
  os_path_exists : string -> bool;
  (** The root of the project, computed when the executor module is loaded. *)
  project_root : string;
  (** The components of [os.path.abspath(os.getcwd())], root first. *)
  cwd : list string
}.

End Runtime.

(** ** The verifier: [tools/verificador/tool_verifier.py] *)

Module Verifier.
Import Py Runtime.

(** *** [_ToolAnalysisResult] *)

Record ToolAnalysisResult := mkRes {
  tool_path : path;
  errors : list string;
  warnings : list string;
  info : list string;
  tool_class_name : option string;
  tool_class : option member;
  ast_tree : option node;
  module : option module_view;
  found_args_schema_name : option string;
  tool_instance : option instance_view;
  error_components : gset string
}.

(** [_ToolAnalysisResult(tool_path)]. *)
Definition new_result (tool_path : string) : ToolAnalysisResult :=
  mkRes (Path tool_path) [] [] [] None None None None None None ∅.

Definition set_errors (l : list string) (r : ToolAnalysisResult) :=
  mkRes (tool_path r) l (warnings r) (info r) (tool_class_name r) (tool_class r)
        (ast_tree r) (module r) (found_args_schema_name r) (tool_instance r)
        (error_components r).
Definition set_warnings (l : list string) (r : ToolAnalysisResult) :=
  mkRes (tool_path r) (errors r) l (info r) (tool_class_name r) (tool_class r)
        (ast_tree r) (module r) (found_args_schema_name r) (tool_instance r)
        (error_components r).
Definition set_info (l : list string) (r : ToolAnalysisResult) :=
  mkRes (tool_path r) (errors r) (warnings r) l (tool_class_name r) (tool_class r)
        (ast_tree r) (module r) (found_args_schema_name r) (tool_instance r)
        (error_components r).
Definition set_tool_class_name (c : option string) (r : ToolAnalysisResult) :=
  mkRes (tool_path r) (errors r) (warnings r) (info r) c (tool_class r)
        (ast_tree r) (module r) (found_args_schema_name r) (tool_instance r)
        (error_components r).
Definition set_tool_class (c : option member) (r : ToolAnalysisResult) :=
  mkRes (tool_path r) (errors r) (warnings r) (info r) (tool_class_name r) c
        (ast_tree r) (module r) (found_args_schema_name r) (tool_instance r)
        (error_components r).
Definition set_ast_tree (t : option node) (r : ToolAnalysisResult) :=
  mkRes (tool_path r) (errors r) (warnings r) (info r) (tool_class_name r) (tool_class r)
        t (module r) (found_args_schema_name r) (tool_instance r)
        (error_components r).
Definition set_module (m : option module_view) (r : ToolAnalysisResult) :=
  mkRes (tool_path r) (errors r) (warnings r) (info r) (tool_class_name r) (tool_class r)
        (ast_tree r) m (found_args_schema_name r) (tool_instance r)
        (error_components r).
Definition set_tool_instance (i : option instance_view) (r : ToolAnalysisResult) :=
  mkRes (tool_path r) (errors r) (warnings r) (info r) (tool_class_name r) (tool_class r)
        (ast_tree r) (module r) (found_args_schema_name r) i
        (error_components r).
Definition set_error_components (s : gset string) (r : ToolAnalysisResult) :=
  mkRes (tool_path r) (errors r) (warnings r) (info r) (tool_class_name r) (tool_class r)
        (ast_tree r) (module r) (found_args_schema_name r) (tool_instance r) s.

(** [add_error(message, component)]; the component is optional, and an empty
    one counts as absent. *)
Definition add_error (message : string) (component : option string)
    (res : ToolAnalysisResult) : ToolAnalysisResult :=
  match component with
  | Some ((String _ _) as c) =>
      set_errors (errors res ++
                  ["ERRO NO COMPONENTE: " +:+ c +:+ nl +:+
                   repeat_str "-" 40 +:+ nl +:+
                   "Problema: " +:+ message])
        (set_error_components ({[c]} ∪ error_components res) res)
  | _ => set_errors (errors res ++ ["ERRO: " +:+ message]) res
  end.

(** [add_warning(message, component)]. *)
Definition add_warning (message : string) (component : option string)
    (res : ToolAnalysisResult) : ToolAnalysisResult :=
  match component with
  | Some ((String _ _) as c) =>
      set_warnings (warnings res ++
                    ["AVISO NO COMPONENTE: " +:+ c +:+ nl +:+
                     repeat_str "-" 40 +:+ nl +:+
                     "Atenção: " +:+ message +:+ nl]) res
  | _ => set_warnings (warnings res ++ ["AVISO: " +:+ message]) res
  end.

(** [add_info(message)]. *)
Definition add_info (message : string) (res : ToolAnalysisResult) : ToolAnalysisResult :=
  set_info (info res ++ ["INFO: " +:+ message]) res.

(** How an f-string prints an optional string. *)
Definition fmt_opt (o : option string) : string := default "None" o.

(** *** The result dictionary *)

Record report := {
  sucesso : bool;
  erros : list string;
  avisos : list string;
  infos : list string;
  r_tool_path : option string;
  r_tool_class_name : option string
}.

(** [_build_result_dict(res)]. *)
Definition _build_result_dict (res : ToolAnalysisResult) : report :=
  {| sucesso := is_empty (errors res);
     erros := errors res;
     avisos := warnings res;
     infos := info res;
     r_tool_path := Some (path_str (tool_path res));
     r_tool_class_name := tool_class_name res |}.

(** *** The stages *)

Section Stages.
Context (w : World).

(** [_identificar_componente_com_erro(source_code, linha_erro)]: the name of
    the component and its description.  The line is looked up without a
    guard, hence the [IndexError]. *)
Definition MAPEAMENTO_COMPONENTES : list (string * string) :=
  [("Método _run", "implementação do método _run");
   ("Atributos da Classe", "definição dos atributos da classe");
   ("Schema de Entrada", "definição dos parâmetros");
   ("Herança de Classe", "estrutura da classe");
   ("Estrutura Python", "sintaxe Python");
   ("Imports", "importações");
   ("Métodos Customizados", "métodos personalizados")].

Definition _identificar_componente_com_erro (source_code : string) (linha_erro : Z)
    : outcome (string * string) :=
  let linhas := split_char (ascii_of_nat 10) source_code in
  let linha_atual := linha_erro - 1 in
  match index linhas linha_atual with
  | None => Raised (IndexError "list index out of range")
  | Some linha =>
      let linha_atual_str := strip linha in
      let janela := slice linhas (Z.max 0 (linha_atual - 5))
                          (Z.min (Z.of_nat (length linhas)) (linha_atual + 5)) in
      let componente :=
        if py_in "_run" (join "" janela) then "Método _run"
        else if py_in "class" linha_atual_str &&
                (py_in "Tool" linha_atual_str || py_in "BaseTool" linha_atual_str)
        then "Herança de Classe"
        else if py_in "BaseModel" linha_atual_str || existsb (py_in "Field(") janela
        then "Schema de Entrada"
        else if existsb (fun a => py_in a linha_atual_str) ["name"; "description"; "args_schema"]
        then "Atributos da Classe"
        else if py_in "import" (lower (str_lower w) linha_atual_str) ||
                py_in "from" (lower (str_lower w) linha_atual_str)
        then "Imports"
        else if py_in "def" linha_atual_str && negb (py_in "_run" linha_atual_str)
        then "Métodos Customizados"
        else "Estrutura Python" in
      Returned (componente, default "" (assoc componente MAPEAMENTO_COMPONENTES))
  end.

(** The suggestion chosen from the parser's message. *)
Definition sugestao (msg : string) : string :=
  if String.eqb msg "expected ':'"
  then "Sugestão: Adicione dois pontos (:) ao final da linha"
  else if py_in "unexpected EOF" msg
  then "Sugestão: Verifique parênteses/colchetes não fechados"
  else if py_in "unexpected indent" msg
  then "Sugestão: Corrija a indentação da linha"
  else "Sugestão: Verifique a sintaxe Python na linha".

(** The line of the error as it is reported: stripped, and cut to 27
    characters and an ellipsis when longer than 30. *)
Definition linha_com_erro (linha : string) : string :=
  let l := strip linha in
  if 30 <? len l then take_chars 27 l +:+ "..." else l.

(** The handler of [SyntaxError] in [_verify_ast]. *)
Definition on_syntax_error (source_code : string) (e : syntax_error)
    (res : ToolAnalysisResult) : outcome ToolAnalysisResult :=
  match se_lineno e with
  | None => Raised (TypeError "unsupported operand type(s) for -: 'NoneType' and 'int'")
  | Some lineno =>
      let linhas := split_char (ascii_of_nat 10) source_code in
      let inicio := Z.max 0 (lineno - 3) in
      let fim := Z.min (Z.of_nat (length linhas)) (lineno + 2) in
      let contexto := slice linhas inicio fim in
      componente ← _identificar_componente_com_erro source_code lineno;
      let parte1 := "Erro de sintaxe na linha " +:+ pretty lineno +:+ ": " +:+ se_msg e in
      let parte2 := "Componente: " +:+ fst componente in
      let res := add_error parte1 None res in
      let res := add_error parte2 None res in
      let k := lineno - inicio - 1 in
      if negb (is_empty contexto) && (0 <=? k) && (k <? Z.of_nat (length contexto))
      then match index contexto k with
           | None => Raised (IndexError "list index out of range")
           | Some linha =>
               let res := add_error ("Código: " +:+ linha_com_erro linha) None res in
               Returned (add_error (sugestao (se_msg e)) None res)
           end
      else Returned res
  end.

(** The class the walk stops at: a [ClassDef] whose name ends in ["Tool"]. *)
Definition is_tool_class (n : node) : bool :=
  isinstance n "ClassDef" && endswith "Tool" (node_name n).

(** The body of the loop over [ast.walk] for the class found. *)
Definition check_class (n : node) (res : ToolAnalysisResult) : ToolAnalysisResult :=
  let res := set_tool_class_name (Some (node_name n)) res in
  let res := add_info ("Classe AST encontrada: " +:+ node_name n) res in
  let base_names :=
    List.map node_id (List.filter (fun b => isinstance b "Name") (node_field "bases" n)) in
  let res :=
    if negb (str_in_list "BaseTool" base_names)
    then add_warning
           ("AVISO DE HERANÇA" +:+ nl +:+
            repeat_str "-" 20 +:+ nl +:+
            "Classe: " +:+ node_name n +:+ nl +:+
            "Problema: Não herda diretamente de 'BaseTool'" +:+ nl +:+
            "Ação: Verifique se a classe herda corretamente de 'BaseTool'" +:+ nl +:+
            "Exemplo:" +:+ nl +:+
            "class MinhaFerramenta(BaseTool):" +:+ nl +:+
            "    ...") None res
    else add_info "Herança de BaseTool verificada na AST." res in
  match List.find (fun item => isinstance item "FunctionDef" && String.eqb (node_name item) "_run")
                  (node_field "body" n) with
  | None =>
      add_error
        ("ERRO NO MÉTODO _run" +:+ nl +:+
         repeat_str "-" 20 +:+ nl +:+
         "Classe: " +:+ node_name n +:+ nl +:+
         "Problema: Método '_run' não encontrado" +:+ nl +:+
         "Ação: Adicione o método '_run' à classe" +:+ nl +:+
         "Exemplo:" +:+ nl +:+
         "    def _run(self, param1: str, param2: int = 0) -> dict:" +:+ nl +:+
         "        return {'resultado': 'processado'}") None res
  | Some _ => add_info "Método '_run' encontrado na AST." res
  end.

(** What the walk and [check_class] read of a statement: its class and
    name, the class and identifier of each base, and the class and name of
    each statement of its body. *)
Definition header (n : node) : string * string := (node_cls n, node_name n).

Definition outline (n : node)
    : (string * string) * list (string * string) * list (string * string) :=
  (header n,
   List.map (fun b => (node_cls b, node_id b)) (node_field "bases" n),
   List.map header (node_field "body" n)).

(** The part of [_verify_ast] after a successful parse. *)
Definition find_tool_class (tree : node) (res : ToolAnalysisResult)
    : bool * ToolAnalysisResult :=
  match List.find is_tool_class (walk tree) with
  | Some n => (true, check_class n res)
  | None =>
      (false,
       add_error
         ("ERRO NA ESTRUTURA DA CLASSE" +:+ nl +:+
          repeat_str "-" 20 +:+ nl +:+
          "Problema: Nenhuma classe terminando com 'Tool' foi encontrada" +:+ nl +:+
          "Ação: Crie uma classe que herde de BaseTool e termine com 'Tool'" +:+ nl +:+
          "Exemplo:" +:+ nl +:+
          "class MinhaFerramenta(BaseTool):" +:+ nl +:+
          "    name = 'Minha Ferramenta'" +:+ nl +:+
          "    description = 'Descrição da ferramenta'") None res)
  end.

(** [_verify_ast(res)]: [false] stops the pipeline.  An exception raised
    inside the [SyntaxError] handler is not caught by the handler next to
    it and leaves the method. *)
Definition _verify_ast (fs : FS) (res : ToolAnalysisResult)
    : outcome (bool * ToolAnalysisResult) :=
  let res := add_info "Analisando AST para erros de sintaxe e estrutura" res in
  let on_other (e : exn) : outcome (bool * ToolAnalysisResult) :=
    if is_Exception e
    then Returned (false,
                   add_error ("Erro ao ler ou parsear o arquivo: " +:+ exn_str e +:+ nl +:+
                              format_exc w e) None res)
    else Raised e in
  match read_text fs (tool_path res) with
  | Raised e => on_other e
  | Returned source_code =>
      match py_parse w source_code with
      | Returned body =>
          let res := set_ast_tree (Some (Module_ body)) res in
          let res := add_info "Sintaxe do arquivo Python válida" res in
          Returned (find_tool_class (Module_ body) res)
      | Raised (SyntaxError e) =>
          res' ← on_syntax_error source_code e res;
          Returned (false, res')
      | Raised e => on_other e
      end
  end.

End Stages.

Section Dynamic.
Context (w : World).

(** The [finally] clause of the import stage: the parent directory leaves
    [sys.path] when it is there and was not there before. *)
Definition restore_sys_path (parent_dir : string) (original_sys_path sys_path : list string)
    : list string :=
  if str_in_list parent_dir sys_path && negb (str_in_list parent_dir original_sys_path)
  then remove_first parent_dir sys_path
  else sys_path.

(** The loop over [inspect.getmembers]: [None] when it ends without [break]. *)
Fixpoint inspect_members (class_name : string) (members : module_view)
    (res : ToolAnalysisResult) : option ToolAnalysisResult :=
  match members with
  | [] => None
  | (name, obj) :: rest =>
      if String.eqb name class_name && mb_isclass obj
      then if negb (mb_is_BaseTool obj)
           then inspect_members class_name rest res
           else
             let res := add_info ("Encontrada classe '" +:+ name +:+ "' herdando de BaseTool.") res in
             let res := set_tool_class (Some obj) res in
             Some (if negb (mb_run_callable obj)
                   then add_error ("Método '_run' não encontrado ou não é chamável na classe '" +:+
                                   name +:+ "' carregada.") None res
                   else add_info "Método '_run' encontrado e chamável via inspeção." res)
      else inspect_members class_name rest res
  end.

(** The two handlers that close [_verify_import_and_inspect]. *)
Definition on_import_exception (e : exn) (res : ToolAnalysisResult)
    : outcome ToolAnalysisResult :=
  match e with
  | ImportError _ =>
      Returned (add_error ("Erro de importação ao carregar o módulo ou suas dependências: " +:+
                           exn_str e +:+ nl +:+ format_exc w e) None res)
  | _ =>
      if is_Exception e
      then Returned (add_error ("Erro inesperado durante a importação ou inspeção: " +:+
                                exn_str e +:+ nl +:+ format_exc w e) None res)
      else Raised e
  end.

(** [_verify_import_and_inspect(res)], with [sys.path] before and after.
    [res.module], set before the module's code runs and read only after it
    ran, is recorded once the code has run. *)
Definition _verify_import_and_inspect (res : ToolAnalysisResult) (sys_path : list string)
    : outcome ToolAnalysisResult * list string :=
  match tool_class_name res with
  | None | Some EmptyString =>
      (Returned (add_warning "Importação pulada: Nenhuma classe de ferramenta foi encontrada na AST."
                             None res), sys_path)
  | Some class_name =>
      let res := add_info ("Tentando importar dinamicamente o módulo: " +:+ stem (tool_path res)) res in
      let module_name := stem (tool_path res) in
      match import_spec w module_name (path_str (tool_path res)) with
      | Raised e => (on_import_exception e res, sys_path)
      | Returned false =>
          (Returned (add_error ("Falha ao criar spec de importação para " +:+ module_name +:+ ".")
                               None res), sys_path)
      | Returned true =>
          let original_sys_path := sys_path in
          let parent_dir := resolve_parent w (tool_path res) in
          let sys_path :=
            if negb (str_in_list parent_dir sys_path) then parent_dir :: sys_path else sys_path in
          let '(loaded, sys_path) :=
            exec_module w module_name (path_str (tool_path res)) sys_path in
          match loaded with
          | Returned m =>
              let res := set_module (Some m) res in
              let res := add_info "Módulo importado com sucesso." res in
              let sys_path := restore_sys_path parent_dir original_sys_path sys_path in
              (Returned
                 match inspect_members class_name m res with
                 | Some res' => res'
                 | None =>
                     add_error ("Classe '" +:+ class_name +:+
                                "' (encontrada na AST) não foi encontrada no módulo importado.")
                               None res
                 end, sys_path)
          | Raised e_exec =>
              if is_Exception e_exec
              then
                let res :=
                  add_error ("Erro durante a execução do código do módulo (nível superior): " +:+
                             exn_str e_exec +:+ nl +:+ format_exc w e_exec) None res in
                let sys_path :=
                  if str_in_list parent_dir sys_path
                  then remove_first parent_dir sys_path else sys_path in
                (Returned res, restore_sys_path parent_dir original_sys_path sys_path)
              else (Raised e_exec, restore_sys_path parent_dir original_sys_path sys_path)
          end
      end
  end.

(** [isinstance(getattr(instance, a, None), str)] after [hasattr]. *)
Definition attr_is_str (a : option attr) : option string :=
  match a with
  | Some (AttrStr s) => Some s
  | _ => None
  end.

(** [_verify_instance(res)]. *)
Definition _verify_instance (res : ToolAnalysisResult) : outcome ToolAnalysisResult :=
  match tool_class res with
  | None => Returned (add_info "Instanciação pulada devido a classe não carregada." res)
  | Some cls =>
      let res := add_info ("Tentando instanciar '" +:+ fmt_opt (tool_class_name res) +:+ "'...") res in
      match mb_call cls with
      | Returned instance =>
          let res := add_info "Instanciação da ferramenta bem-sucedida." res in
          let res := set_tool_instance (Some instance) res in
          let res :=
            match attr_is_str (inst_name instance) with
            | None =>
                add_error ("Atributo 'name' (string) não encontrado na INSTÂNCIA de '" +:+
                           fmt_opt (tool_class_name res) +:+ "'.") None res
            | Some n =>
                add_info ("Atributo 'name' encontrado na instância: '" +:+ n +:+ "'.") res
            end in
          let res :=
            match attr_is_str (inst_description instance) with
            | None =>
                add_error ("Atributo 'description' (string) não encontrado na INSTÂNCIA de '" +:+
                           fmt_opt (tool_class_name res) +:+ "'.") None res
            | Some _ => add_info "Atributo 'description' encontrado na instância." res
            end in
          Returned
            match inst_args_schema instance with
            | None =>
                add_error "Atributo 'args_schema' não encontrado na instância da ferramenta." None res
            | Some (AttrClass c) =>
                if cv_is_BaseModel c
                then add_info ("Atributo 'args_schema' encontrado na instância: " +:+
                               cv_name c +:+ ".") res
                else add_error ("Atributo 'args_schema' na INSTÂNCIA de '" +:+
                                fmt_opt (tool_class_name res) +:+
                                "' não é uma subclasse de pydantic.BaseModel.") None res
            | Some _ =>
                add_error ("Atributo 'args_schema' na INSTÂNCIA de '" +:+
                           fmt_opt (tool_class_name res) +:+
                           "' não é uma subclasse de pydantic.BaseModel.") None res
            end
      | Raised e =>
          if is_Exception e
          then Returned (add_error ("Falha na instanciação: " +:+ exn_str e +:+ nl +:+
                                    format_exc w e) None res)
          else Raised e
      end
  end.

(** [str(type(v))] of an attribute value, [None] when absent. *)
Definition attr_type_repr (a : option attr) : string :=
  match a with
  | None => "<class 'NoneType'>"
  | Some (AttrStr _) => "<class 'str'>"
  | Some (AttrClass c) => cv_type_repr c
  | Some (AttrOther _ r) => r
  end.

(** [_verify_args_schema(res)], called with the instance created. *)
Definition _verify_args_schema (instance : instance_view) (res : ToolAnalysisResult)
    : outcome ToolAnalysisResult :=
  match inst_args_schema instance with
  | Some (AttrClass c) =>
      if cv_is_BaseModel c
      then
        let res := add_info ("Verificando a validade do Pydantic Model: " +:+ cv_name c) res in
        match cv_model_json_schema c with
        | Returned schema =>
            Returned
              (if negb (schema_truthy schema) || negb (schema_has_properties schema)
               then add_warning ("O schema Pydantic '" +:+ cv_name c +:+
                                 "' parece vazio ou inválido (sem propriedades definidas).")
                                None res
               else add_info ("Schema Pydantic '" +:+ cv_name c +:+ "' parece válido.") res)
        | Raised e =>
            if is_Exception e
            then Returned (add_error ("Erro ao validar o Pydantic Model '" +:+ cv_name c +:+
                                      "': " +:+ exn_str e +:+ nl +:+ format_exc w e) None res)
            else Raised e
        end
      else
        Returned
          (if negb (existsb (py_in "args_schema") (errors res))
           then add_warning ("Atributo 'args_schema' na instância é inesperadamente inválido (type=" +:+
                             cv_type_repr c +:+ ") apesar de ter passado na verificação inicial.")
                            None res
           else res)
  | a =>
      Returned
        (if negb (existsb (py_in "args_schema") (errors res))
         then add_warning ("Atributo 'args_schema' na instância é inesperadamente inválido (type=" +:+
                           attr_type_repr a +:+ ") apesar de ter passado na verificação inicial.")
                          None res
         else res)
  end.

(** The closing lines of [run]: the summary entry and the final info. *)
Definition conclude (res : ToolAnalysisResult) : ToolAnalysisResult :=
  let res :=
    if is_empty (errors res) && is_empty (warnings res)
    then add_info "Verificação concluída sem erros ou avisos críticos." res
    else if is_empty (errors res)
    then add_warning "Verificação concluída com avisos." None res
    else add_error "Verificação concluída com erros críticos." None res in
  add_info ("Verificação finalizada para: " +:+ path_str (tool_path res)) res.

(** [run(tool_path, **kwargs)] on a file system, with [sys.path] before and
    after.  [kwargs_tool_path] is [kwargs.get('tool_path')]. *)
Definition run (fs : FS) (sys_path : list string)
    (tool_path : option string) (kwargs_tool_path : option string)
    : outcome report * list string :=
  match (match tool_path with Some p => Some p | None => kwargs_tool_path end) with
  | None =>
      (Returned {| sucesso := false;
                   erros := [" ERRO: Argumento 'tool_path' não fornecido."];
                   avisos := [];
                   infos := [];
                   r_tool_path := None;
                   r_tool_class_name := None |}, sys_path)
  | Some tool_path =>
      let res := new_result tool_path in
      let res := add_info ("Iniciando verificação para: " +:+ path_str (Verifier.tool_path res)) res in
      if negb (path_exists fs (Verifier.tool_path res))
      then (Returned (_build_result_dict
                        (add_error ("Arquivo não encontrado: " +:+ path_str (Verifier.tool_path res))
                                   None res)), sys_path)
      else if negb (is_file fs (Verifier.tool_path res)) ||
              negb (String.eqb (suffix (Verifier.tool_path res)) ".py")
      then (Returned (_build_result_dict
                        (add_error ("O caminho fornecido não é um arquivo .py válido: " +:+
                                    path_str (Verifier.tool_path res)) None res)), sys_path)
      else
        match _verify_ast w fs res with
        | Raised e => (Raised e, sys_path)
        | Returned (false, res) => (Returned (_build_result_dict res), sys_path)
        | Returned (true, res) =>
            match _verify_import_and_inspect res sys_path with
            | (Raised e, sys_path) => (Raised e, sys_path)
            | (Returned res, sys_path) =>
                let after_instance :=
                  match tool_class res with
                  | Some _ => _verify_instance res
                  | None => Returned res
                  end in
                match after_instance with
                | Raised e => (Raised e, sys_path)
                | Returned res =>
                    let after_schema :=
                      match tool_instance res with
                      | Some instance =>
                          if inst_truthy instance
                          then _verify_args_schema instance res
                          else Returned (add_warning
                                 "Verificação do args_schema pulada pois a instância da ferramenta não pôde ser criada."
                                 None res)
                      | None =>
                          Returned (add_warning
                            "Verificação do args_schema pulada pois a instância da ferramenta não pôde ser criada."
                            None res)
                      end in
                    match after_schema with
                    | Raised e => (Raised e, sys_path)
                    | Returned res => (Returned (_build_result_dict (conclude res)), sys_path)
                    end
                end
            end
        end
  end.

End Dynamic.

(** What can leave [run]: an exception outside [Exception] raised by the
    code under inspection, or the failure of the handler of syntax errors on
    an error without a line or with a line outside the file. *)
Definition escapes (e : exn) : Prop :=
  is_Exception e = false \/
  e = TypeError "unsupported operand type(s) for -: 'NoneType' and 'int'" \/
  e = IndexError "list index out of range".

(** *** The textual report and the static check of the class attributes

    Two methods the class keeps beside the pipeline; [run] calls neither. *)

(** The lines of [_format_report()]. *)
Definition format_report_lines (res : ToolAnalysisResult) : list string :=
  let status :=
    if is_empty (errors res) && is_empty (warnings res)
    then ["**Status: APROVADO (com ressalvas)**";
          "   A verificação estática e de importação foi concluída sem erros ou avisos críticos.";
          "   A instanciação não foi testada ou falhou (ver avisos), mas a estrutura parece válida."]
    else if is_empty (errors res)
    then ["**Status: APROVADO COM AVISOS**";
          "   A ferramenta passou nas verificações essenciais, mas há avisos a serem considerados."]
    else ["**Status: FALHA**";
          "   Foram encontrados erros críticos que impedem o uso seguro da ferramenta."] in
  ["## Relatório de Verificação: " +:+ name (tool_path res)]
  ++ status
  ++ [match tool_class_name res with
      | Some ((String _ _) as c) => "**Classe da Ferramenta Identificada:** `" +:+ c +:+ "`"
      | _ => "**Classe da Ferramenta:** Nenhuma classe terminando com 'Tool' foi encontrada."
      end]
  ++ (if is_empty (info res) then [] else "### Informações:" :: info res)
  ++ (if is_empty (warnings res) then [] else "### Avisos:" :: warnings res)
  ++ (if is_empty (errors res) then [] else "### Erros Críticos:" :: errors res)
  ++ ["### Próximos Passos:"]
  ++ (if is_empty (errors res)
      then ["- Revise os avisos (se houver).";
            "- Realize testes funcionais da ferramenta com dados reais.";
            "- Se a instanciação falhou (ver avisos), investigue possíveis problemas de inicialização ou dependências."]
      else ["- Corrija os erros críticos listados.";
            "- Execute a verificação novamente após as correções."]).

(** [_format_report()]. *)
Definition _format_report (res : ToolAnalysisResult) : string :=
  join nl (format_report_lines res).

(** The dictionary [required_attrs], in the order of its keys. *)
Definition required_attrs : list (string * bool) :=
  [("name", false); ("description", false); ("args_schema", false)].

(** [required_attrs[target.id] = True] for a target that is a name and a
    key of the dictionary. *)
Definition mark_target (found : list (string * bool)) (target : node) : list (string * bool) :=
  if isinstance target "Name" && str_in_list (node_id target) (List.map fst found)
  then List.map (fun kv => if String.eqb (fst kv) (node_id target) then (fst kv, true) else kv)
                found
  else found.

(** One statement of the class body: an annotated assignment has one
    target, an assignment a list of them. *)
Definition mark_item (found : list (string * bool)) (item : node) : list (string * bool) :=
  if isinstance item "AnnAssign" then fold_left mark_target (node_field "target" item) found
  else if isinstance item "Assign" then fold_left mark_target (node_field "targets" item) found
  else found.

(** [_check_for_class_attributes(node, res)]. *)
Definition _check_for_class_attributes (n : node) (res : ToolAnalysisResult)
    : ToolAnalysisResult :=
  let found := fold_left mark_item (node_field "body" n) required_attrs in
  fold_left
    (fun res kv =>
       if negb (snd kv)
       then add_warning ("Atributo de classe '" +:+ fst kv +:+
                         "' não detectado estaticamente via AST. Será verificado na instância.")
                        None res
       else add_info ("Atributo de classe '" +:+ fst kv +:+ "' encontrado na AST.") res)
    found res.

(** What the check looks for in the class body: a statement that assigns
    to the name [attr], with an annotation or without. *)
Definition names_attr (attr : string) (target : node) : bool :=
  isinstance target "Name" && String.eqb (node_id target) attr.

Definition assigns (attr : string) (item : node) : bool :=
  (isinstance item "AnnAssign" && existsb (names_attr attr) (node_field "target" item)) ||
  (isinstance item "Assign" && existsb (names_attr attr) (node_field "targets" item)).

End Verifier.

(** ** Constructors of syntax trees, as [ast.<Class>(...)] builds them.
    The child fields stand in the order of the class's [_fields]. *)

Module Ast.
Import Py.

Definition Load : node := Node "Load" [] [].
Definition Store : node := Node "Store" [] [].
Definition Eq : node := Node "Eq" [] [].
Definition Pass : node := Node "Pass" [] [].

Definition Constant (value : pyval) : node :=
  Node "Constant" [("value", value)] [].

Definition Name (id : string) (ctx : node) : node :=
  Node "Name" [("id", PyStr id)] [("ctx", [ctx])].

Definition Expr (value : node) : node :=
  Node "Expr" [] [("value", [value])].

Definition Return (value : node) : node :=
  Node "Return" [] [("value", [value])].

Definition Assign (targets : list node) (value : node) : node :=
  Node "Assign" [] [("targets", targets); ("value", [value])].

Definition AnnAssign (target annotation value : node) (simple : Z) : node :=
  Node "AnnAssign" [("simple", PyInt simple)]
       [("target", [target]); ("annotation", [annotation]); ("value", [value])].

Definition keyword (arg : string) (value : node) : node :=
  Node "keyword" [("arg", PyStr arg)] [("value", [value])].

Definition Call (func : node) (args keywords : list node) : node :=
  Node "Call" [] [("func", [func]); ("args", args); ("keywords", keywords)].

Definition Attribute (value : node) (attr : string) (ctx : node) : node :=
  Node "Attribute" [("attr", PyStr attr)] [("value", [value]); ("ctx", [ctx])].

Definition Subscript (value slice ctx : node) : node :=
  Node "Subscript" [] [("value", [value]); ("slice", [slice]); ("ctx", [ctx])].

Definition List_ (elts : list node) (ctx : node) : node :=
  Node "List" [] [("elts", elts); ("ctx", [ctx])].

Definition Tuple (elts : list node) (ctx : node) : node :=
  Node "Tuple" [] [("elts", elts); ("ctx", [ctx])].

Definition Dict (keys values : list node) : node :=
  Node "Dict" [] [("keys", keys); ("values", values)].

Definition JoinedStr (values : list node) : node :=
  Node "JoinedStr" [] [("values", values)].

Definition FormattedValue (value : node) (conversion : Z) : node :=
  Node "FormattedValue" [("conversion", PyInt conversion)] [("value", [value])].

Definition Compare (left : node) (ops comparators : list node) : node :=
  Node "Compare" [] [("left", [left]); ("ops", ops); ("comparators", comparators)].

Definition If (test : node) (body orelse : list node) : node :=
  Node "If" [] [("test", [test]); ("body", body); ("orelse", orelse)].

(** [ast.arg(arg, annotation)]; no annotation is the empty field. *)
Definition arg (name : string) (annotation : list node) : node :=
  Node "arg" [("arg", PyStr name)] [("annotation", annotation)].

(** [ast.arguments] with positional arguments and their defaults only. *)
Definition arguments (args defaults : list node) : node :=
  Node "arguments" []
       [("posonlyargs", []); ("args", args); ("vararg", []); ("kwonlyargs", []);
        ("kw_defaults", []); ("kwarg", []); ("defaults", defaults)].

(** The argument that takes the default of index [k]: Python gives the
    defaults of a signature to its last arguments. *)
Definition default_target (args defaults : list node) (k : nat) : option node :=
  args !! (length args - length defaults + k)%nat.

Definition FunctionDef (name : string) (args : node) (body : list node)
    (returns : list node) : node :=
  Node "FunctionDef" [("name", PyStr name)]
       [("args", [args]); ("body", body); ("decorator_list", []); ("returns", returns)].

Definition ClassDef (name : string) (bases body : list node) : node :=
  Node "ClassDef" [("name", PyStr name)]
       [("bases", bases); ("keywords", []); ("body", body); ("decorator_list", [])].

(** Import statements, as the parser builds them. *)
Definition alias (name : string) : node :=
  Node "alias" [("name", PyStr name)] [].

Definition Import (names : list node) : node :=
  Node "Import" [] [("names", names)].

Definition ImportFrom (module : string) (names : list node) : node :=
  Node "ImportFrom" [("module", PyStr module); ("level", PyInt 0)] [("names", names)].

End Ast.

(** ** The creator: [tools/dynamic_tool_creator/dynamic_tool_creator.py] *)

Module Creator.
Import Py Runtime Ast.

(** *** [ToolParameter] and [ToolDefinition] *)

Record ToolParameter := {
  param_name : string;
  param_type : string;
  param_description : string;
  param_required : bool;
  param_default : pyval        (* [PyNone] when there is none *)
}.

(** A parameter given as a dictionary: each key may be missing. *)
Record param_dict := {
  d_name : option string;
  d_type : option string;
  d_description : option string;
  d_required : option bool;
  d_default : option pyval
}.

(** An element of [parameters]: a dictionary or a [ToolParameter]. *)
Inductive param_input :=
| ParamDict (d : param_dict)
| ParamObject (p : ToolParameter).

(** The definition the builder works on, its parameters converted. *)
Record ToolDefinition := {
  def_name : string;
  def_description : string;
  def_parameters : list ToolParameter;
  def_implementation : string;
  def_imports : list string;
  def_custom_methods : list string
}.

(** The conversion to a dictionary in [_run]. *)
Definition to_dict (p : param_input) : param_dict :=
  match p with
  | ParamDict d => d
  | ParamObject p =>
      {| d_name := Some (param_name p);
         d_type := Some (param_type p);
         d_description := Some (param_description p);
         d_required := Some (param_required p);
         d_default := Some (param_default p) |}
  end.

(** The conversion to a [ToolParameter] in [ToolASTBuilder.__init__]. *)
Definition to_parameter (d : param_dict) : ToolParameter :=
  {| param_name := default "" (d_name d);
     param_type := default "string" (d_type d);
     param_description := default "Parâmetro sem descrição" (d_description d);
     param_required := default true (d_required d);
     param_default := default PyNone (d_default d) |}.

(** [v is not None]. *)
Definition is_not_None (v : pyval) : bool :=
  match v with
  | PyNone => false
  | _ => true
  end.

(** *** [ToolASTBuilder] *)

Section Builder.
Context (w : World).
Context (tool_def : ToolDefinition).

(** [self.tool_def.name.replace(' ', '')]. *)
Definition tool_name_clean : string := replace_char " " "" (def_name tool_def).

Definition get_description_func : node :=
  FunctionDef "get_description"
    (arguments [arg "key" [Name "str" Load]] [])
    [Expr (Constant (PyStr
       "Retorna a descrição para a chave especificada do dicionário DESCRIPTIONS."));
     Return
       (Call (Attribute (Name "DESCRIPTIONS" Load) "get" Load)
             [Name "key" Load;
              JoinedStr [Constant (PyStr "Descrição para ");
                         FormattedValue (Name "key" Load) (-1);
                         Constant (PyStr " não encontrada")]]
             [])]
    [Name "str" Load].

(** [_create_descriptions_dict()]: the statements it appends to the tree. *)
Definition _create_descriptions_dict : list node :=
  let keys :=
    List.map (fun p => Constant (PyStr (tool_name_clean +:+ "Parameters." +:+ param_name p)))
             (def_parameters tool_def)
    ++ [Constant (PyStr (tool_name_clean +:+ "Tool.description"))] in
  let values :=
    List.map (fun p => Constant (PyStr (param_description p))) (def_parameters tool_def)
    ++ [Constant (PyStr (def_description tool_def))] in
  [Expr (Constant (PyStr "# Dicionário centralizado de descrições"));
   Assign [Name "DESCRIPTIONS" Store] (Dict keys values);
   Expr (Constant (PyStr "# Função para obter descrições do dicionário local"));
   get_description_func].

Definition standard_imports : list string :=
  ["from typing import Dict, List, Any, Optional, Type";
   "from pydantic import BaseModel, Field";
   "from crewai.tools import BaseTool"].

(** The loop that removes duplicates and keeps the first occurrence. *)
Fixpoint unique_imports (seen : list string) (l : list string) : list string :=
  match l with
  | [] => []
  | imp :: l' =>
      if str_in_list imp seen then unique_imports seen l'
      else imp :: unique_imports (imp :: seen) l'
  end.

(** [ast.parse(code).body[0]]. *)
Definition first_statement (code : string) : outcome node :=
  body ← py_parse w code;
  match body with
  | [] => Raised (IndexError "list index out of range")
  | n :: _ => Returned n
  end.

(** [add_imports()]: the statements it appends to the tree. *)
Definition add_imports : outcome (list node) :=
  imports ← mapM first_statement
                 (unique_imports [] (standard_imports ++ def_imports tool_def));
  Returned (imports ++ _create_descriptions_dict).

(** [_get_type_annotation(param_type)]. *)
Definition _get_type_annotation (param_type : string) : node :=
  if String.eqb param_type "string" then Name "str" Load
  else if String.eqb param_type "integer" then Name "int" Load
  else if String.eqb param_type "number" then Name "float" Load
  else if String.eqb param_type "boolean" then Name "bool" Load
  else if String.eqb param_type "array"
  then Subscript (Name "List" Load) (Name "Any" Load) Load
  else if String.eqb param_type "object"
  then Subscript (Name "Dict" Load) (Tuple [Name "str" Load; Name "Any" Load] Load) Load
  else Name "Any" Load.

(** The default of an optional field in [create_parameter_model]. *)
Definition field_default (param : ToolParameter) : node :=
  if is_not_None (param_default param) then Constant (param_default param)
  else if String.eqb (param_type param) "string" then Constant (PyStr "")
  else if String.eqb (param_type param) "integer" || String.eqb (param_type param) "number"
  then Constant (PyInt 0)
  else if String.eqb (param_type param) "boolean" then Constant (PyBool false)
  else if String.eqb (param_type param) "array" then List_ [] Load
  else if String.eqb (param_type param) "object" then Dict [] []
  else Constant PyNone.

(** The field of one parameter in the parameter model. *)
Definition field_assign (param : ToolParameter) : node :=
  let type_annotation := _get_type_annotation (param_type param) in
  let field_value :=
    if param_required param
    then Call (Name "Field" Load) [Constant PyEllipsis]
              [keyword "description" (Constant (PyStr (param_description param)))]
    else Call (Name "Field" Load) []
              [keyword "description" (Constant (PyStr (param_description param)));
               keyword "default" (field_default param)] in
  AnnAssign (Name (param_name param) Store) type_annotation field_value 1.

(** [create_parameter_model()]: nothing without parameters. *)
Definition create_parameter_model : list node :=
  match def_parameters tool_def with
  | [] => []
  | _ =>
      let model_name := tool_name_clean +:+ "Parameters" in
      let class_body :=
        Expr (Constant (PyStr ("Parâmetros para a ferramenta " +:+ def_name tool_def +:+ ".")))
        :: List.map field_assign (def_parameters tool_def) in
      [ClassDef model_name [Name "BaseModel" Load] class_body]
  end.

(** The default of an optional parameter in [_create_run_method]: the same
    table, written a second time in the source. *)
Definition run_default (param : ToolParameter) : node :=
  if is_not_None (param_default param) then Constant (param_default param)
  else if String.eqb (param_type param) "string" then Constant (PyStr "")
  else if String.eqb (param_type param) "integer" || String.eqb (param_type param) "number"
  then Constant (PyInt 0)
  else if String.eqb (param_type param) "boolean" then Constant (PyBool false)
  else if String.eqb (param_type param) "array" then List_ [] Load
  else if String.eqb (param_type param) "object" then Dict [] []
  else Constant PyNone.

(** The arguments of [_run]: [self], then one per parameter. *)
Definition run_args : list node :=
  arg "self" [] ::
  List.map (fun p => arg (param_name p) [_get_type_annotation (param_type p)])
           (def_parameters tool_def).

(** The list [defaults] of [_run]: one entry per optional parameter. *)
Definition run_defaults : list node :=
  List.map run_default
           (List.filter (fun p => negb (param_required p)) (def_parameters tool_def)).

(** The numbered lines of context, with the marker under the failing one. *)
Fixpoint context_entries (erro_linha : Z) (erro_offset : option Z)
    (numbered : list (Z * string)) : outcome (list string) :=
  match numbered with
  | [] => Returned []
  | (i, linha) :: rest =>
      let marcador := if i =? erro_linha then ">>" else "  " in
      let entry := marcador +:+ " " +:+ fmt_4d i +:+ " | " +:+ linha in
      here ←
        (if i =? erro_linha
         then match erro_offset with
              | None => Raised (TypeError "unsupported operand type(s) for -: 'NoneType' and 'int'")
              | Some offset =>
                  Returned [entry; "     | " +:+ repeat_str " " (Z.to_nat (offset - 1)) +:+ "^"]
              end
         else Returned [entry]);
      more ← context_entries erro_linha erro_offset rest;
      Returned (here ++ more)
  end.

(** The fixed instructions that end the message. *)
Definition instrucoes : list string :=
  [repeat_str "-" 20;
   "" +:+ nl +:+
     "ATENÇÃO - PARÂMETROS DA FERRAMENTA:";
   "Os seguintes parâmetros são automaticamente recebidos pelo método _run: " +:+
     join ", " (List.map param_name (def_parameters tool_def));
   "Você NÃO precisa redeclará-los, apenas usá-los diretamente na implementação.";
   "" +:+ nl +:+
     "INSTRUÇÕES PARA AGENTES DO CREWAI:";
   "" +:+ nl +:+
     "1. IMPLEMENTAÇÃO RECOMENDADA (MÉTODO AUXILIAR):";
   "        # Delegar para método auxiliar é a abordagem mais segura" +:+ nl +:+
     "        return self.processar_api(url, formato)";
   "" +:+ nl +:+
     "   Adicione o método auxiliar via custom_methods:";
   "def processar_api(self, url, formato):" +:+ nl +:+
     "    # Validar parâmetros" +:+ nl +:+
     "    if not url.startswith(('http://', 'https://')):" +:+ nl +:+
     "        return 'Erro: URL inválida'" +:+ nl +:+
     "    " +:+ nl +:+
     "    # Processar requisição" +:+ nl +:+
     "    try:" +:+ nl +:+
     "        response = requests.get(url)" +:+ nl +:+
     "        dados = response.json()" +:+ nl +:+
     "        return json.dumps(dados) if formato == 'json' else str(dados)[:500]" +:+ nl +:+
     "    except Exception as e:" +:+ nl +:+
     "        return f'Erro: {str(e)}'";
   "" +:+ nl +:+
     "2. IMPLEMENTAÇÃO SIMPLIFICADA (SEM BLOCOS COMPLEXOS):";
   "        # Processamento direto" +:+ nl +:+
     "        resultado = {'url': url, 'formato': formato}" +:+ nl +:+
     "        return json.dumps(resultado)";
   "" +:+ nl +:+
     "3. ESTRUTURA PARA PROCESSAMENTO DIRETO:";
   "        # Validação básica sem blocos condicionais complexos" +:+ nl +:+
     "        if not url.startswith('http'):" +:+ nl +:+
     "            return {'erro': 'URL inválida'}" +:+ nl +:+
     "            " +:+ nl +:+
     "        # Continuar com processamento direto" +:+ nl +:+
     "        response = requests.get(url)" +:+ nl +:+
     "        return str(response.text)[:500]";
   "" +:+ nl +:+
     "REGRAS PARA IMPLEMENTAÇÃO:";
   "1. Evite blocos complexos aninhados no método _run";
   "2. Use métodos auxiliares para lógica complexa (via custom_methods)";
   "3. Mantenha a indentação consistente";
   "4. Para APIs, implemente tratamento de erros adequado"].

(** The lines of context around line [erro_linha]: three before it, the line
    and three after it, as far as the fragment has them. *)
Definition contexto_do_erro (implementation_code : string) (erro_linha : Z) : list string :=
  let linhas_codigo := split_char (ascii_of_nat 10) implementation_code in
  let inicio := Z.max 0 (erro_linha - 4) in
  let fim := Z.min (Z.of_nat (length linhas_codigo)) (erro_linha + 3) in
  slice linhas_codigo inicio fim.

(** The text of the [SyntaxError] raised for an implementation that does
    not parse.  A parser error without line or column makes the handler
    itself fail with a [TypeError]. *)
Definition erro_detalhado (e : syntax_error) (implementation_code : string)
    : outcome string :=
  match se_lineno e with
  | None => Raised (TypeError "unsupported operand type(s) for -: 'NoneType' and 'int'")
  | Some erro_linha =>
      let inicio := Z.max 0 (erro_linha - 4) in
      let contexto := contexto_do_erro implementation_code erro_linha in
      entries ← context_entries erro_linha (se_offset e) (enumerate (inicio + 1) contexto);
      Returned
        (join nl
           (["" +:+ nl +:+ "ERRO DE SINTAXE NA IMPLEMENTAÇÃO";
             repeat_str "=" 40;
             "Ferramenta: " +:+ def_name tool_def;
             "Erro: " +:+ se_msg e;
             "Linha: " +:+ pretty erro_linha;
             "" +:+ nl +:+ "Contexto do erro:";
             repeat_str "-" 20]
            ++ entries ++ instrucoes))
  end.

(** [_create_run_method()]. *)
Definition _create_run_method : outcome node :=
  let implementation_code := strip (def_implementation tool_def) in
  match py_parse w implementation_code with
  | Returned body =>
      Returned (FunctionDef "_run" (arguments run_args run_defaults) body [])
  | Raised (SyntaxError e) =>
      text ← erro_detalhado e implementation_code;
      Raised (new_SyntaxError text)
  | Raised e => Raised e
  end.

(** [_create_main_block(class_name)]. *)
Definition _create_main_block (class_name : string) : node :=
  If (Compare (Name "__name__" Load) [Eq] [Constant (PyStr "__main__")])
     [Assign [Name "tool" Store] (Call (Name class_name Load) [] []);
      Assign [Name "result" Store]
             (Call (Attribute (Name "tool" Load) "run" Load) []
                   (List.map
                      (fun param =>
                         keyword (param_name param)
                                 (Constant (if is_not_None (param_default param)
                                            then param_default param
                                            else PyStr "exemplo")))
                      (def_parameters tool_def)));
      Expr (Call (Name "print" Load) [Name "result" Load] [])]
     [].

(** The fixed head of the tool class: docstring, configuration, name and
    description, and the schema when there are parameters. *)
Definition class_head : list node :=
  [Expr (Constant (PyStr (def_description tool_def)));
   Assign [Name "model_config" Store]
          (Dict [Constant (PyStr "arbitrary_types_allowed");
                 Constant (PyStr "validate_assignment")]
                [Constant (PyBool true); Constant (PyBool true)]);
   AnnAssign (Name "name" Store) (Name "str" Load)
             (Constant (PyStr (def_name tool_def))) 1;
   AnnAssign (Name "description" Store) (Name "str" Load)
             (Call (Name "get_description" Load)
                   [Constant (PyStr (tool_name_clean +:+ "Tool.description"))] []) 1]
  ++ match def_parameters tool_def with
     | [] => []
     | _ => [AnnAssign (Name "args_schema" Store) (Name "Type[BaseModel]" Load)
                       (Name (tool_name_clean +:+ "Parameters") Load) 1]
     end.

(** [create_tool_class()]: the class and the main block.  Each custom method
    is parsed on its own, before the implementation, and what the parser
    raises for one leaves the builder as it is. *)
Definition create_tool_class : outcome (list node) :=
  let class_name := tool_name_clean +:+ "Tool" in
  methods ← mapM first_statement (def_custom_methods tool_def);
  run_method ← _create_run_method;
  Returned [ClassDef class_name [Name "BaseTool" Load]
                     (class_head ++ methods ++ [run_method]);
            _create_main_block class_name].

(** The tree after [add_imports], [create_parameter_model] (called when
    [parameters] is not empty) and [create_tool_class]. *)
Definition build_tree (has_parameters : bool) : outcome node :=
  imports ← add_imports;
  let model := if has_parameters then create_parameter_model else [] in
  cls ← create_tool_class;
  Returned (Module_ (imports ++ model ++ cls)).

(** [generate_code()] on a finished tree. *)
Definition generate_code (tree : node) : string := to_source w tree.

End Builder.

(** *** [DynamicToolCreator] *)

Section Tool.
Context (w : World).

(** Whether a parsed method is a function whose body is one [pass]. *)
Definition is_empty_method (metodo_ast : node) : bool :=
  isinstance metodo_ast "FunctionDef" &&
  match node_field "body" metodo_ast with
  | [stmt] => isinstance stmt "Pass"
  | _ => false
  end.

(** [verificar_metodos_vazios(custom_methods)]: the names of the methods
    that only contain [pass]; a method that does not parse is skipped. *)
Fixpoint verificar_metodos_vazios (custom_methods : list string) : outcome (list string) :=
  match custom_methods with
  | [] => Returned []
  | metodo :: rest =>
      here ←
        match first_statement w metodo with
        | Returned metodo_ast =>
            Returned (if is_empty_method metodo_ast then [node_name metodo_ast] else [])
        | Raised e => if is_Exception e then Returned [] else Raised e
        end;
      more ← verificar_metodos_vazios rest;
      Returned (here ++ more)
  end.

(** The directory and the file of a tool, from its name. *)
Definition tool_dir_name (name : string) : string :=
  replace_char " " "" (lower (str_lower w) name) +:+ "_tool".

Definition tools_dir (name : string) : path :=
  Path ("crews/pdca/tools/" +:+ tool_dir_name name).

Definition tool_file_name (name : string) : string :=
  replace_char " " "_" (lower (str_lower w) name) +:+ "_tool.py".

Definition tool_file_path (name : string) : path :=
  truediv (tools_dir name) (tool_file_name name).

(** The message returned for empty auxiliary methods. *)
Definition mensagem_erro (metodos_vazios : list string) : string :=
  "ERRO: Os seguintes métodos auxiliares estão vazios (apenas 'pass'): " +:+
  join ", " metodos_vazios +:+ ". " +:+ nl +:+
  "Métodos vazios não são permitidos, você deve implementar a lógica necessária para cada método auxiliar definido.".

(** The text written to [__init__.py] when the package has none. *)
Definition init_text (name : string) : string :=
  "# Pacote para ferramentas dinâmicas" +:+ nl +:+
  "from ." +:+ replace_char " " "_" (lower (str_lower w) name) +:+ "_tool import " +:+
  replace_char " " "" name +:+ "Tool" +:+ nl.

(** The definition [_run] hands to the builder: the parameters converted to
    dictionaries by [_run] and to [ToolParameter] by the builder. *)
Definition tool_definition (name description : string)
    (parameters : list param_input) (implementation : string)
    (imports custom_methods : list string) : ToolDefinition :=
  let converted_parameters := List.map to_dict parameters in
  {| def_name := name;
     def_description := description;
     def_parameters := List.map to_parameter converted_parameters;
     def_implementation := implementation;
     def_imports := imports;
     def_custom_methods := custom_methods |}.

(** The tree the builder ends with for the arguments of [_run]. *)
Definition synthesized_tree (name description : string)
    (parameters : list param_input) (implementation : string)
    (imports custom_methods : list string) : outcome node :=
  build_tree w (tool_definition name description parameters implementation
                                imports custom_methods)
             (negb (is_empty parameters)).

(** What the first part of [_run] ends with: the message about empty
    methods, or the file written and its text. *)
Inductive synthesis :=
| Rejected (mensagem : string)
| Written (tool_file_path : path) (code : string).

(** [_run] from its first line to the files it writes: the result, and the
    file system it leaves, also when it raises. *)
Definition synthesize (fs : FS) (name description : string)
    (parameters : list param_input) (implementation : string)
    (imports custom_methods : list string) : outcome synthesis * FS :=
  match mkdir_parents fs (tools_dir name) with
  | Raised e => (Raised e, fs)
  | Returned fs =>
      match verificar_metodos_vazios custom_methods with
      | Raised e => (Raised e, fs)
      | Returned ((_ :: _) as metodos_vazios) => (Returned (Rejected (mensagem_erro metodos_vazios)), fs)
      | Returned [] =>
          match synthesized_tree name description parameters implementation
                                 imports custom_methods with
          | Raised e => (Raised e, fs)
          | Returned tree =>
              let code := generate_code w tree in
              match write_text fs (tool_file_path name) code with
              | Raised e => (Raised e, fs)
              | Returned fs =>
                  let init_file_path := truediv (tools_dir name) "__init__.py" in
                  if negb (path_exists fs init_file_path)
                  then match write_text fs init_file_path (init_text name) with
                       | Raised e => (Raised e, fs)
                       | Returned fs => (Returned (Written (tool_file_path name) code), fs)
                       end
                  else (Returned (Written (tool_file_path name) code), fs)
              end
          end
      end
  end.

(** What [_run] builds its report from: the message about empty methods, or
    the path of the file and the verifier's dictionary for it. *)
Inductive run_result :=
| RunRejected (mensagem : string)
| RunCreated (tool_file_path : path) (verificacao_dict : Verifier.report).

(** [_run] up to the call of the verifier.  The text of the final report
    (and the test execution it may append) is assembled from this result,
    in [CreatorReport] below. *)
Definition _run (fs : FS) (sys_path : list string) (name description : string)
    (parameters : list param_input) (implementation : string)
    (imports custom_methods : list string)
    : outcome run_result * FS * list string :=
  match synthesize fs name description parameters implementation imports custom_methods with
  | (Raised e, fs) => (Raised e, fs, sys_path)
  | (Returned (Rejected m), fs) => (Returned (RunRejected m), fs, sys_path)
  | (Returned (Written p code), fs) =>
      match Verifier.run w fs sys_path (Some (path_str p)) None with
      | (Raised e, sys_path) => (Raised e, fs, sys_path)
      | (Returned v, sys_path) => (Returned (RunCreated p v), fs, sys_path)
      end
  end.

End Tool.

End Creator.

(** ** The executor: [tools/dinamicas/executar_ferramenta_tool.py] *)

Module Executor.
Import Py Runtime.

Section Tool.
Context (w : World).

(** [os.path.isabs] and [os.path.join] on POSIX. *)
Definition isabs (p : string) : bool := startswith "/" p.

Definition os_path_join (a b : string) : string :=
  if startswith "/" b then b
  else if String.eqb a "" || endswith "/" a then a +:+ b
  else a +:+ "/" +:+ b.

(** The loop that climbs from the current directory to a directory named
    [crews]: on the components of the directory, innermost first, it stops
    at the first one with that name; at the root it gives up. *)
Fixpoint find_crews (rev_parts : list string) : option (list string) :=
  match rev_parts with
  | [] => None
  | c :: rest => if String.eqb c "crews" then Some rev_parts else find_crews rest
  end.

(** The text of an absolute directory from its components. *)
Definition dir_text (parts : list string) : string := "/" +:+ join "/" parts.

(** [caminhos_possiveis]: the path as given, then, for a relative path, the
    path under the project root and, when it starts with [crews/] or
    [crews\], the path under the nearest [crews] directory. *)
Definition caminhos_possiveis (caminho_ferramenta : string) : list string :=
  caminho_ferramenta ::
  if negb (isabs caminho_ferramenta)
  then
    os_path_join (project_root w) caminho_ferramenta ::
    if startswith "crews/" caminho_ferramenta || startswith "crews\" caminho_ferramenta
    then match find_crews (rev (cwd w)) with
         | Some rev_parts =>
             let parte_relativa :=
               if startswith "crews/" caminho_ferramenta
               then str_drop 6 caminho_ferramenta
               else str_drop 7 caminho_ferramenta in
             [os_path_join (dir_text (rev rev_parts)) parte_relativa]
         | None => []
         end
    else []
  else [].

(** The first candidate that exists; an empty path counts as none. *)
Definition caminho_valido (caminho_ferramenta : string) : option string :=
  match List.find (os_path_exists w) (caminhos_possiveis caminho_ferramenta) with
  | Some ((String _ _) as c) => Some c
  | _ => None
  end.

(** The text returned by the [except Exception] clause. *)
Definition erro_execucao (caminho_ferramenta nome_classe : string) (parametros : kwargs)
    (e : exn) : string :=
  nl +:+
  "## ERRO na Execução de Ferramenta" +:+ nl +:+
  nl +:+
  "**Ferramenta:** " +:+ nome_classe +:+ nl +:+
  "**Caminho:** " +:+ caminho_ferramenta +:+ nl +:+
  "**Parâmetros tentados:** " +:+ repr_kwargs w parametros +:+ nl +:+
  nl +:+
  "### Detalhes do erro:" +:+ nl +:+
  "```" +:+ nl +:+
  exn_str e +:+ nl +:+
  "```" +:+ nl +:+
  nl +:+
  "Verifique se:" +:+ nl +:+
  "1. O caminho está correto" +:+ nl +:+
  "2. A classe existe e herda de BaseTool" +:+ nl +:+
  "3. Os parâmetros fornecidos correspondem aos esperados pela ferramenta" +:+ nl.

(** The text returned after a successful call. *)
Definition relatorio_execucao (caminho_ferramenta nome_classe : string) (parametros : kwargs)
    (resultado : string) : string :=
  nl +:+
  "## Execução de Ferramenta: " +:+ nome_classe +:+ nl +:+
  nl +:+
  "**Caminho:** " +:+ caminho_ferramenta +:+ nl +:+
  "**Parâmetros utilizados:** " +:+ repr_kwargs w parametros +:+ nl +:+
  nl +:+
  "### Resultado da execução:" +:+ nl +:+
  resultado +:+ nl.

(** The three guards that return a message of their own. *)
Definition nao_encontrado (caminho_ferramenta : string) : string :=
  "ERRO: O arquivo não foi encontrado em nenhum dos caminhos tentados:" +:+ nl +:+
  join nl (caminhos_possiveis caminho_ferramenta).

Definition modulo_nao_carregado (caminho : string) : string :=
  "ERRO: Não foi possível carregar o módulo do arquivo " +:+ caminho +:+ ".".

Definition classe_nao_encontrada (nome_classe caminho : string) : string :=
  "ERRO: A classe " +:+ nome_classe +:+ " não foi encontrada no módulo " +:+ caminho +:+ ".".

Definition sem_metodo_run (nome_classe : string) : string :=
  "ERRO: A classe " +:+ nome_classe +:+ " não possui um método 'run' executável.".

(** The body of the [try] block. *)
Definition tentar (sys_path : list string) (caminho_ferramenta nome_classe : string)
    (parametros : kwargs) : outcome string :=
  match caminho_valido caminho_ferramenta with
  | None => Returned (nao_encontrado caminho_ferramenta)
  | Some caminho =>
      has_spec ← import_spec w "modulo_dinamico" caminho;
      if negb has_spec then Returned (modulo_nao_carregado caminho)
      else
        modulo ← fst (exec_module w "modulo_dinamico" caminho sys_path);
        match assoc nome_classe modulo with
        | None => Returned (classe_nao_encontrada nome_classe caminho)
        | Some classe_ferramenta =>
            ferramenta ← mb_call classe_ferramenta;
            if negb (inst_run_callable ferramenta)
            then Returned (sem_metodo_run nome_classe)
            else
              resultado ← inst_run ferramenta parametros;
              Returned (relatorio_execucao caminho_ferramenta nome_classe parametros resultado)
        end
  end.

(** [_run(caminho_ferramenta, nome_classe, parametros)]: every exception
    derived from [Exception] becomes the text of [erro_execucao]. *)
Definition _run (sys_path : list string) (caminho_ferramenta nome_classe : string)
    (parametros : kwargs) : outcome string :=
  match tentar sys_path caminho_ferramenta nome_classe parametros with
  | Returned text => Returned text
  | Raised e =>
      if is_Exception e
      then Returned (erro_execucao caminho_ferramenta nome_classe parametros e)
      else Raised e
  end.

End Tool.

End Executor.

(** ** The report of the creator: the rest of [DynamicToolCreator._run] *)

Module CreatorReport.
Import Py Runtime Creator.

(** What [executar_tool.run] gives back: a text, or another value, of which
    the report takes [str]. *)
Inductive resultado :=
| Texto (s : string)
| Outro (str : string).

Section Report.
Context (w : World).
(** [str(v)] of a default value, as an f-string prints it. *)
Context (str_of : pyval -> string).
(** [ExecutarFerramentaTool().run(caminho_ferramenta, nome_classe, parametros)]:
    [run] is inherited from [BaseTool]. *)
Context (executar_tool_run : string -> string -> kwargs -> outcome resultado).

(** The line of the report for the parameter of index [i]. *)
Definition linha_parametro (i : nat) (param : param_dict) : string :=
  let required := default true (d_required param) in
  let req_text := if required then "Sim" else "Não" in
  let default_text :=
    if negb required && is_not_None (default PyNone (d_default param))
    then ", Valor Padrão: " +:+ str_of (default PyNone (d_default param))
    else "" in
  pretty (Z.of_nat i + 1) +:+ ". **" +:+ default "N/D" (d_name param) +:+ "** (" +:+
  default "N/D" (d_type param) +:+ "): " +:+ default "N/D" (d_description param) +:+
  ". Obrigatório: " +:+ req_text +:+ default_text.

(** [report_lines], from the verifier's dictionary. *)
Definition report_lines (name description : string) (tool_file_path : path)
    (parameters : list param_input) (verificacao_dict : Verifier.report) : list string :=
  let converted_parameters := List.map to_dict parameters in
  let verificacao_sucesso := Verifier.sucesso verificacao_dict in
  let verificacao_erros := Verifier.erros verificacao_dict in
  let verificacao_avisos := Verifier.avisos verificacao_dict in
  ["## Ferramenta Criada: " +:+ name;
   "**Localização:** " +:+ path_str tool_file_path;
   "**Descrição:** " +:+ description]
  ++ (if is_empty parameters then []
      else "### Parâmetros da Ferramenta:" :: imap linha_parametro converted_parameters)
  ++ (if negb verificacao_sucesso
      then (nl +:+ "**A ferramenta '" +:+ name +:+
            "' foi criada, mas foram encontrados problemas críticos que precisam ser corrigidos:**")
           :: verificacao_erros
           ++ (if is_empty verificacao_avisos then []
               else (nl +:+ "**Avisos adicionais:**") :: verificacao_avisos)
      else if negb (is_empty verificacao_avisos)
      then (nl +:+ "**A ferramenta '" +:+ name +:+ "' foi criada com os seguintes avisos:**")
           :: verificacao_avisos
      else [nl +:+ "**A ferramenta '" +:+ name +:+ "' foi criada e verificada com sucesso!**"]).

(** [raw_report]: the lines that are not blank, joined. *)
Definition raw_report (lines : list string) : string :=
  join nl (List.filter (fun line => negb (String.eqb (strip line) "")) lines).

(** [final_report], before the test section. *)
Definition final_report (lines : list string) : string :=
  str_replace (cr +:+ nl) nl (str_replace (nl +:+ nl) nl (raw_report lines)).

(** The test value of a required parameter, by its type; none for the
    other types. *)
Definition valor_teste (tipo nome_param : string) : option pyval :=
  if String.eqb tipo "string" then Some (PyStr ("valor_teste_" +:+ nome_param))
  else if String.eqb tipo "integer" then Some (PyInt 42)
  else if String.eqb tipo "boolean" then Some (PyBool true)
  else if String.eqb tipo "array" then Some (PyList [PyStr "item1"; PyStr "item2"])
  else if String.eqb tipo "object" then Some (PyDict [(PyStr "chave", PyStr "valor")])
  else None.

(** [d[k] = v] on a dictionary with text keys: a key that is there keeps
    its place, a new one goes to the end. *)
Definition dict_set (k : string) (v : pyval) (d : kwargs) : kwargs :=
  if str_in_list k (List.map fst d)
  then List.map (fun kv => if String.eqb (fst kv) k then (k, v) else kv) d
  else d ++ [(k, v)].

(** The loop that fills [parametros_teste]. *)
Definition parametros_teste (converted_parameters : list param_dict) : kwargs :=
  fold_left
    (fun d param =>
       if default true (d_required param)
       then match valor_teste (default "string" (d_type param)) (default "" (d_name param)) with
            | Some v => dict_set (default "" (d_name param)) v d
            | None => d
            end
       else d)
    converted_parameters [].

(** The text the handler of the test section appends. *)
Definition falha_dinamica (e : exn) : string :=
  "**ATENÇÃO:** A ferramenta foi criada e verificada estaticamente, mas falhou na execução dinâmica." +:+
  nl +:+ nl +:+
  "**Erro:** " +:+ exn_str e +:+ nl +:+ nl +:+
  "**Dicas para correção:**" +:+ nl +:+ nl +:+
  "1. Verifique se a implementação da ferramenta está correta" +:+ nl +:+
  "2. Garanta que os parâmetros obrigatórios estão sendo tratados adequadamente" +:+ nl +:+
  "3. Corrija o método _run da ferramenta" +:+ nl.

(** What is appended for a result of the test execution. *)
Definition relato_execucao (parametros : kwargs) (resultado_execucao : resultado) : string :=
  "A ferramenta foi compilada e executada dinamicamente para verificar sua funcionalidade." +:+
  nl +:+ nl +:+
  "**Parâmetros de teste:** " +:+ repr_kwargs w parametros +:+ nl +:+ nl +:+
  match resultado_execucao with
  | Texto s =>
      if py_in "valor_teste_" (repr_kwargs w parametros) && (py_in "ERRO" s || py_in "erro" s)
      then "**Nota:** A ferramenta foi testada com valores placebo. Em uma execução real, serão usados valores válidos fornecidos pelo agente."
      else "**Resultado da execução:**" +:+ nl +:+ nl +:+ replace_char (ascii_of_nat 10) (nl +:+ nl) s
  | Outro str => "**Resultado da execução:**" +:+ nl +:+ nl +:+ str
  end.

(** The test section: the tool is executed with the test parameters; an
    exception derived from [Exception] becomes text. *)
Definition teste_dinamico (name : string) (tool_file_path : path)
    (converted_parameters : list param_dict) : outcome string :=
  let nome_classe := replace_char " " "" name +:+ "Tool" in
  let parametros := parametros_teste converted_parameters in
  let titulo := nl +:+ nl +:+ "## Teste de Execução Dinâmica" +:+ nl +:+ nl in
  match executar_tool_run (path_str tool_file_path) nome_classe parametros with
  | Returned resultado_execucao =>
      Returned (titulo +:+ relato_execucao parametros resultado_execucao)
  | Raised e =>
      if is_Exception e then Returned (titulo +:+ falha_dinamica e) else Raised e
  end.

(** The report [_run] returns for a tool that was written and verified. *)
Definition relatorio (name description : string) (tool_file_path : path)
    (parameters : list param_input) (verificacao_dict : Verifier.report) : outcome string :=
  let base :=
    final_report (report_lines name description tool_file_path parameters verificacao_dict) in
  if Verifier.sucesso verificacao_dict
  then
    teste ← teste_dinamico name tool_file_path (List.map to_dict parameters);
    Returned (base +:+ teste)
  else Returned base.

(** [_run(name, description, parameters, implementation, imports,
    custom_methods)]: its text, with the file system and [sys.path] as
    synthesis and verification leave them. *)
Definition _run (fs : FS) (sys_path : list string) (name description : string)
    (parameters : list param_input) (implementation : string)
    (imports custom_methods : list string)
    : outcome string * FS * list string :=
  match Creator._run w fs sys_path name description parameters implementation
                     imports custom_methods with
  | (Raised e, fs, sys_path) => (Raised e, fs, sys_path)
  | (Returned (RunRejected mensagem_erro), fs, sys_path) =>
      (Returned mensagem_erro, fs, sys_path)
  | (Returned (RunCreated tool_file_path verificacao_dict), fs, sys_path) =>
      (relatorio name description tool_file_path parameters verificacao_dict, fs, sys_path)
  end.

End Report.

(** [run] of the executor when [BaseTool.run] hands its arguments to
    [_run]: the text [_run] returns. *)
Definition executar (w : World) (sys_path : list string)
    (caminho_ferramenta nome_classe : string) (parametros : kwargs) : outcome resultado :=
  match Executor._run w sys_path caminho_ferramenta nome_classe parametros with
  | Returned text => Returned (Texto text)
  | Raised e => Raised e
  end.

End CreatorReport.

(** ** Synthesis followed by verification: what it asks of the runtime *)

Module Pipeline.
Import Py Runtime.

(** No import statement of the tool, parsed, is itself a tool class. *)
Definition imports_plain (w : World) (imports : list string) : Prop :=
  forall imp n,
    In imp (Creator.standard_imports ++ imports) ->
    Creator.first_statement w imp = Returned n ->
    Verifier.is_tool_class n = false.

(** The parser reads the generated text back as statements with the
    outlines of the statements of the tree. *)
Definition reads_back (w : World) (code : string) (tree : node) : Prop :=
  exists body,
    py_parse w code = Returned body /\
    List.map Verifier.outline body = List.map Verifier.outline (node_field "body" tree).

(** [sys.path] while the module is loaded: the directory of the file is
    put in front when it is not there. *)
Definition search_path (w : World) (p : path) (sys_path : list string) : list string :=
  if negb (str_in_list (resolve_parent w p) sys_path)
  then resolve_parent w p :: sys_path else sys_path.

(** The member the loop over [inspect.getmembers] stops at: the first one
    of that name that is a class derived from [BaseTool]. *)
Definition tool_member (class_name : string) (m : module_view) : option member :=
  snd <$> List.find (fun no => String.eqb (fst no) class_name &&
                               mb_isclass (snd no) && mb_is_BaseTool (snd no)) m.

(** The file at [p] loads as a tool: an import spec is made for it, its
    code runs, the module holds [class_name] as a class derived from
    [BaseTool] with a callable [_run], the class is constructed without
    arguments, the instance has a text name, a text description and a
    pydantic model as [args_schema], and, when the instance is truthy, the
    schema of the model is generated. *)
Definition loads_as_tool (w : World) (p : path) (class_name : string)
    (sys_path : list string) : Prop :=
  import_spec w (stem p) (path_str p) = Returned true /\
  exists modulo classe instancia nome descricao modelo,
    fst (exec_module w (stem p) (path_str p) (search_path w p sys_path)) = Returned modulo /\
    tool_member class_name modulo = Some classe /\
    mb_run_callable classe = true /\
    mb_call classe = Returned instancia /\
    inst_name instancia = Some (AttrStr nome) /\
    inst_description instancia = Some (AttrStr descricao) /\
    inst_args_schema instancia = Some (AttrClass modelo) /\
    cv_is_BaseModel modelo = true /\
    (inst_truthy instancia = true ->
     exists schema, cv_model_json_schema modelo = Returned schema).

End Pipeline.

(** ** Concrete files and runtimes

    The inputs at which the properties below are evaluated: a runtime is
    given by the answers Python gives on the texts and paths involved. *)

Module Examples.
Import Py Runtime Ast.

(** The parser's usual complaint, for a text at line 1. *)
Definition invalid_syntax : syntax_error :=
  {| se_msg := "invalid syntax";
     se_lineno := Some 1;
     se_offset := Some 1;
     se_str := "invalid syntax (<unknown>, line 1)" |}.

(** A parser that knows the texts of a table and rejects every other one. *)
Definition parse_from (table : list (string * outcome (list node))) (text : string)
    : outcome (list node) :=
  default (Raised (SyntaxError invalid_syntax)) (assoc text table).

(** The case tables on Latin-1 text: beside the letters [A] to [Z], the
    capital letters U+00C0 to U+00DE (all but the sign U+00D7) change; they
    are encoded as the byte 195 and a byte from 128 to 158. *)
Fixpoint minusculas (s : string) : string :=
  match s with
  | EmptyString => EmptyString
  | String c s' =>
      if Ascii.eqb c (ascii_of_nat 195)
      then match s' with
           | String d s'' =>
               let n := nat_of_ascii d in
               String c (String (if Nat.leb 128 n && Nat.leb n 158 && negb (Nat.eqb n 151)
                                 then ascii_of_nat (n + 32) else d)
                                (minusculas s''))
           | EmptyString => String c EmptyString
           end
      else String (lower_char c) (minusculas s')
  end.

(** A runtime from a parser, the text the printer gives, what loading a
    module gives and the paths that exist.  Loading leaves [sys.path] as
    it is; the project lives in [/projeto]; the texts are Latin-1. *)
Definition runtime (parse : string -> outcome (list node)) (source : string)
    (loaded : outcome module_view) (exists_ : string -> bool) : World :=
  {| py_parse := parse;
     to_source := fun _ => source;
     format_exc := fun e => "Traceback (most recent call last):" +:+ nl +:+ exn_str e;
     repr_kwargs := fun args => match args with [] => "{}" | _ => "{...}" end;
     str_lower := minusculas;
     import_spec := fun _ _ => Returned true;
     resolve_parent := fun p => "/projeto/" +:+ path_str (parent p);
     exec_module := fun _ _ sys_path => (loaded, sys_path);
     os_path_exists := exists_;
     project_root := "/projeto";
     cwd := ["projeto"] |}.

(** A file system with one file in the directory [ferramentas]. *)
Definition disco (file text : string) : FS :=
  {| dirs := {[ ["ferramentas"] ]};
     files := {[ ["ferramentas"; file] := text ]} |}.

(** *** A class header without its colon *)

Definition fonte_sem_dois_pontos : string :=
  "class FerramentaDeExemploTool(BaseTool)" +:+ nl +:+
  "    pass" +:+ nl.

Definition erro_dois_pontos : syntax_error :=
  {| se_msg := "expected ':'";
     se_lineno := Some 1;
     se_offset := Some 40;
     se_str := "expected ':' (<unknown>, line 1)" |}.

Definition mundo_sem_dois_pontos : World :=
  runtime (parse_from [(fonte_sem_dois_pontos, Raised (SyntaxError erro_dois_pontos))])
          "" (Returned []) (fun _ => false).

(** *** A class header with accents and without its colon: the line has
    29 characters in 33 bytes *)

Definition fonte_acentuada : string :=
  "class AçãoVerificaçãoTool(Ba)" +:+ nl +:+
  "    pass" +:+ nl.

Definition erro_acentuado : syntax_error :=
  {| se_msg := "expected ':'";
     se_lineno := Some 1;
     se_offset := Some 30;
     se_str := "expected ':' (<unknown>, line 1)" |}.

Definition mundo_acentuado : World :=
  runtime (parse_from [(fonte_acentuada, Raised (SyntaxError erro_acentuado))])
          "" (Returned []) (fun _ => false).

(** *** A well-formed tool whose module or constructor fails *)

Definition fonte_exemplo : string :=
  "from crewai.tools import BaseTool" +:+ nl +:+
  "from cliente import conectar" +:+ nl +:+
  "class ExemploTool(BaseTool):" +:+ nl +:+
  "    def __init__(self, cliente):" +:+ nl +:+
  "        self.cliente = cliente" +:+ nl +:+
  "    def _run(self):" +:+ nl +:+
  "        return 'ok'" +:+ nl.

Definition arvore_exemplo : list node :=
  [ImportFrom "crewai.tools" [alias "BaseTool"];
   ImportFrom "cliente" [alias "conectar"];
   ClassDef "ExemploTool" [Name "BaseTool" Load]
     [FunctionDef "__init__" (arguments [arg "self" []; arg "cliente" []] [])
        [Assign [Attribute (Name "self" Load) "cliente" Store] (Name "cliente" Load)] [];
      FunctionDef "_run" (arguments [arg "self" []] [])
        [Return (Constant (PyStr "ok"))] []]].

(** The class loaded: its constructor needs an argument. *)
Definition classe_exemplo : member :=
  {| mb_isclass := true;
     mb_is_BaseTool := true;
     mb_run_callable := true;
     mb_call := Raised (TypeError
       "ExemploTool.__init__() missing 1 required positional argument: 'cliente'") |}.

(** The module loads, the class cannot be constructed without arguments. *)
Definition mundo_sem_construtor : World :=
  runtime (parse_from [(fonte_exemplo, Returned arvore_exemplo)])
          "" (Returned [("ExemploTool", classe_exemplo)]) (fun _ => false).

(** The top-level code of the module fails: [cliente] is not installed. *)
Definition mundo_sem_modulo : World :=
  runtime (parse_from [(fonte_exemplo, Returned arvore_exemplo)])
          "" (Raised (ImportError "No module named 'cliente'")) (fun _ => false).

(** *** A small tool, synthesized and loaded

    The tool [Eco] has one required text parameter and returns it. *)

Definition parametro_texto : Creator.param_dict :=
  {| Creator.d_name := Some "texto";
     Creator.d_type := Some "string";
     Creator.d_description := Some "Texto a devolver";
     Creator.d_required := Some true;
     Creator.d_default := None |}.

(** An optional number without a default. *)
Definition parametro_limite : Creator.ToolParameter :=
  {| Creator.param_name := "limite";
     Creator.param_type := "number";
     Creator.param_description := "Limite superior";
     Creator.param_required := false;
     Creator.param_default := PyNone |}.

(** What the parser answers on the three standard imports and on the
    implementation. *)
Definition fragmentos_eco : list (string * outcome (list node)) :=
  [("from typing import Dict, List, Any, Optional, Type",
    Returned [ImportFrom "typing"
                [alias "Dict"; alias "List"; alias "Any"; alias "Optional"; alias "Type"]]);
   ("from pydantic import BaseModel, Field",
    Returned [ImportFrom "pydantic" [alias "BaseModel"; alias "Field"]]);
   ("from crewai.tools import BaseTool",
    Returned [ImportFrom "crewai.tools" [alias "BaseTool"]]);
   ("return texto", Returned [Return (Name "texto" Load)])].

(** Three double quotes, as the printer writes a docstring. *)
Definition aspas : string := chr 34 +:+ chr 34 +:+ chr 34.

(** The lines the printer gives for the tree of [Eco]. *)
Definition linhas_eco : list string :=
    ["from typing import Dict, List, Any, Optional, Type";
     "from pydantic import BaseModel, Field";
     "from crewai.tools import BaseTool";
     aspas +:+ "# Dicionário centralizado de descrições" +:+ aspas;
     "DESCRIPTIONS = {'EcoParameters.texto': 'Texto a devolver'," +:+
       " 'EcoTool.description': 'Devolve o texto recebido.'}";
     aspas +:+ "# Função para obter descrições do dicionário local" +:+ aspas;
     "";
     "";
     "def get_description(key: str) ->str:";
     "    " +:+ aspas +:+
       "Retorna a descrição para a chave especificada do dicionário DESCRIPTIONS." +:+ aspas;
     "    return DESCRIPTIONS.get(key, f'Descrição para {key} não encontrada')";
     "";
     "";
     "class EcoParameters(BaseModel):";
     "    " +:+ aspas +:+ "Parâmetros para a ferramenta Eco." +:+ aspas;
     "    texto: str = Field(..., description='Texto a devolver')";
     "";
     "";
     "class EcoTool(BaseTool):";
     "    " +:+ aspas +:+ "Devolve o texto recebido." +:+ aspas;
     "    model_config = {'arbitrary_types_allowed': True, 'validate_assignment': True}";
     "    name: str = 'Eco'";
     "    description: str = get_description('EcoTool.description')";
     "    args_schema: Type[BaseModel] = EcoParameters";
     "";
     "    def _run(self, texto: str):";
     "        return texto";
     "";
     "";
     "if __name__ == '__main__':";
     "    tool = EcoTool()";
     "    result = tool.run(texto='exemplo')";
     "    print(result)";
     ""].

Definition fonte_eco : string := join nl linhas_eco.

(** The runtime while the tree is built: only the fragments are parsed. *)
Definition mundo_fragmentos : World :=
  runtime (parse_from fragmentos_eco) fonte_eco (Returned []) (fun _ => false).

(** The tree of [Eco]. *)
Definition arvore_eco : node :=
  match Creator.synthesized_tree mundo_fragmentos "Eco" "Devolve o texto recebido."
          [Creator.ParamDict parametro_texto] "return texto" [] [] with
  | Returned tree => tree
  | Raised _ => Module_ []
  end.

(** The text read back.  The printer writes the identifier
    [Type[BaseModel]] of the annotation of [args_schema] as it stands, and
    the parser reads it as a subscript; the rest of the tree comes back as
    it was built. *)
Fixpoint relida (n : node) : node :=
  let 'Node cls attrs fields := n in
  if isinstance n "Name" && String.eqb (node_id n) "Type[BaseModel]"
  then Subscript (Name "Type" Load) (Name "BaseModel" Load) Load
  else Node cls attrs (List.map (fun f => (fst f, List.map relida (snd f))) fields).

(** The parameter model and the tool class once loaded. *)
Definition modelo_eco : class_view :=
  {| cv_name := "EcoParameters";
     cv_is_BaseModel := true;
     cv_type_repr := "<class 'pydantic._internal._model_construction.ModelMetaclass'>";
     cv_model_json_schema :=
       Returned {| schema_truthy := true; schema_has_properties := true |} |}.

Definition instancia_eco : instance_view :=
  {| inst_truthy := true;
     inst_name := Some (AttrStr "Eco");
     inst_description := Some (AttrStr "Devolve o texto recebido.");
     inst_args_schema := Some (AttrClass modelo_eco);
     inst_run_callable := true;
     inst_run := fun args =>
       match assoc "texto" args with
       | Some (PyStr texto) => Returned texto
       | _ => Raised (OtherException "1 validation error for EcoParameters")
       end |}.

Definition classe_eco : member :=
  {| mb_isclass := true;
     mb_is_BaseTool := true;
     mb_run_callable := true;
     mb_call := Returned instancia_eco |}.

Definition nao_classe : member :=
  {| mb_isclass := false;
     mb_is_BaseTool := false;
     mb_run_callable := false;
     mb_call := Raised (TypeError "object is not callable") |}.

Definition modulo_eco : module_view :=
  [("DESCRIPTIONS", nao_classe);
   ("EcoTool", classe_eco);
   ("get_description", nao_classe)].

(** The runtime in which [Eco] is synthesized, read back and loaded. *)
Definition mundo_eco : World :=
  runtime (parse_from ((fonte_eco, Returned (List.map relida (node_field "body" arvore_eco)))
                       :: fragmentos_eco))
          fonte_eco (Returned modulo_eco)
          (fun p => String.eqb p "crews/pdca/tools/eco_tool/eco_tool.py").

(** The empty file system. *)
Definition disco_vazio : FS := {| dirs := ∅; files := ∅ |}.

(** *** Fragments that are empty or do not parse *)

(** An auxiliary method that only contains [pass]. *)
Definition metodo_pendente : string :=
  "def pendente(self):" +:+ nl +:+
  "    pass".

Definition mundo_pendente : World :=
  runtime (parse_from
             ((metodo_pendente,
               Returned [FunctionDef "pendente" (arguments [arg "self" []] []) [Pass] []])
              :: fragmentos_eco))
          fonte_eco (Returned []) (fun _ => false).











(** The file system once the directory of [Eco] is made. *)
Definition disco_eco : FS :=
  {| dirs := {[ ["crews"]; ["crews"; "pdca"]; ["crews"; "pdca"; "tools"];
                ["crews"; "pdca"; "tools"; "eco_tool"] ]};
     files := ∅ |}.

(** *** A module that ends the interpreter

    The file exists, and its top-level code calls [sys.exit(1)]. *)
Definition mundo_saida : World :=
  runtime (parse_from fragmentos_eco) fonte_eco
          (Raised (BaseExceptionOnly "1"))
          (fun p => String.eqb p "ferramentas/saida_tool.py").

(** *** A tool that imports a module that is not installed

    [Eco] again, with one more import; every fragment parses. *)
Definition import_ausente : string := "import modulo_inexistente".

Definition fragmentos_import : list (string * outcome (list node)) :=
  (import_ausente, Returned [Import [alias "modulo_inexistente"]]) :: fragmentos_eco.

Definition fonte_import : string :=
  join nl (take 3 linhas_eco ++ [import_ausente] ++ drop 3 linhas_eco).

Definition arvore_import : node :=
  match Creator.synthesized_tree
          (runtime (parse_from fragmentos_import) fonte_import (Returned []) (fun _ => false))
          "Eco" "Devolve o texto recebido."
          [Creator.ParamDict parametro_texto] "return texto" [import_ausente] [] with
  | Returned tree => tree
  | Raised _ => Module_ []
  end.

(** The text is read back; loading it fails at the import. *)
Definition mundo_import : World :=
  runtime (parse_from ((fonte_import, Returned (List.map relida (node_field "body" arvore_import)))
                       :: fragmentos_import))
          fonte_import
          (Raised (ImportError "No module named 'modulo_inexistente'"))
          (fun p => String.eqb p "crews/pdca/tools/eco_tool/eco_tool.py").

(** The file system once [Eco] is written. *)
Definition disco_eco_escrito (fonte : string) : FS :=
  {| dirs := dirs disco_eco;
     files := {[ ["crews"; "pdca"; "tools"; "eco_tool"; "__init__.py"] :=
                   Creator.init_text mundo_fragmentos "Eco";
                 ["crews"; "pdca"; "tools"; "eco_tool"; "eco_tool.py"] := fonte ]} |}.

(** *** A tool whose imports define a class of their own

    [Eco] again; its one import is a class whose name ends in [Tool]. *)
Definition import_apoio : string := "class ApoioTool:" +:+ nl +:+ "    pass".

Definition fragmentos_apoio : list (string * outcome (list node)) :=
  (import_apoio, Returned [ClassDef "ApoioTool" [] [Pass]]) :: fragmentos_eco.

Definition fonte_apoio : string :=
  join nl (take 3 linhas_eco ++ [""; ""; "class ApoioTool:"; "    pass"] ++ drop 3 linhas_eco).

Definition arvore_apoio : node :=
  match Creator.synthesized_tree
          (runtime (parse_from fragmentos_apoio) fonte_apoio (Returned []) (fun _ => false))
          "Eco" "Devolve o texto recebido."
          [Creator.ParamDict parametro_texto] "return texto" [import_apoio] [] with
  | Returned tree => tree
  | Raised _ => Module_ []
  end.

(** The class [ApoioTool] once loaded: a class that is no tool. *)
Definition classe_apoio : member :=
  {| mb_isclass := true;
     mb_is_BaseTool := false;
     mb_run_callable := false;
     mb_call := Returned {| inst_truthy := true;
                            inst_name := None;
                            inst_description := None;
                            inst_args_schema := None;
                            inst_run_callable := false;
                            inst_run := fun _ =>
                              Raised (OtherException
                                        "'ApoioTool' object has no attribute 'run'") |} |}.

Definition modulo_apoio : module_view :=
  [("ApoioTool", classe_apoio);
   ("DESCRIPTIONS", nao_classe);
   ("EcoTool", classe_eco);
   ("get_description", nao_classe)].

Definition mundo_apoio : World :=
  runtime (parse_from ((fonte_apoio, Returned (List.map relida (node_field "body" arvore_apoio)))
                       :: fragmentos_apoio))
          fonte_apoio (Returned modulo_apoio)
          (fun p => String.eqb p "crews/pdca/tools/eco_tool/eco_tool.py").

(** *** A tool whose name is no identifier

    [Eco] under the name [Eco-2]: the parser rejects the header of the
    first class of the generated text. *)
Definition fonte_hifen : string := str_replace "Eco" "Eco-2" fonte_eco.

Definition erro_hifen : syntax_error :=
  {| se_msg := "invalid decimal literal";
     se_lineno := Some 14;
     se_offset := Some 11;
     se_str := "invalid decimal literal (<unknown>, line 14)" |}.

Definition mundo_hifen : World :=
  runtime (parse_from ((fonte_hifen, Raised (SyntaxError erro_hifen)) :: fragmentos_eco))
          fonte_hifen (Returned []) (fun _ => false).

(** *** The tool [Eco] under the name [AÇÃO] *)

Definition fonte_acao : string := str_replace "Eco" "AÇÃO" fonte_eco.

Definition mundo_acao : World :=
  runtime (parse_from fragmentos_eco) fonte_acao (Returned []) (fun _ => false).

(** The file system once [AÇÃO] is written. *)
Definition disco_acao_escrito : FS :=
  {| dirs := {[ ["crews"]; ["crews"; "pdca"]; ["crews"; "pdca"; "tools"];
                ["crews"; "pdca"; "tools"; "ação_tool"] ]};
     files := {[ ["crews"; "pdca"; "tools"; "ação_tool"; "__init__.py"] :=
                   "# Pacote para ferramentas dinâmicas" +:+ nl +:+
                   "from .ação_tool import AÇÃOTool" +:+ nl;
                 ["crews"; "pdca"; "tools"; "ação_tool"; "ação_tool.py"] := fonte_acao ]} |}.

End Examples.

(** ** Further files and runtimes *)

Module Scenarios.
Import Py Runtime Ast Examples.

(** A module whose first statement hides a tool class inside a function and
    whose second statement is a tool class. *)
Definition arvore_aninhada : list node :=
  [FunctionDef "fabrica" (arguments [] [])
     [ClassDef "InternaTool" [Name "BaseTool" Load] [Pass];
      Return (Name "InternaTool" Load)] [];
   ClassDef "ExternaTool" [Name "BaseTool" Load]
     [FunctionDef "_run" (arguments [arg "self" []] []) [Return (Constant (PyStr "ok"))] []]].

(** A text with a null byte: the parser refuses it with a [ValueError]. *)
Definition fonte_com_nulo : string := "import os" +:+ chr 0 +:+ nl.

Definition mundo_nulo : World :=
  runtime (parse_from [(fonte_com_nulo,
                        Raised (OtherException "source code string cannot contain null bytes"))])
          "" (Returned []) (fun _ => false).

(** A class of the expected name that is no tool. *)
Definition classe_simples : member :=
  {| mb_isclass := true;
     mb_is_BaseTool := false;
     mb_run_callable := true;
     mb_call := Raised (TypeError "ExemploTool() takes no arguments") |}.

Definition mundo_classe_simples : World :=
  runtime (parse_from [(fonte_exemplo, Returned arvore_exemplo)])
          "" (Returned [("ExemploTool", classe_simples)]) (fun _ => false).

(** The runtime of [Eco], with the current directory inside
    [/projeto/crews]. *)
Definition mundo_em_crews : World :=
  {| py_parse := py_parse mundo_eco;
     to_source := to_source mundo_eco;
     format_exc := format_exc mundo_eco;
     repr_kwargs := repr_kwargs mundo_eco;
     str_lower := str_lower mundo_eco;
     import_spec := import_spec mundo_eco;
     resolve_parent := resolve_parent mundo_eco;
     exec_module := exec_module mundo_eco;
     os_path_exists := os_path_exists mundo_eco;
     project_root := "/projeto";
     cwd := ["projeto"; "crews"; "pdca"] |}.

(** How Python prints a dictionary of texts. *)
Definition repr_textos (args : kwargs) : string :=
  "{" +:+
  join ", " (List.map (fun kv => "'" +:+ fst kv +:+ "': " +:+
                                 match snd kv with
                                 | PyStr s => "'" +:+ s +:+ "'"
                                 | _ => "..."
                                 end) args) +:+
  "}".

(** A tool [Eco] that turns down the text it is tested with. *)
Definition instancia_exigente : instance_view :=
  {| inst_truthy := true;
     inst_name := Some (AttrStr "Eco");
     inst_description := Some (AttrStr "Devolve o texto recebido.");
     inst_args_schema := Some (AttrClass modelo_eco);
     inst_run_callable := true;
     inst_run := fun args => Raised (OtherException "texto desconhecido") |}.

Definition classe_exigente : member :=
  {| mb_isclass := true;
     mb_is_BaseTool := true;
     mb_run_callable := true;
     mb_call := Returned instancia_exigente |}.

Definition mundo_exigente : World :=
  {| py_parse := py_parse mundo_eco;
     to_source := to_source mundo_eco;
     format_exc := format_exc mundo_eco;
     repr_kwargs := repr_textos;
     str_lower := str_lower mundo_eco;
     import_spec := import_spec mundo_eco;
     resolve_parent := resolve_parent mundo_eco;
     exec_module := fun _ _ sys_path =>
       (Returned [("DESCRIPTIONS", nao_classe); ("EcoTool", classe_exigente);
                  ("get_description", nao_classe)], sys_path);
     os_path_exists := os_path_exists mundo_eco;
     project_root := project_root mundo_eco;
     cwd := cwd mundo_eco |}.

(** [str] of the values the examples use as defaults. *)
Definition str_simples (v : pyval) : string :=
  match v with
  | PyNone => "None"
  | PyBool true => "True"
  | PyBool false => "False"
  | PyInt z => pretty z
  | PyStr s => s
  | _ => "..."
  end.

(** A tool [Eco] whose [args_schema] is a dictionary, not a class. *)
Definition instancia_esquema_errado : instance_view :=
  {| inst_truthy := true;
     inst_name := Some (AttrStr "Eco");
     inst_description := Some (AttrStr "Devolve o texto recebido.");
     inst_args_schema := Some (AttrOther true "<class 'dict'>");
     inst_run_callable := true;
     inst_run := fun args => Returned "" |}.

Definition classe_esquema_errado : member :=
  {| mb_isclass := true;
     mb_is_BaseTool := true;
     mb_run_callable := true;
     mb_call := Returned instancia_esquema_errado |}.

Definition mundo_esquema_errado : World :=
  runtime (parse_from fragmentos_eco) fonte_eco
          (Returned [("EcoTool", classe_esquema_errado)]) (fun _ => false).

(** An executor that cannot be used. *)
Definition executar_falho (caminho_ferramenta nome_classe : string) (parametros : kwargs)
    : outcome CreatorReport.resultado :=
  Raised (OtherException "limite de uso da ferramenta atingido").

(** A required number. *)
Definition parametro_peso : Creator.param_dict :=
  {| Creator.d_name := Some "peso";
     Creator.d_type := Some "number";
     Creator.d_description := Some "Peso do texto";
     Creator.d_required := Some true;
     Creator.d_default := None |}.

End Scenarios.

(** * Properties *)

(** ** Strings and paths *)

Module PyFacts.
Import Py.

Lemma app_cons c a b : String c a +:+ b = String c (a +:+ b).
Proof. reflexivity. Qed.

Lemma app_nil_l s : "" +:+ s = s.
Proof. reflexivity. Qed.

Lemma app_nil_r s : s +:+ "" = s.
Proof. induction s as [|c s IH]; [reflexivity|]. now rewrite app_cons, IH. Qed.

Lemma app_assoc a b c : (a +:+ b) +:+ c = a +:+ (b +:+ c).
Proof. induction a as [|x a IH]; [reflexivity|]. now rewrite !app_cons, IH. Qed.

Lemma prefix_app p s : String.prefix p (p +:+ s) = true.
Proof.
  induction p as [|c p IH]; simpl.
  - now destruct s.
  - destruct (ascii_dec c c); [assumption|congruence].
Qed.

Lemma prefix_split p s : String.prefix p s = true -> exists b, s = p +:+ b.
Proof.
  revert s. induction p as [|c p IH]; intros s H.
  - now exists s.
  - destruct s as [|d s]; simpl in H; [discriminate|].
    destruct (ascii_dec c d) as [->|]; [|discriminate].
    destruct (IH _ H) as [b ->]. now exists b.
Qed.

Lemma py_in_unfold sub s :
  py_in sub s =
  String.prefix sub s || match s with "" => false | String _ s' => py_in sub s' end.
Proof. now destruct s. Qed.

(** [py_in] decides [occurs_in]. *)
Lemma py_in_occurs sub s : py_in sub s = true <-> occurs_in sub s.
Proof.
  split.
  - induction s as [|c s IH]; rewrite py_in_unfold, orb_true_iff; intros [H|H].
    + destruct (prefix_split _ _ H) as [b Hb]. now exists "", b.
    + discriminate.
    + destruct (prefix_split _ _ H) as [b Hb]. now exists "", b.
    + destruct (IH H) as (a & b & ->). now exists (String c a), b.
  - intros (a & b & ->). induction a as [|c a IH].
    + rewrite app_nil_l, py_in_unfold, prefix_app. reflexivity.
    + rewrite app_cons, py_in_unfold, IH. apply orb_true_r.
Qed.

Lemma occurs_in_refl s : occurs_in s s.
Proof. exists "", "". now rewrite app_nil_r. Qed.

Lemma occurs_in_app_l x a b : occurs_in x a -> occurs_in x (a +:+ b).
Proof. intros (u & v & ->). exists u, (v +:+ b). now rewrite !app_assoc. Qed.

Lemma occurs_in_app_r x a b : occurs_in x b -> occurs_in x (a +:+ b).
Proof. intros (u & v & ->). exists (a +:+ u), v. now rewrite !app_assoc. Qed.

Lemma occurs_in_trans x y z : occurs_in x y -> occurs_in y z -> occurs_in x z.
Proof.
  intros (a & b & ->) (c & d & ->). exists (c +:+ a), (b +:+ d).
  now rewrite !app_assoc.
Qed.

(** Finds a piece among the pieces a text is appended from. *)
Ltac find_piece :=
  first [ apply occurs_in_refl
        | apply occurs_in_app_l; apply occurs_in_refl
        | apply occurs_in_app_r; find_piece ].

(** Every element of a list occurs in the list joined. *)
Lemma occurs_in_join x sep l : In x l -> occurs_in x (join sep l).
Proof.
  unfold join. induction l as [|y l IH]; intros Hin; [contradiction|].
  destruct Hin as [->|Hin].
  - destruct l; simpl; [apply occurs_in_refl|].
    apply occurs_in_app_l, occurs_in_refl.
  - destruct l as [|z l]; [contradiction|].
    change (String.concat sep (y :: z :: l))
      with (y +:+ sep +:+ String.concat sep (z :: l)).
    now apply occurs_in_app_r, occurs_in_app_r, IH.
Qed.

(** Indexing and slicing inside the bounds. *)
Lemma index_in_range {A} (l : list A) (i : Z) :
  0 <= i < Z.of_nat (length l) -> index l i = l !! Z.to_nat i.
Proof.
  intros H. unfold index.
  destruct (0 <=? i) eqn:E1; [|lia]. destruct (i <? Z.of_nat (length l)) eqn:E2; [|lia].
  reflexivity.
Qed.

Lemma index_Some {A} (l : list A) (i : Z) :
  0 <= i < Z.of_nat (length l) -> exists x, index l i = Some x.
Proof.
  intros H. rewrite index_in_range by assumption.
  apply lookup_lt_is_Some_2. lia.
Qed.

Lemma slice_in_range {A} (l : list A) (a b : Z) :
  0 <= a -> a <= b -> b <= Z.of_nat (length l) ->
  slice l a b = take (Z.to_nat (b - a)) (drop (Z.to_nat a) l).
Proof.
  intros Ha Hab Hb. unfold slice, clamp.
  destruct (a <? 0) eqn:E1; [lia|]. destruct (b <? 0) eqn:E2; [lia|].
  rewrite !Z.min_l by lia. f_equal. lia.
Qed.

Lemma length_slice {A} (l : list A) (a b : Z) :
  0 <= a -> a <= b -> b <= Z.of_nat (length l) ->
  Z.of_nat (length (slice l a b)) = b - a.
Proof.
  intros Ha Hab Hb. rewrite slice_in_range by assumption.
  rewrite length_take, length_drop. lia.
Qed.

Lemma index_slice {A} (l : list A) (a b k : Z) :
  0 <= a -> a <= b -> b <= Z.of_nat (length l) -> 0 <= k < b - a ->
  index (slice l a b) k = index l (a + k).
Proof.
  intros Ha Hab Hb Hk.
  rewrite index_in_range by (rewrite length_slice; lia).
  rewrite index_in_range by lia.
  rewrite slice_in_range by assumption.
  rewrite lookup_take_lt by lia. rewrite lookup_drop. f_equal. lia.
Qed.


(** An element of a slice is an element of the list. *)
Lemma in_slice {A} (l : list A) (a b : Z) (x : A) : In x (slice l a b) -> In x l.
Proof.
  unfold slice. intros H. apply list_elem_of_In in H.
  apply elem_of_take in H as (i & Hi & _). rewrite lookup_drop in Hi.
  apply list_elem_of_In. eapply list_elem_of_lookup_2, Hi.
Qed.

(** The line of a syntax error inside the file is found again in the
    context cut around it. *)
Lemma linha_no_contexto (linhas : list string) (lineno : Z) :
  1 <= lineno <= Z.of_nat (length linhas) ->
  let inicio := Z.max 0 (lineno - 3) in
  let contexto := slice linhas inicio (Z.min (Z.of_nat (length linhas)) (lineno + 2)) in
  let k := lineno - inicio - 1 in
  0 <= k < Z.of_nat (length contexto) /\
  index contexto k = index linhas (lineno - 1).
Proof.
  intros H inicio contexto k. subst contexto k inicio.
  rewrite length_slice by lia. split; [lia|].
  rewrite index_slice by lia. f_equal. lia.
Qed.

(** Characters of a string. *)
Lemma length_app a b : String.length (a +:+ b) = (String.length a + String.length b)%nat.
Proof. induction a as [|c a IH]; [reflexivity|]. rewrite app_cons. simpl. now rewrite IH. Qed.

Lemma has_char_app c a b : has_char c (a +:+ b) = has_char c a || has_char c b.
Proof.
  induction a as [|x a IH]; [reflexivity|].
  rewrite app_cons. simpl. now rewrite IH, orb_assoc.
Qed.

(** Lower case neither makes nor removes a slash or a space. *)
Lemma lower_char_slash c : Ascii.eqb (lower_char c) "/" = Ascii.eqb c "/".
Proof. destruct c as [[] [] [] [] [] [] [] []]; reflexivity. Qed.

Lemma lower_char_space c : Ascii.eqb (lower_char c) " " = Ascii.eqb c " ".
Proof. destruct c as [[] [] [] [] [] [] [] []]; reflexivity. Qed.

Lemma has_slash_lower s : has_char "/" (lower_ascii s) = has_char "/" s.
Proof. induction s as [|c s IH]; [reflexivity|]. simpl. now rewrite lower_char_slash, IH. Qed.

Lemma has_space_lower s : has_char " " (lower_ascii s) = has_char " " s.
Proof. induction s as [|c s IH]; [reflexivity|]. simpl. now rewrite lower_char_space, IH. Qed.

(** On ASCII text the case tables are not consulted. *)
Lemma lower_of_ascii table s : is_ascii s = true -> lower table s = lower_ascii s.
Proof. intros H. unfold lower. now rewrite H. Qed.

(** Replacing a character that does not occur changes nothing. *)
Lemma replace_char_absent c r s : has_char c s = false -> replace_char c r s = s.
Proof.
  induction s as [|a s IH]; [reflexivity|]. simpl. intros H.
  apply orb_false_iff in H as [Ha Hs]. rewrite Ha, IH by assumption. reflexivity.
Qed.

(** Replacing spaces brings no slash in. *)
Lemma has_slash_replace_space r s :
  has_char "/" r = false ->
  has_char "/" (replace_char " " r s) = has_char "/" s.
Proof.
  intros Hr. induction s as [|a s IH]; [reflexivity|]. simpl.
  rewrite has_char_app, IH. destruct (Ascii.eqb a " ") eqn:E.
  - apply Ascii.eqb_eq in E as ->. now rewrite Hr.
  - simpl. now rewrite orb_false_r.
Qed.

(** A string without the separator is one piece. *)
Lemma split_char_absent c s : has_char c s = false -> split_char c s = [s].
Proof.
  induction s as [|a s IH]; [reflexivity|]. simpl. intros H.
  apply orb_false_iff in H as [Ha Hs]. now rewrite Ha, IH.
Qed.

Lemma startswith_absent c s : has_char c s = false -> startswith (String c "") s = false.
Proof.
  destruct s as [|a s]; [reflexivity|]. simpl. intros H.
  apply orb_false_iff in H as [Ha _]. unfold startswith. simpl.
  destruct (ascii_dec c a) as [->|]; [|reflexivity].
  now rewrite Ascii.eqb_refl in Ha.
Qed.

(** A string ends with what is appended to it. *)
Lemma endswith_app a p : endswith p (a +:+ p) = true.
Proof.
  induction a as [|c a IH].
  - destruct p; simpl; now rewrite ?String.eqb_refl, ?Ascii.eqb_refl.
  - rewrite app_cons. simpl. rewrite IH. apply orb_true_r.
Qed.

(** The components of a name without slash that is neither empty nor a
    dot: the name. *)
Lemma components_single s :
  has_char "/" s = false -> s <> "" -> s <> "." -> components s = [s].
Proof.
  intros H H1 H2. unfold components. rewrite split_char_absent by assumption. simpl.
  apply String.eqb_neq in H1, H2. now rewrite H1, H2.
Qed.

(** Splitting at the first separator. *)
Lemma split_char_app c a b :
  has_char c a = false -> split_char c (a +:+ String c b) = a :: split_char c b.
Proof.
  induction a as [|x a IH]; intros H.
  - rewrite app_nil_l. cbn [split_char]. now rewrite Ascii.eqb_refl.
  - cbn [has_char] in H. apply orb_false_iff in H as [Hx Ha].
    rewrite app_cons. cbn [split_char]. now rewrite Hx, IH.
Qed.

Lemma rfind_from_app c a b i acc :
  rfind_from c (a +:+ b) i acc = rfind_from c b (i + String.length a) (rfind_from c a i acc).
Proof.
  revert i acc. induction a as [|x a IH]; intros i acc.
  - rewrite app_nil_l. cbn [rfind_from String.length]. now rewrite Nat.add_0_r.
  - rewrite app_cons. cbn [rfind_from String.length]. rewrite IH. f_equal. lia.
Qed.

Lemma str_drop_app a b n : str_drop (String.length a + n) (a +:+ b) = str_drop n b.
Proof. induction a as [|x a IH]; [reflexivity|]. rewrite app_cons. exact IH. Qed.

(** A name that ends in [_tool.py] has the suffix [.py]. *)
Lemma suffix_cut_tool_py x :
  suffix_cut (x +:+ "_tool.py") = Some (String.length x + 5)%nat.
Proof.
  unfold suffix_cut, rfind. rewrite rfind_from_app. cbn [rfind_from Ascii.eqb Bool.eqb].
  rewrite length_app. cbn [String.length].
  replace (Nat.ltb 0 _) with true by (symmetry; apply Nat.ltb_lt; lia).
  replace (Nat.ltb _ _) with true by (symmetry; apply Nat.ltb_lt; lia).
  cbn [andb]. f_equal. lia.
Qed.

End PyFacts.

(** ** The verifier *)

Module VerifierFacts.
Import Py Runtime Verifier Examples.

(** The dictionary built from a result reports success exactly when the
    result has no error. *)
Lemma build_result_success res :
  sucesso (_build_result_dict res) = is_empty (erros (_build_result_dict res)).
Proof. reflexivity. Qed.

(** Every dictionary [run] returns is the early one for a missing argument
    or is built by [_build_result_dict]. *)
Lemma run_returns_built w fs sys_path tool_path kwargs_tool_path r :
  fst (run w fs sys_path tool_path kwargs_tool_path) = Returned r ->
  (sucesso r = false /\ erros r <> []) \/ exists res, r = _build_result_dict res.
Proof.
  unfold run. intros H.
  repeat case_match; simpl in H; simplify_eq; eauto.
Qed.

Lemma verify_ast_raises w fs res e : _verify_ast w fs res = Raised e -> escapes e.
Proof.
  unfold _verify_ast, on_syntax_error, _identificar_componente_com_erro, escapes.
  intros H. repeat (case_match; simplify_eq; cbn in *); simplify_eq; auto.
Qed.

Lemma verify_import_raises w res sys_path e :
  fst (_verify_import_and_inspect w res sys_path) = Raised e -> is_Exception e = false.
Proof.
  unfold _verify_import_and_inspect, on_import_exception.
  intros H. repeat (case_match; simplify_eq; cbn in *); simplify_eq; auto.
Qed.

Lemma verify_instance_raises w res e :
  _verify_instance w res = Raised e -> is_Exception e = false.
Proof.
  unfold _verify_instance. intros H. repeat (case_match; simplify_eq; cbn in *); auto.
Qed.

Lemma verify_args_schema_raises w instance res e :
  _verify_args_schema w instance res = Raised e -> is_Exception e = false.
Proof.
  unfold _verify_args_schema. intros H. repeat (case_match; simplify_eq; cbn in *); auto.
Qed.

(** [run] returns a report unless one of these exceptions leaves a stage. *)
Lemma run_raises w fs sys_path tool_path kwargs_tool_path e :
  fst (run w fs sys_path tool_path kwargs_tool_path) = Raised e -> escapes e.
Proof.
  unfold run. intros H.
  repeat (case_match; simplify_eq; cbn [fst] in * );
    eauto using verify_ast_raises;
    left;
    eauto using verify_instance_raises, verify_args_schema_raises.
  all: match goal with
       | Hi : _verify_import_and_inspect _ _ _ = (Raised _, _) |- _ =>
           eapply verify_import_raises; rewrite Hi; reflexivity
       end.
Qed.

(** C4.  Every call of [run] returns a report, unless an exception escapes
    as above; and the success flag of the report is true exactly when its
    list of errors is empty: it is computed from that list alone, so neither
    warnings nor infos can make it false. *)
Theorem success_iff_no_errors w fs sys_path tool_path kwargs_tool_path :
  match fst (run w fs sys_path tool_path kwargs_tool_path) with
  | Returned r => (sucesso r = true <-> erros r = []) /\ sucesso r = is_empty (erros r)
  | Raised e => escapes e
  end.
Proof.
  destruct (fst (run w fs sys_path tool_path kwargs_tool_path)) as [r|e] eqn:H.
  - destruct (run_returns_built _ _ _ _ _ _ H) as [[Hs He]|[res ->]].
    + rewrite Hs. destruct (erros r); [contradiction|]. now split.
    + rewrite build_result_success. destruct (erros (_build_result_dict res)); now split.
  - eapply run_raises, H.
Qed.

(** C7, as the code has it.  When the file is a [.py] file whose text the
    parser rejects with a [SyntaxError] at a line of the file, [run] returns
    a report without success whose errors are four entries: the line number
    with the parser's message; one of the seven components, the one the
    heuristic picks; the text of the line without the white space around
    it, whole when it has at most 30 characters and else its first 27
    characters and an ellipsis; and one of four suggestions, chosen from the
    message.  The pipeline stops there: no warning, no later info, no class
    name, and [sys.path] as it was. *)
Theorem syntax_error_report w fs sys_path tool_path source_code e lineno :
  files fs !! Path tool_path = Some source_code ->
  suffix (Path tool_path) = ".py" ->
  py_parse w source_code = Raised (SyntaxError e) ->
  se_lineno e = Some lineno ->
  1 <= lineno <= Z.of_nat (length (split_char (ascii_of_nat 10) source_code)) ->
  exists componente descricao linha,
    split_char (ascii_of_nat 10) source_code !! Z.to_nat (lineno - 1) = Some linha /\
    _identificar_componente_com_erro w source_code lineno = Returned (componente, descricao) /\
    In (componente, descricao) MAPEAMENTO_COMPONENTES /\
    run w fs sys_path (Some tool_path) None =
    (Returned
       {| sucesso := false;
          erros := ["ERRO: Erro de sintaxe na linha " +:+ pretty lineno +:+ ": " +:+ se_msg e;
                    "ERRO: Componente: " +:+ componente;
                    "ERRO: Código: " +:+
                      (if 30 <? len (strip linha)
                       then take_chars 27 (strip linha) +:+ "..."
                       else strip linha);
                    "ERRO: " +:+
                      (if String.eqb (se_msg e) "expected ':'"
                       then "Sugestão: Adicione dois pontos (:) ao final da linha"
                       else if py_in "unexpected EOF" (se_msg e)
                       then "Sugestão: Verifique parênteses/colchetes não fechados"
                       else if py_in "unexpected indent" (se_msg e)
                       then "Sugestão: Corrija a indentação da linha"
                       else "Sugestão: Verifique a sintaxe Python na linha")];
          avisos := [];
          infos := ["INFO: Iniciando verificação para: " +:+ path_str (Path tool_path);
                    "INFO: Analisando AST para erros de sintaxe e estrutura"];
          r_tool_path := Some (path_str (Path tool_path));
          r_tool_class_name := None |},
     sys_path).
Proof.
  intros Hfile Hsuf Hparse Hline Hrange.
  destruct (PyFacts.index_Some (split_char (ascii_of_nat 10) source_code) (lineno - 1))
    as [linha Hlinha]; [lia|].
  destruct (PyFacts.linha_no_contexto _ _ Hrange) as [Hk Hctx].
  assert (Hid : exists componente descricao,
             _identificar_componente_com_erro w source_code lineno
             = Returned (componente, descricao) /\
             In (componente, descricao) MAPEAMENTO_COMPONENTES).
  { unfold _identificar_componente_com_erro. rewrite Hlinha.
    eexists. eexists. split; [reflexivity|].
    repeat case_match; cbn; tauto. }
  destruct Hid as (componente & descricao & Hid & Hmap).
  exists componente, descricao, linha.
  split.
  { unfold index in Hlinha.
    replace ((0 <=? lineno - 1) && (lineno - 1 <? Z.of_nat (length (split_char (ascii_of_nat 10) source_code))))
      with true in Hlinha by (symmetry; apply andb_true_iff; split; lia).
    exact Hlinha. }
  split; [exact Hid|]. split; [exact Hmap|].
  unfold run, new_result. cbn [Verifier.tool_path add_info set_info].
  assert (Hisfile : is_file fs (Path tool_path) = true).
  { unfold is_file. rewrite Hfile. apply bool_decide_eq_true. eauto. }
  unfold path_exists. rewrite Hisfile, orb_true_r, Hsuf. cbn [negb orb String.eqb].
  unfold _verify_ast. cbn [Verifier.tool_path add_info set_info].
  unfold read_text. rewrite Hfile, Hparse.
  unfold on_syntax_error. rewrite Hline, Hid.
  cbn [mbind outcome_bind].
  rewrite Hctx, Hlinha.
  destruct (negb (is_empty _) && _ && _) eqn:Hcond.
  - reflexivity.
  - exfalso. rewrite !andb_false_iff in Hcond.
    destruct Hcond as [[Hc|Hc]|Hc].
    + destruct (slice _ _ _) eqn:Es; [simpl in Hk; lia|discriminate].
    + lia.
    + lia.
Qed.

(** The theorem at a class header with accents and without its colon: the
    line has 29 characters and is reported whole. *)
Lemma syntax_error_report_witness :
  run mundo_acentuado (disco "acao_tool.py" fonte_acentuada)
      ["/usr/lib/python3"] (Some "ferramentas/acao_tool.py") None =
  (Returned
     {| sucesso := false;
        erros := ["ERRO: Erro de sintaxe na linha 1: expected ':'";
                  "ERRO: Componente: Herança de Classe";
                  "ERRO: Código: class AçãoVerificaçãoTool(Ba)";
                  "ERRO: Sugestão: Adicione dois pontos (:) ao final da linha"];
        avisos := [];
        infos := ["INFO: Iniciando verificação para: ferramentas/acao_tool.py";
                  "INFO: Analisando AST para erros de sintaxe e estrutura"];
        r_tool_path := Some "ferramentas/acao_tool.py";
        r_tool_class_name := None |},
   ["/usr/lib/python3"]).
Proof.
  destruct (syntax_error_report mundo_acentuado
              (disco "acao_tool.py" fonte_acentuada) ["/usr/lib/python3"]
              "ferramentas/acao_tool.py" fonte_acentuada erro_acentuado 1)
    as (componente & descricao & linha & Hlinha & Hid & _ & Hrun).
  - vm_compute. reflexivity.
  - vm_compute. reflexivity.
  - vm_compute. reflexivity.
  - reflexivity.
  - vm_compute. split; discriminate.
  - vm_compute in Hlinha. injection Hlinha as <-.
    vm_compute in Hid. injection Hid as <- <-.
    rewrite Hrun. vm_compute. reflexivity.
Defined.

(** C7 as stated fails at the class header without its colon: the report
    has four fatal entries, not one, and none of them holds the full text of
    the failing line, which is reported cut to thirty characters. *)
Lemma syntax_error_four_entries :
  exists rep,
    fst (run mundo_sem_dois_pontos (disco "exemplo_tool.py" fonte_sem_dois_pontos)
             ["/usr/lib/python3"] (Some "ferramentas/exemplo_tool.py") None) = Returned rep /\
    erros rep =
      ["ERRO: Erro de sintaxe na linha 1: expected ':'";
       "ERRO: Componente: Herança de Classe";
       "ERRO: Código: class FerramentaDeExemploTo...";
       "ERRO: Sugestão: Adicione dois pontos (:) ao final da linha"] /\
    existsb (py_in "class FerramentaDeExemploTool(BaseTool)") (erros rep) = false.
Proof.
  eexists. split; [vm_compute; reflexivity|]. split; reflexivity.
Qed.

(** C5 at a tool whose constructor needs an argument: the class loads, the
    construction without arguments fails, and the failure is recorded among
    the errors, so the report has no success; the docstring of
    [_verify_instance] promises a warning. *)
Lemma instantiation_failure_is_fatal :
  exists rep,
    fst (run mundo_sem_construtor (disco "exemplo_tool.py" fonte_exemplo)
             ["/usr/lib/python3"] (Some "ferramentas/exemplo_tool.py") None) = Returned rep /\
    sucesso rep = false /\
    erros rep =
      ["ERRO: Falha na instanciação: " +:+
         "ExemploTool.__init__() missing 1 required positional argument: 'cliente'" +:+ nl +:+
         "Traceback (most recent call last):" +:+ nl +:+
         "ExemploTool.__init__() missing 1 required positional argument: 'cliente'";
       "ERRO: Verificação concluída com erros críticos."] /\
    avisos rep =
      ["AVISO: Verificação do args_schema pulada pois a instância da ferramenta não pôde ser criada."].
Proof.
  eexists. split; [vm_compute; reflexivity|]. repeat split; reflexivity.
Qed.

(** What holds of [sys.path]: when the directory of the file is not on it
    and the code of the module leaves it alone, the import stage hands it
    back as it was, on every exit. *)
Lemma import_stage_restores_sys_path w res sys_path :
  (forall m p sp, snd (exec_module w m p sp) = sp) ->
  str_in_list (resolve_parent w (tool_path res)) sys_path = false ->
  snd (_verify_import_and_inspect w res sys_path) = sys_path.
Proof.
  intros Hexec Habsent. unfold _verify_import_and_inspect.
  destruct (tool_class_name res) as [[|c cn]|]; [reflexivity| |reflexivity].
  cbn [tool_path add_info set_info].
  destruct (import_spec w _ _) as [[|]|e]; [|reflexivity|reflexivity].
  rewrite Habsent. cbn [negb].
  match goal with
  | |- context [exec_module w ?m ?p ?sp] =>
      pose proof (Hexec m p sp) as Hsp; destruct (exec_module w m p sp) as [loaded sp']
  end.
  cbn [snd] in Hsp. subst sp'.
  assert (Hrestore : restore_sys_path (resolve_parent w (tool_path res)) sys_path
                       (resolve_parent w (tool_path res) :: sys_path) = sys_path).
  { unfold restore_sys_path. cbn [str_in_list existsb remove_first].
    now rewrite String.eqb_refl, Habsent. }
  destruct loaded as [m|e].
  - cbn [snd]. exact Hrestore.
  - destruct (is_Exception e); cbn [snd]; [|exact Hrestore].
    cbn [str_in_list existsb remove_first]. rewrite String.eqb_refl. cbn [orb].
    unfold restore_sys_path. now rewrite Habsent.
Qed.

(** C10 at a tool whose module fails to load while its directory is already
    on [sys.path]: the handler removes the directory, and the call leaves
    [sys.path] one entry shorter than it found it. *)
Lemma sys_path_entry_lost :
  snd (run mundo_sem_modulo (disco "exemplo_tool.py" fonte_exemplo)
           ["/projeto/ferramentas"; "/usr/lib/python3"]
           (Some "ferramentas/exemplo_tool.py") None)
  = ["/usr/lib/python3"].
Proof. vm_compute. reflexivity. Qed.

End VerifierFacts.

(** ** The creator *)

Module CreatorFacts.
Import Py Runtime Ast Creator Examples.

(** *** Defaults of optional parameters (C6) *)

(** The two copies of the table of defaults agree. *)
Lemma run_default_field_default param : run_default param = field_default param.
Proof. reflexivity. Qed.

Lemma lookup_map {A B} (f : A -> B) (l : list A) (i : nat) :
  List.map f l !! i = f <$> (l !! i).
Proof.
  revert i. induction l as [|x l IH]; intros [|i]; try reflexivity. apply IH.
Qed.

Lemma length_filter_le {A} (P : A -> bool) (l : list A) :
  (length (List.filter P l) <= length l)%nat.
Proof.
  induction l as [|x l IH]; [reflexivity|]. cbn [List.filter].
  destruct (P x); cbn [length]; lia.
Qed.

Lemma filter_all {A} (P : A -> bool) (l : list A) :
  Forall (fun x => P x = true) l -> List.filter P l = l.
Proof.
  induction 1 as [|x l Hx _ IH]; [reflexivity|]. cbn [List.filter]. now rewrite Hx, IH.
Qed.

(** C6, as the code has it.  For a parameter that is not required and has no
    default, the default is one expression, chosen by the type: the empty
    string for [string], the integer constant 0 for [integer] and also for
    [number], [False] for [boolean], an empty list for [array], an empty
    dictionary for [object] and [None] for any other type.  It is the
    default of the parameter's field in the parameter model.  In the list
    of defaults of [_run] it stands at the place the parameter has among
    the optional parameters; Python gives the defaults to the last
    arguments, so it is the default of the parameter's own argument when
    every parameter declared after it is optional. *)
Theorem fallback_defaults tool_def (i : nat) param :
  def_parameters tool_def !! i = Some param ->
  param_required param = false ->
  param_default param = PyNone ->
  let optional := List.filter (fun p => negb (param_required p)) in
  let k := length (optional (take i (def_parameters tool_def))) in
  exists expr model_body,
    (param_type param = "string" -> expr = Constant (PyStr "")) /\
    (param_type param = "integer" \/ param_type param = "number" ->
     expr = Constant (PyInt 0)) /\
    (param_type param = "boolean" -> expr = Constant (PyBool false)) /\
    (param_type param = "array" -> expr = List_ [] Load) /\
    (param_type param = "object" -> expr = Dict [] []) /\
    (~ In (param_type param) ["string"; "integer"; "number"; "boolean"; "array"; "object"] ->
     expr = Constant PyNone) /\
    create_parameter_model tool_def
    = [ClassDef (tool_name_clean tool_def +:+ "Parameters") [Name "BaseModel" Load] model_body] /\
    model_body !! S i
    = Some (AnnAssign (Name (param_name param) Store) (_get_type_annotation (param_type param))
              (Call (Name "Field" Load) []
                 [keyword "description" (Constant (PyStr (param_description param)));
                  keyword "default" expr]) 1) /\
    run_defaults tool_def !! k = Some expr /\
    length (run_defaults tool_def) = length (optional (def_parameters tool_def)) /\
    (Forall (fun p => param_required p = false) (drop (S i) (def_parameters tool_def)) ->
     default_target (run_args tool_def) (run_defaults tool_def) k
     = Some (arg (param_name param) [_get_type_annotation (param_type param)])).
Proof.
  intros Hi Hreq Hdef optional k.
  pose proof (take_drop_middle _ _ _ Hi) as Hsplit.
  assert (Hopt : optional (def_parameters tool_def)
                 = optional (take i (def_parameters tool_def))
                   ++ param :: optional (drop (S i) (def_parameters tool_def))).
  { rewrite <- Hsplit at 1. unfold optional. rewrite List.filter_app. cbn [List.filter].
    now rewrite Hreq. }
  assert (Hlen : (i < length (def_parameters tool_def))%nat)
    by (eapply lookup_lt_Some, Hi).
  exists (field_default param).
  eexists. split; [|split; [|split; [|split; [|split; [|split; [|split; [|split;
    [|split; [|split]]]]]]]]].
  - unfold field_default. rewrite Hdef. now intros ->.
  - unfold field_default. rewrite Hdef. intros [-> | ->]; reflexivity.
  - unfold field_default. rewrite Hdef. now intros ->.
  - unfold field_default. rewrite Hdef. now intros ->.
  - unfold field_default. rewrite Hdef. now intros ->.
  - unfold field_default. rewrite Hdef. cbn [is_not_None In]. intros Hnot.
    repeat match goal with
           | |- context [String.eqb ?a ?b] =>
               destruct (String.eqb_spec a b) as [Heq|_];
                 [exfalso; apply Hnot; symmetry in Heq; tauto|]
           end.
    reflexivity.
  - unfold create_parameter_model.
    destruct (def_parameters tool_def) as [|p0 ps] eqn:Hps; [discriminate|].
    rewrite <- Hps. reflexivity.
  - change (List.map field_assign (def_parameters tool_def) !! i = Some
              (AnnAssign (Name (param_name param) Store)
                 (_get_type_annotation (param_type param))
                 (Call (Name "Field" Load) []
                    [keyword "description" (Constant (PyStr (param_description param)));
                     keyword "default" (field_default param)]) 1)).
    rewrite lookup_map, Hi. cbn [fmap option_fmap option_map].
    unfold field_assign. now rewrite Hreq.
  - unfold run_defaults. fold (optional (def_parameters tool_def)).
    rewrite lookup_map, Hopt. unfold k. now rewrite list_lookup_middle.
  - unfold run_defaults. now rewrite length_map.
  - intros Hafter. unfold default_target, run_defaults, run_args.
    fold (optional (def_parameters tool_def)).
    rewrite Hopt. cbn [length]. rewrite !length_map, length_app. cbn [length].
    assert (Hrest : optional (drop (S i) (def_parameters tool_def))
                    = drop (S i) (def_parameters tool_def)).
    { apply filter_all. eapply Forall_impl; [exact Hafter|].
      intros p Hp. cbn beta. now rewrite Hp. }
    rewrite Hrest, length_drop. fold k.
    assert (Hk : (k <= i)%nat).
    { unfold k, optional. etransitivity; [apply length_filter_le|].
      rewrite length_take. lia. }
    replace (S (length (def_parameters tool_def))
             - (k + S (length (def_parameters tool_def) - S i)) + k)%nat
      with (S i) by lia.
    change (List.map (fun p => arg (param_name p) [_get_type_annotation (param_type p)])
                     (def_parameters tool_def) !! i
            = Some (arg (param_name param) [_get_type_annotation (param_type param)])).
    rewrite lookup_map, Hi. reflexivity.
Qed.

(** The theorem at an optional number declared after a required text. *)
Lemma fallback_defaults_witness :
  let tool_def := tool_definition "Eco" "Devolve o texto recebido."
                    [ParamDict parametro_texto; ParamObject parametro_limite]
                    "return texto" [] [] in
  run_defaults tool_def = [Constant (PyInt 0)] /\
  default_target (run_args tool_def) (run_defaults tool_def) 0
  = Some (arg "limite" [Name "float" Load]).
Proof.
  intros tool_def.
  destruct (fallback_defaults tool_def 1 parametro_limite eq_refl eq_refl eq_refl)
    as (expr & model_body & _ & Hnum & _ & _ & _ & _ & _ & _ & Hdef & Hlen & Htarget).
  rewrite (Hnum (or_intror eq_refl)) in Hdef.
  split.
  - destruct (run_defaults tool_def) as [|d [|d' ds]]; try discriminate.
    cbn in Hdef. now injection Hdef as ->.
  - apply Htarget. constructor.
Defined.

(** C6 as stated fails for [number]: the default synthesized is the integer
    constant 0, the one of [integer], and not the float 0.0, in the field
    and in the arguments of [_run].  And an optional parameter declared
    before a required one has no default in [_run]: its default is given to
    the last argument. *)
Lemma number_default_is_integer :
  field_default parametro_limite = Constant (PyInt 0) /\
  run_default parametro_limite = Constant (PyInt 0) /\
  field_default parametro_limite <> Constant (PyFloat 0 0) /\
  let tool_def := tool_definition "Eco" "Devolve o texto recebido."
                    [ParamObject parametro_limite; ParamDict parametro_texto]
                    "return texto" [] [] in
  run_args tool_def
  = [arg "self" []; arg "limite" [Name "float" Load]; arg "texto" [Name "str" Load]] /\
  run_defaults tool_def = [Constant (PyInt 0)] /\
  default_target (run_args tool_def) (run_defaults tool_def) 0
  = Some (arg "texto" [Name "str" Load]).
Proof. repeat split. discriminate. Qed.

(** *** The path of the artifact (C8) *)

Lemma app_not_short a b (s : string) :
  (String.length s < String.length b)%nat -> a +:+ b <> s.
Proof.
  intros Hlen Heq. apply (f_equal String.length) in Heq.
  rewrite PyFacts.length_app in Heq. lia.
Qed.

Lemma tool_dir_name_slash w name :
  has_char "/" (lower (str_lower w) name) = false -> has_char "/" (tool_dir_name w name) = false.
Proof.
  intros H. unfold tool_dir_name.
  rewrite PyFacts.has_char_app, PyFacts.has_slash_replace_space, H; reflexivity.
Qed.

Lemma tool_file_name_slash w name :
  has_char "/" (lower (str_lower w) name) = false -> has_char "/" (tool_file_name w name) = false.
Proof.
  intros H. unfold tool_file_name.
  rewrite PyFacts.has_char_app, PyFacts.has_slash_replace_space, H; reflexivity.
Qed.

(** The parts of the directory of a tool whose name has no slash. *)
Lemma tools_dir_parts w name :
  has_char "/" (lower (str_lower w) name) = false ->
  tools_dir w name = ["crews"; "pdca"; "tools"; tool_dir_name w name].
Proof.
  intros H. unfold tools_dir, Path, anchor_of, components, startswith.
  rewrite !PyFacts.app_cons, PyFacts.app_nil_l. cbn.
  rewrite (PyFacts.split_char_absent _ _ (tool_dir_name_slash w name H)). cbn.
  assert (H1 : tool_dir_name w name <> "") by (apply app_not_short; simpl; lia).
  assert (H2 : tool_dir_name w name <> ".") by (apply app_not_short; simpl; lia).
  apply String.eqb_neq in H1, H2. now rewrite H1, H2.
Qed.

(** The parts of the file of a tool whose name has no slash. *)
Lemma tool_file_path_parts w name :
  has_char "/" (lower (str_lower w) name) = false ->
  tool_file_path w name =
  ["crews"; "pdca"; "tools"; tool_dir_name w name; tool_file_name w name].
Proof.
  intros H. unfold tool_file_path, truediv.
  rewrite (PyFacts.startswith_absent _ _ (tool_file_name_slash w name H)).
  rewrite tools_dir_parts by assumption.
  rewrite PyFacts.components_single; [reflexivity| now apply tool_file_name_slash | |];
    apply app_not_short; simpl; lia.
Qed.

(** The directory and the file agree for a name without spaces. *)
Lemma names_agree w name :
  has_char " " (lower (str_lower w) name) = false -> tool_file_name w name = tool_dir_name w name +:+ ".py".
Proof.
  intros H. unfold tool_file_name, tool_dir_name.
  rewrite !PyFacts.replace_char_absent by assumption.
  now rewrite PyFacts.app_assoc.
Qed.

(** The file of the tool is not the package's [__init__.py]. *)
Lemma tool_file_not_init w name : tool_file_name w name <> "__init__.py".
Proof.
  unfold tool_file_name. intros Heq.
  assert (He : endswith "_tool.py" "__init__.py" = true)
    by (rewrite <- Heq; apply PyFacts.endswith_app).
  discriminate He.
Qed.

(** What [synthesize] leaves when it reports a file written: the file is
    the tool's file and holds the code. *)
Lemma synthesize_written w fs name description parameters implementation
      imports custom_methods p code fs' :
  has_char "/" (lower (str_lower w) name) = false ->
  synthesize w fs name description parameters implementation imports custom_methods
  = (Returned (Written p code), fs') ->
  p = tool_file_path w name /\
  files fs' !! p = Some code /\
  exists tree,
    synthesized_tree w name description parameters implementation imports custom_methods
    = Returned tree /\
    code = to_source w tree.
Proof.
  intros Hname. unfold synthesize. intros H.
  repeat case_match; simplify_eq.
  - unfold write_text in *. repeat case_match; simplify_eq. cbn [files].
    split; [reflexivity|]. split; [|eauto].
    rewrite lookup_insert_ne; [apply lookup_insert_eq|].
    unfold truediv. cbn. rewrite tool_file_path_parts, tools_dir_parts by assumption.
    intros Heq. cbn in Heq. injection Heq as Heq.
    exact (tool_file_not_init w name (eq_sym Heq)).
  - unfold write_text in *. repeat case_match; simplify_eq. cbn [files].
    split; [reflexivity|]. split; [apply lookup_insert_eq|eauto].
Qed.

(** C8, as the code has it.  For a name whose lower-case form has no
    slash, the artifact is written to [crews/pdca/tools/<d>/<f>], where the
    directory [<d>] is the name in lower case with its spaces removed,
    followed by [_tool], and the file [<f>] is the name in lower case with
    each space replaced by an underscore, followed by [_tool.py]; the two
    agree ([<f>] is [<d>.py]) when the lower-case form has no space.  The
    lower-case form is the one of [str.lower]: of an ASCII name it changes
    the letters [A] to [Z] only, and so has a slash or a space exactly when
    the name has. *)
Theorem artifact_path w fs name description parameters implementation
      imports custom_methods p code fs' :
  let low := lower (str_lower w) name in
  has_char "/" low = false ->
  synthesize w fs name description parameters implementation imports custom_methods
  = (Returned (Written p code), fs') ->
  path_str p = "crews/pdca/tools/" +:+ tool_dir_name w name +:+ "/" +:+ tool_file_name w name /\
  tool_dir_name w name = replace_char " " "" low +:+ "_tool" /\
  tool_file_name w name = replace_char " " "_" low +:+ "_tool.py" /\
  files fs' !! p = Some code /\
  (has_char " " low = false -> tool_file_name w name = tool_dir_name w name +:+ ".py") /\
  (is_ascii name = true ->
   low = lower_ascii name /\
   has_char "/" low = has_char "/" name /\
   has_char " " low = has_char " " name).
Proof.
  intros low Hname H.
  destruct (synthesize_written _ _ _ _ _ _ _ _ _ _ _ Hname H) as (-> & Hfile & _).
  split; [|split; [reflexivity|split; [reflexivity|split; [exact Hfile|split]]]].
  - rewrite tool_file_path_parts by assumption. reflexivity.
  - apply names_agree.
  - intros Hascii. unfold low. rewrite (PyFacts.lower_of_ascii _ _ Hascii).
    now rewrite PyFacts.has_slash_lower, PyFacts.has_space_lower.
Qed.

(** The theorem at the tool [AÇÃO]: the directory and the file are named
    [ação_tool]. *)
Lemma artifact_path_witness :
  path_str ["crews"; "pdca"; "tools"; "ação_tool"; "ação_tool.py"] =
    "crews/pdca/tools/" +:+ tool_dir_name mundo_acao "AÇÃO" +:+ "/" +:+
    tool_file_name mundo_acao "AÇÃO" /\
  tool_dir_name mundo_acao "AÇÃO" = "ação_tool" /\
  tool_file_name mundo_acao "AÇÃO" = tool_dir_name mundo_acao "AÇÃO" +:+ ".py".
Proof.
  destruct (artifact_path mundo_acao disco_vazio "AÇÃO" "Devolve o texto recebido."
              [ParamDict parametro_texto] "return texto" [] []
              ["crews"; "pdca"; "tools"; "ação_tool"; "ação_tool.py"] fonte_acao
              disco_acao_escrito)
    as (Hpath & Hdir & _ & _ & Hagree & _).
  - reflexivity.
  - vm_compute. reflexivity.
  - split; [exact Hpath|]. split; [rewrite Hdir; reflexivity|apply Hagree; reflexivity].
Defined.

(** C8 as stated fails for a name with a space: the directory drops the
    space and the file turns it into an underscore, so no normalized name
    gives both.  And a name with a slash is spread over more directories. *)
Lemma directory_and_file_differ :
  path_str (tool_file_path mundo_eco "Log Analyzer") =
    "crews/pdca/tools/loganalyzer_tool/log_analyzer_tool.py" /\
  tool_dir_name mundo_eco "Log Analyzer" = "loganalyzer_tool" /\
  tool_file_name mundo_eco "Log Analyzer" = "log_analyzer_tool.py" /\
  stem (tool_file_path mundo_eco "Log Analyzer") <> tool_dir_name mundo_eco "Log Analyzer" /\
  path_str (tool_file_path mundo_eco "io/leitor") =
    "crews/pdca/tools/io/leitor_tool/io/leitor_tool.py".
Proof. repeat split. vm_compute. discriminate. Qed.

(** *** Empty auxiliary methods (C2) *)

(** The names [verificar_metodos_vazios] returns include every method that
    parses to a function with only [pass]. *)
Lemma verificar_lists_empty w custom_methods names :
  verificar_metodos_vazios w custom_methods = Returned names ->
  forall metodo metodo_ast,
    In metodo custom_methods ->
    first_statement w metodo = Returned metodo_ast ->
    is_empty_method metodo_ast = true ->
    In (node_name metodo_ast) names.
Proof.
  revert names. induction custom_methods as [|m rest IH]; intros names H metodo n Hin Hp He.
  - contradiction.
  - cbn [verificar_metodos_vazios] in H.
    destruct (first_statement w m) as [n0|e0] eqn:Hm.
    + cbn [mbind outcome_bind] in H.
      destruct (verificar_metodos_vazios w rest) as [more|] eqn:Hrest; [|discriminate].
      cbn [mbind outcome_bind] in H. injection H as <-. apply in_or_app.
      destruct Hin as [->|Hin].
      * left. rewrite Hp in Hm. injection Hm as <-. rewrite He. now left.
      * right. eapply IH; eauto.
    + destruct (is_Exception e0); [|discriminate].
      cbn [mbind outcome_bind] in H.
      destruct (verificar_metodos_vazios w rest) as [more|] eqn:Hrest; [|discriminate].
      cbn [mbind outcome_bind] in H. injection H as <-. cbn [app].
      destruct Hin as [->|Hin]; [congruence|]. eapply IH; eauto.
Qed.

(** It returns when no parse ends in an exception outside [Exception]. *)
Lemma verificar_returns w custom_methods :
  (forall metodo e, In metodo custom_methods ->
                    first_statement w metodo = Raised e -> is_Exception e = true) ->
  exists names, verificar_metodos_vazios w custom_methods = Returned names.
Proof.
  induction custom_methods as [|m rest IH]; intros H; [now exists []|].
  destruct IH as [more Hmore]. { intros metodo e Hin. apply H. now right. }
  cbn [verificar_metodos_vazios]. rewrite Hmore.
  destruct (first_statement w m) as [n0|e0] eqn:Hm.
  - cbn. eauto.
  - rewrite (H m e0) by (auto; now left). cbn. eauto.
Qed.

(** C2, as the code has it.  When some auxiliary method is a function whose
    body is a single [pass], [synthesize] writes no file and produces no
    artifact.  The directory of the tool is created first: when that
    succeeds (and the parser raises nothing outside [Exception]) the call
    returns, in the file system with that directory and its missing parents
    added, a message in which the name of every such method occurs. *)
Theorem empty_methods_rejected w fs name description parameters implementation
      imports custom_methods :
  (exists metodo metodo_ast,
      In metodo custom_methods /\
      first_statement w metodo = Returned metodo_ast /\
      is_empty_method metodo_ast = true) ->
  let result :=
    synthesize w fs name description parameters implementation imports custom_methods in
  files (snd result) = files fs /\
  (forall p code, fst result <> Returned (Written p code)) /\
  (forall fs1,
      mkdir_parents fs (tools_dir w name) = Returned fs1 ->
      (forall metodo e, In metodo custom_methods ->
                        first_statement w metodo = Raised e -> is_Exception e = true) ->
      exists mensagem,
        result = (Returned (Rejected mensagem), fs1) /\
        dirs fs1 = dirs fs ∪ list_to_set (prefixes (tools_dir w name)) /\
        forall metodo metodo_ast,
          In metodo custom_methods ->
          first_statement w metodo = Returned metodo_ast ->
          is_empty_method metodo_ast = true ->
          occurs_in (node_name metodo_ast) mensagem).
Proof.
  intros (m0 & n0 & Hin0 & Hp0 & He0) result. subst result. unfold synthesize.
  destruct (mkdir_parents fs (tools_dir w name)) as [fs1|e] eqn:Hmk.
  2:{ cbn. split; [reflexivity|]. split; [discriminate|]. discriminate. }
  assert (Hfiles : files fs1 = files fs /\
                   dirs fs1 = dirs fs ∪ list_to_set (prefixes (tools_dir w name))).
  { unfold mkdir_parents in Hmk.
    destruct (is_file fs _); [discriminate|].
    destruct (existsb _ _); [discriminate|].
    injection Hmk as <-. now split. }
  destruct Hfiles as [Hfiles Hdirs].
  destruct (verificar_metodos_vazios w custom_methods) as [names|e] eqn:Hv.
  2:{ cbn. split; [exact Hfiles|]. split; [discriminate|].
      intros fs1' _ Hexc. destruct (verificar_returns w custom_methods Hexc) as [? Hr].
      congruence. }
  pose proof (verificar_lists_empty _ _ _ Hv) as Hall.
  destruct names as [|nome names].
  { exfalso. exact (Hall m0 n0 Hin0 Hp0 He0). }
  cbn [fst snd]. split; [exact Hfiles|]. split; [discriminate|].
  intros fs1' Hfs1 _. injection Hfs1 as <-.
  exists (mensagem_erro (nome :: names)). split; [reflexivity|]. split; [exact Hdirs|].
  intros metodo n Hin Hp He. unfold mensagem_erro.
  apply PyFacts.occurs_in_app_r, PyFacts.occurs_in_app_l.
  apply (PyFacts.occurs_in_join _ ", " (nome :: names)).
  eapply Hall; eauto.
Qed.

(** The theorem at a method that only contains [pass], on the empty file
    system. *)
Lemma empty_methods_rejected_witness :
  files (snd (synthesize mundo_pendente disco_vazio "Eco" "Devolve o texto recebido."
                         [ParamDict parametro_texto] "return texto" [] [metodo_pendente]))
  = files disco_vazio /\
  exists mensagem,
    synthesize mundo_pendente disco_vazio "Eco" "Devolve o texto recebido."
               [ParamDict parametro_texto] "return texto" [] [metodo_pendente]
    = (Returned (Rejected mensagem), disco_eco) /\
    occurs_in "pendente" mensagem.
Proof.
  destruct (empty_methods_rejected mundo_pendente disco_vazio "Eco"
              "Devolve o texto recebido." [ParamDict parametro_texto] "return texto" []
              [metodo_pendente]) as (Hfiles & _ & Hmsg).
  - exists metodo_pendente. eexists. split; [now left|]. split; reflexivity.
  - split; [exact Hfiles|].
    destruct (Hmsg disco_eco) as (mensagem & Hres & _ & Hnames).
    + vm_compute. reflexivity.
    + intros metodo e [<-|[]] H. vm_compute in H. discriminate H.
    + exists mensagem. split; [exact Hres|].
      apply (Hnames metodo_pendente
               (FunctionDef "pendente" (arguments [arg "self" []] []) [Pass] []));
        [now left|reflexivity|reflexivity].
Defined.

(** C2 as stated fails on the empty file system: the call that rejects the
    empty method has already created the directory of the tool. *)
Lemma directory_created_before_rejection :
  exists mensagem,
    synthesize mundo_pendente disco_vazio "Eco" "Devolve o texto recebido."
               [ParamDict parametro_texto] "return texto" [] [metodo_pendente]
    = (Returned (Rejected mensagem), disco_eco) /\
    is_dir disco_vazio ["crews"; "pdca"; "tools"; "eco_tool"] = false /\
    is_dir disco_eco ["crews"; "pdca"; "tools"; "eco_tool"] = true.
Proof.
  eexists. split; [vm_compute; reflexivity|]. split; vm_compute; reflexivity.
Qed.

(** *** Fragments that do not parse (C9) *)







End CreatorFacts.

(** ** The executor *)

Module ExecutorFacts.
Import Py Runtime Executor Examples.

(** A path that exists as it is given is the one used. *)
Lemma caminho_valido_given w caminho_ferramenta :
  os_path_exists w caminho_ferramenta = true ->
  caminho_ferramenta <> "" ->
  caminho_valido w caminho_ferramenta = Some caminho_ferramenta.
Proof.
  intros He Hne. unfold caminho_valido, caminhos_possiveis. cbn [List.find].
  rewrite He. destruct caminho_ferramenta; [contradiction|reflexivity].
Qed.

(** What the text of the [except] clause holds. *)
Lemma erro_execucao_holds w caminho_ferramenta nome_classe parametros e :
  let text := erro_execucao w caminho_ferramenta nome_classe parametros e in
  occurs_in nome_classe text /\
  occurs_in caminho_ferramenta text /\
  occurs_in (repr_kwargs w parametros) text /\
  occurs_in (exn_str e) text.
Proof.
  cbv zeta. unfold erro_execucao. repeat split.
  - PyFacts.find_piece.
  - PyFacts.find_piece.
  - PyFacts.find_piece.
  - PyFacts.find_piece.
Qed.

(** C3, as the code has it.  [_run] lets no exception derived from
    [Exception] through: one raised while the module is loaded, the class is
    instantiated or the tool is called becomes a text that holds the class
    name, the path as given, the arguments and the text of the error.  The
    guards return shorter texts: for a file not found, the candidate paths
    (the given one among them); for a missing class, the class name and the
    path at which the file was found (the given one, when it exists as it
    is); for a missing [run], the class name.  An exception outside
    [Exception] leaves [_run]. *)
Theorem failures_become_text w sys_path caminho_ferramenta nome_classe parametros :
  (forall e, _run w sys_path caminho_ferramenta nome_classe parametros = Raised e ->
             is_Exception e = false) /\
  (forall e, tentar w sys_path caminho_ferramenta nome_classe parametros = Raised e ->
             is_Exception e = true ->
             exists text,
               _run w sys_path caminho_ferramenta nome_classe parametros = Returned text /\
               occurs_in nome_classe text /\
               occurs_in caminho_ferramenta text /\
               occurs_in (repr_kwargs w parametros) text /\
               occurs_in (exn_str e) text) /\
  (caminho_valido w caminho_ferramenta = None ->
   _run w sys_path caminho_ferramenta nome_classe parametros
   = Returned (nao_encontrado w caminho_ferramenta) /\
   occurs_in caminho_ferramenta (nao_encontrado w caminho_ferramenta)) /\
  (forall caminho modulo,
      caminho_valido w caminho_ferramenta = Some caminho ->
      import_spec w "modulo_dinamico" caminho = Returned true ->
      fst (exec_module w "modulo_dinamico" caminho sys_path) = Returned modulo ->
      assoc nome_classe modulo = None ->
      _run w sys_path caminho_ferramenta nome_classe parametros
      = Returned (classe_nao_encontrada nome_classe caminho) /\
      occurs_in nome_classe (classe_nao_encontrada nome_classe caminho) /\
      occurs_in caminho (classe_nao_encontrada nome_classe caminho) /\
      (os_path_exists w caminho_ferramenta = true -> caminho = caminho_ferramenta)) /\
  (forall caminho modulo classe_ferramenta ferramenta,
      caminho_valido w caminho_ferramenta = Some caminho ->
      import_spec w "modulo_dinamico" caminho = Returned true ->
      fst (exec_module w "modulo_dinamico" caminho sys_path) = Returned modulo ->
      assoc nome_classe modulo = Some classe_ferramenta ->
      mb_call classe_ferramenta = Returned ferramenta ->
      inst_run_callable ferramenta = false ->
      _run w sys_path caminho_ferramenta nome_classe parametros
      = Returned (sem_metodo_run nome_classe) /\
      occurs_in nome_classe (sem_metodo_run nome_classe)).
Proof.
  split; [|split; [|split; [|split]]].
  - intros e. unfold _run.
    destruct (tentar w sys_path caminho_ferramenta nome_classe parametros) as [t|e0];
      [discriminate|].
    destruct (is_Exception e0) eqn:E; [discriminate|]. now intros [= <-].
  - intros e He Hexc. unfold _run. rewrite He, Hexc. eexists. split; [reflexivity|].
    apply erro_execucao_holds.
  - intros Hnone. unfold _run, tentar. rewrite Hnone. split; [reflexivity|].
    unfold nao_encontrado, caminhos_possiveis.
    apply PyFacts.occurs_in_app_r, PyFacts.occurs_in_app_r, PyFacts.occurs_in_join.
    now left.
  - intros caminho modulo Hcv Hspec Hexec Hassoc. unfold _run, tentar.
    rewrite Hcv, Hspec. cbn [mbind outcome_bind negb]. rewrite Hexec.
    cbn [mbind outcome_bind]. rewrite Hassoc.
    split; [reflexivity|]. unfold classe_nao_encontrada. split; [|split].
    + PyFacts.find_piece.
    + PyFacts.find_piece.
    + intros Hex. destruct caminho_ferramenta as [|c rest].
      * unfold caminho_valido, caminhos_possiveis in Hcv. cbn [List.find] in Hcv.
        rewrite Hex in Hcv. discriminate.
      * rewrite caminho_valido_given in Hcv by (assumption || discriminate).
        now injection Hcv.
  - intros caminho modulo classe ferramenta Hcv Hspec Hexec Hassoc Hcall Hrun.
    unfold _run, tentar.
    rewrite Hcv, Hspec. cbn [mbind outcome_bind negb]. rewrite Hexec.
    cbn [mbind outcome_bind]. rewrite Hassoc, Hcall. cbn [mbind outcome_bind].
    rewrite Hrun. split; [reflexivity|]. unfold sem_metodo_run.
    PyFacts.find_piece.
Qed.

(** The theorem at the file of [Eco], asked for a class it does not have. *)
Lemma failures_become_text_witness :
  _run mundo_eco ["/usr/lib/python3"] "crews/pdca/tools/eco_tool/eco_tool.py"
       "OutraTool" []
  = Returned (classe_nao_encontrada "OutraTool" "crews/pdca/tools/eco_tool/eco_tool.py") /\
  occurs_in "OutraTool"
    (classe_nao_encontrada "OutraTool" "crews/pdca/tools/eco_tool/eco_tool.py") /\
  occurs_in "crews/pdca/tools/eco_tool/eco_tool.py"
    (classe_nao_encontrada "OutraTool" "crews/pdca/tools/eco_tool/eco_tool.py").
Proof.
  destruct (failures_become_text mundo_eco ["/usr/lib/python3"]
              "crews/pdca/tools/eco_tool/eco_tool.py" "OutraTool" [])
    as (_ & _ & _ & Hclasse & _).
  destruct (Hclasse "crews/pdca/tools/eco_tool/eco_tool.py" modulo_eco)
    as (Hres & Hnome & Hcaminho & _); try reflexivity.
  repeat split; assumption.
Defined.

(** C3 as stated fails twice.  For a file that is not found, the text
    returned lists the paths tried and holds neither the class name nor the
    arguments.  And a module whose top-level code ends the interpreter
    raises [SystemExit], which is no [Exception]: it leaves [_run]. *)
Lemma failure_text_without_class :
  _run mundo_eco ["/usr/lib/python3"] "ferramentas/inexistente_tool.py" "InexistenteTool" []
  = Returned ("ERRO: O arquivo não foi encontrado em nenhum dos caminhos tentados:" +:+ nl +:+
              "ferramentas/inexistente_tool.py" +:+ nl +:+
              "/projeto/ferramentas/inexistente_tool.py") /\
  py_in "InexistenteTool" (nao_encontrado mundo_eco "ferramentas/inexistente_tool.py") = false /\
  py_in (repr_kwargs mundo_eco []) (nao_encontrado mundo_eco "ferramentas/inexistente_tool.py")
  = false /\
  _run mundo_saida ["/usr/lib/python3"] "ferramentas/saida_tool.py" "SaidaTool" []
  = Raised (BaseExceptionOnly "1").
Proof. repeat split. Qed.

End ExecutorFacts.

(** ** Synthesis followed by verification (C1) *)

Module PipelineFacts.
Import Py Runtime Ast Verifier Creator Pipeline Examples.

(** *** The walk reaches the top-level statements first *)

Lemma size_pos n : (1 <= size n)%nat.
Proof. destruct n. simpl. lia. Qed.

Lemma length_le_sizes l : (length l <= list_sum (List.map size l))%nat.
Proof.
  induction l as [|n l IH]; [reflexivity|].
  unfold list_sum in *. cbn [length List.map fold_right]. pose proof (size_pos n). lia.
Qed.

Lemma walk_queue_prefix q1 :
  forall q2 fuel, (length q1 <= fuel)%nat ->
                  exists rest, walk_queue fuel (q1 ++ q2) = q1 ++ rest.
Proof.
  induction q1 as [|n q1 IH]; intros q2 fuel Hfuel.
  - now exists (walk_queue fuel q2).
  - destruct fuel as [|fuel]; [simpl in Hfuel; lia|].
    cbn [app walk_queue]. rewrite <- app_assoc.
    destruct (IH (q2 ++ iter_child_nodes n) fuel) as [rest ->]; [simpl in Hfuel; lia|].
    now exists rest.
Qed.

Lemma walk_module body :
  exists rest, walk (Module_ body) = Module_ body :: body ++ rest.
Proof.
  unfold walk.
  assert (Hsize : size (Module_ body) = S (list_sum (List.map size body) + 0)).
  { unfold Module_. simpl. lia. }
  rewrite Hsize. cbn [walk_queue app].
  change (iter_child_nodes (Module_ body)) with (body ++ []).
  rewrite app_nil_r.
  destruct (walk_queue_prefix body [] (list_sum (List.map size body) + 0)) as [rest Hrest].
  - pose proof (length_le_sizes body). lia.
  - rewrite app_nil_r in Hrest. rewrite Hrest. now exists rest.
Qed.

Lemma cons_eq {A} (x y : A) (l l' : list A) : x :: l = y :: l' -> x = y /\ l = l'.
Proof. intros H. now injection H. Qed.

Lemma find_app_Some {A} (P : A -> bool) l1 l2 x :
  List.find P l1 = Some x -> List.find P (l1 ++ l2) = Some x.
Proof.
  induction l1 as [|y l1 IH]; [discriminate|]. cbn [List.find app].
  destruct (P y); auto.
Qed.

Lemma find_app_None {A} (P : A -> bool) l1 l2 :
  List.find P l1 = None -> List.find P (l1 ++ l2) = List.find P l2.
Proof.
  induction l1 as [|y l1 IH]; [reflexivity|]. cbn [List.find app].
  destruct (P y); [discriminate|auto].
Qed.

(** The class the verifier stops at is the first tool class among the
    top-level statements, when there is one. *)
Lemma find_tool_class_top body n :
  List.find is_tool_class body = Some n ->
  List.find is_tool_class (walk (Module_ body)) = Some n.
Proof.
  intros H. destruct (walk_module body) as [rest ->].
  cbn [List.find]. change (is_tool_class (Module_ body)) with false. cbn iota.
  now apply find_app_Some.
Qed.

(** *** The static stage reads a statement through its outline *)

Lemma is_tool_class_outline n n' :
  outline n = outline n' -> is_tool_class n = is_tool_class n'.
Proof.
  unfold outline, header, is_tool_class, isinstance. intros H.
  injection H as Hc Hn _ _. now rewrite Hc, Hn.
Qed.

Lemma base_names_outline (l l' : list node) :
  List.map (fun b => (node_cls b, node_id b)) l
  = List.map (fun b => (node_cls b, node_id b)) l' ->
  List.map node_id (List.filter (fun b => isinstance b "Name") l)
  = List.map node_id (List.filter (fun b => isinstance b "Name") l').
Proof.
  revert l'. induction l as [|b l IH]; intros [|b' l'] H; try discriminate; [reflexivity|].
  cbn [List.map] in H. injection H as Hc Hi Hrest.
  assert (Hinst : isinstance b "Name" = isinstance b' "Name")
    by (unfold isinstance; now rewrite Hc).
  cbn [List.filter]. rewrite Hinst.
  destruct (isinstance b' "Name"); cbn [List.map]; rewrite ?Hi, (IH l' Hrest); reflexivity.
Qed.

Lemma find_run_outline (l l' : list node) :
  List.map header l = List.map header l' ->
  is_Some (List.find (fun item => isinstance item "FunctionDef" &&
                                  String.eqb (node_name item) "_run") l)
  <-> is_Some (List.find (fun item => isinstance item "FunctionDef" &&
                                      String.eqb (node_name item) "_run") l').
Proof.
  revert l'. induction l as [|b l IH]; intros [|b' l'] H; try discriminate; [reflexivity|].
  cbn [List.map] in H. unfold header at 1 3 in H. injection H as Hc Hn Hrest.
  assert (Hinst : isinstance b "FunctionDef" = isinstance b' "FunctionDef")
    by (unfold isinstance; now rewrite Hc).
  cbn [List.find]. rewrite Hinst, Hn.
  destruct (isinstance b' "FunctionDef" && String.eqb (node_name b') "_run").
  - split; eauto.
  - now apply IH.
Qed.

Lemma check_class_outline n n' res :
  outline n = outline n' -> check_class n res = check_class n' res.
Proof.
  unfold outline, header. intros H. injection H as Hc Hn Hb Hbody.
  unfold check_class. rewrite Hn, (base_names_outline _ _ Hb).
  pose proof (find_run_outline _ _ Hbody) as Hrun.
  destruct (List.find _ (node_field "body" n)), (List.find _ (node_field "body" n'));
    try reflexivity.
  - destruct Hrun as [Hrun _]. destruct Hrun; [eauto|discriminate].
  - destruct Hrun as [_ Hrun]. destruct Hrun; [eauto|discriminate].
Qed.

(** Two lists of statements with the same outlines have their first tool
    class at the same place. *)
Lemma find_tool_class_outline (l l' : list node) n :
  List.map outline l' = List.map outline l ->
  List.find is_tool_class l = Some n ->
  exists n', List.find is_tool_class l' = Some n' /\ outline n' = outline n.
Proof.
  revert l'. induction l as [|b l IH]; intros [|b' l'] H Hf; try discriminate.
  cbn [List.map] in H. apply cons_eq in H as [Hb Hrest].
  cbn [List.find] in *. rewrite (is_tool_class_outline _ _ Hb).
  destruct (is_tool_class b).
  - injection Hf as <-. eauto.
  - now apply IH.
Qed.

(** *** The tree the builder makes *)

Lemma mapM_Returned {A B} (f : A -> outcome B) l k :
  mapM f l = Returned k -> Forall2 (fun x y => f x = Returned y) l k.
Proof.
  revert k. induction l as [|x l IH]; intros k H.
  - injection H as <-. constructor.
  - cbn [mapM] in H. destruct (f x) as [y|] eqn:Hx; [|discriminate].
    cbn [mbind outcome_bind] in H.
    destruct (mapM f l) as [k'|] eqn:Hl; [|discriminate].
    cbn [mbind outcome_bind] in H. injection H as <-.
    constructor; auto.
Qed.

Lemma unique_imports_subset seen l x : In x (unique_imports seen l) -> In x l.
Proof.
  revert seen. induction l as [|imp l IH]; intros seen H; [contradiction|].
  cbn [unique_imports] in H. destruct (str_in_list imp seen).
  - right. eapply IH, H.
  - destruct H as [->|H]; [now left|]. right. eapply IH, H.
Qed.

(** The statements of a synthesized tree: the imports, the table of
    descriptions, the parameter model if any, the tool class and the main
    block. *)
Lemma synthesized_tree_body w name description parameters implementation
      imports custom_methods tree :
  synthesized_tree w name description parameters implementation imports custom_methods
  = Returned tree ->
  let tool_def := tool_definition name description parameters implementation
                                  imports custom_methods in
  exists nodes methods body,
    Forall2 (fun imp n => first_statement w imp = Returned n)
            (unique_imports [] (standard_imports ++ imports)) nodes /\
    tree = Module_
             (nodes ++ _create_descriptions_dict tool_def
              ++ (if negb (is_empty parameters) then create_parameter_model tool_def else [])
              ++ [ClassDef (tool_name_clean tool_def +:+ "Tool") [Name "BaseTool" Load]
                    (class_head tool_def ++ methods
                     ++ [FunctionDef "_run" (arguments (run_args tool_def) (run_defaults tool_def))
                                     body []]);
                  _create_main_block tool_def (tool_name_clean tool_def +:+ "Tool")]).
Proof.
  intros H tool_def. unfold synthesized_tree, build_tree in H. fold tool_def in H.
  unfold add_imports in H.
  destruct (mapM (first_statement w) _) as [nodes|] eqn:Hnodes; [|discriminate].
  cbn [mbind outcome_bind] in H.
  unfold create_tool_class in H.
  destruct (mapM (first_statement w) (def_custom_methods tool_def)) as [methods|];
    [|discriminate].
  cbn [mbind outcome_bind] in H.
  unfold _create_run_method in H.
  destruct (py_parse w (strip (def_implementation tool_def))) as [body|e].
  - cbn [mbind outcome_bind] in H. injection H as <-.
    exists nodes, methods, body. split; [now apply mapM_Returned|].
    now rewrite <- !app_assoc.
  - exfalso. destruct e; try discriminate.
    destruct (erro_detalhado tool_def e _); discriminate.
Qed.

Lemma string_eqb_longer (s : string) a b :
  (String.length s < String.length b)%nat -> String.eqb s (a +:+ b) = false.
Proof.
  intros H. apply String.eqb_neq. intros Heq. symmetry in Heq.
  revert Heq. now apply CreatorFacts.app_not_short.
Qed.

(** The parameter model is no tool class. *)
Lemma endswith_Tool_Parameters x : endswith "Tool" (x +:+ "Parameters") = false.
Proof.
  induction x as [|c x IH]; [reflexivity|].
  rewrite PyFacts.app_cons. cbn [endswith]. rewrite IH, orb_false_r.
  change (String c (x +:+ "Parameters")) with (String c x +:+ "Parameters").
  apply string_eqb_longer. simpl. lia.
Qed.

Lemma is_tool_class_ClassDef name bases body :
  is_tool_class (ClassDef name bases body) = endswith "Tool" name.
Proof. reflexivity. Qed.

Lemma imports_no_tool_class w (l : list string) nodes :
  Forall2 (fun imp n => first_statement w imp = Returned n) l nodes ->
  (forall imp n, In imp l -> first_statement w imp = Returned n -> is_tool_class n = false) ->
  List.find is_tool_class nodes = None.
Proof.
  induction 1 as [|imp n l nodes Hn _ IH]; intros Hall; [reflexivity|].
  cbn [List.find]. rewrite (Hall imp n) by (auto; now left).
  apply IH. intros imp' n' Hin. apply Hall. now right.
Qed.

Lemma find_last_Some {A} (P : A -> bool) l x :
  P x = true -> is_Some (List.find P (l ++ [x])).
Proof.
  intros H. induction l as [|y l IH]; cbn [app List.find].
  - rewrite H. eauto.
  - destruct (P y); eauto.
Qed.

(** In a synthesized tree whose imports bring no tool class, the first tool
    class is the synthesized one, and the checks of the static stage pass
    on every class with its outline. *)
Lemma synthesized_tool_class w name description parameters implementation
      imports custom_methods tree :
  synthesized_tree w name description parameters implementation imports custom_methods
  = Returned tree ->
  (forall imp n, In imp (standard_imports ++ imports) ->
                 first_statement w imp = Returned n -> is_tool_class n = false) ->
  exists cls,
    List.find is_tool_class (node_field "body" tree) = Some cls /\
    node_name cls = replace_char " " "" name +:+ "Tool" /\
    forall res,
      check_class cls res =
      add_info "Método '_run' encontrado na AST."
        (add_info "Herança de BaseTool verificada na AST."
           (add_info ("Classe AST encontrada: " +:+ node_name cls)
              (set_tool_class_name (Some (node_name cls)) res))).
Proof.
  intros Htree Himports.
  destruct (synthesized_tree_body _ _ _ _ _ _ _ _ Htree) as (nodes & methods & body & Hn & ->).
  set (tool_def := tool_definition name description parameters implementation
                                   imports custom_methods).
  eexists. split; [|split].
  - change (node_field "body" (Module_ ?b)) with b.
    rewrite find_app_None.
    2:{ apply (imports_no_tool_class w _ _ Hn). intros imp n Hin.
        apply Himports. eapply unique_imports_subset, Hin. }
    rewrite find_app_None by reflexivity.
    rewrite find_app_None.
    2:{ destruct (negb (is_empty parameters)); [|reflexivity].
        unfold create_parameter_model. destruct (def_parameters tool_def); [reflexivity|].
        cbn [List.find]. now rewrite is_tool_class_ClassDef, endswith_Tool_Parameters. }
    cbn [List.find]. rewrite is_tool_class_ClassDef, PyFacts.endswith_app. reflexivity.
  - reflexivity.
  - intros res. unfold check_class.
    match goal with
    | |- context [List.find ?P (node_field "body" (ClassDef _ _ (?h ++ ?m ++ [?r])))] =>
        change (node_field "body" (ClassDef _ _ (h ++ m ++ [r]))) with (h ++ m ++ [r]);
        destruct (find_last_Some P (h ++ m) r eq_refl) as [found Hfound];
        rewrite <- app_assoc in Hfound; rewrite Hfound
    end.
    reflexivity.
Qed.

(** *** The path of the artifact, read again by the verifier *)

Lemma tool_file_path_reparsed w name :
  has_char "/" (lower (str_lower w) name) = false ->
  Path (path_str (tool_file_path w name)) = tool_file_path w name.
Proof.
  intros H. rewrite CreatorFacts.tool_file_path_parts by assumption.
  pose proof (CreatorFacts.tool_dir_name_slash w name H) as Hd.
  pose proof (CreatorFacts.tool_file_name_slash w name H) as Hf.
  change (path_str ["crews"; "pdca"; "tools"; tool_dir_name w name; tool_file_name w name])
    with ("crews/pdca/tools/" +:+ tool_dir_name w name +:+ String "/" (tool_file_name w name)).
  unfold Path, anchor_of, components, startswith.
  rewrite !PyFacts.app_cons, PyFacts.app_nil_l. cbn.
  rewrite (PyFacts.split_char_app "/" _ _ Hd), (PyFacts.split_char_absent _ _ Hf). cbn.
  assert (H1 : tool_dir_name w name <> "") by (apply CreatorFacts.app_not_short; simpl; lia).
  assert (H2 : tool_dir_name w name <> ".") by (apply CreatorFacts.app_not_short; simpl; lia).
  assert (H3 : tool_file_name w name <> "") by (apply CreatorFacts.app_not_short; simpl; lia).
  assert (H4 : tool_file_name w name <> ".") by (apply CreatorFacts.app_not_short; simpl; lia).
  apply String.eqb_neq in H1, H2, H3, H4. now rewrite H1, H2, H3, H4.
Qed.

Lemma tool_file_suffix w name :
  has_char "/" (lower (str_lower w) name) = false -> suffix (tool_file_path w name) = ".py".
Proof.
  intros H. rewrite CreatorFacts.tool_file_path_parts by assumption.
  unfold suffix, Py.name. cbn [last].
  rewrite (PyFacts.startswith_absent _ _ (CreatorFacts.tool_file_name_slash w name H)).
  unfold tool_file_name. rewrite PyFacts.suffix_cut_tool_py.
  now rewrite PyFacts.str_drop_app.
Qed.

(** *** The stages on a synthesized artifact *)

(** The static stage on a text that parses and has a tool class at the
    top level. *)
Lemma static_stage w fs res code body cls :
  read_text fs (tool_path res) = Returned code ->
  py_parse w code = Returned body ->
  List.find is_tool_class body = Some cls ->
  _verify_ast w fs res =
  Returned (true,
            check_class cls
              (add_info "Sintaxe do arquivo Python válida"
                 (set_ast_tree (Some (Module_ body))
                    (add_info "Analisando AST para erros de sintaxe e estrutura" res)))).
Proof.
  intros Hread Hparse Hfind. unfold _verify_ast.
  cbn [tool_path add_info set_info]. rewrite Hread, Hparse.
  unfold find_tool_class. now rewrite (find_tool_class_top _ _ Hfind).
Qed.

(** Simplifies the projections of a result through the updates made to it. *)
Ltac fields :=
  cbn [errors warnings info tool_class_name tool_class tool_instance Verifier.tool_path
       add_error add_info add_warning set_errors set_warnings set_info set_tool_class_name
       set_tool_class set_ast_tree set_module set_tool_instance set_error_components] in *.

(** An error that was added is there. *)
Lemma added_error l (x : string) : l ++ [x] <> [].
Proof. intros H. apply app_eq_nil in H as [_ H]. discriminate H. Qed.

Ltac no_error :=
  exfalso; fields;
  match goal with
  | H : _ ++ [_] = [] |- _ => exact (added_error _ _ H)
  end.

(** The loop over the members stops at [tool_member]. *)
Lemma inspect_members_tool_member class_name modulo res :
  inspect_members class_name modulo res =
  match tool_member class_name modulo with
  | Some obj =>
      let res := add_info ("Encontrada classe '" +:+ class_name +:+ "' herdando de BaseTool.")
                          res in
      let res := set_tool_class (Some obj) res in
      Some (if negb (mb_run_callable obj)
            then add_error ("Método '_run' não encontrado ou não é chamável na classe '" +:+
                            class_name +:+ "' carregada.") None res
            else add_info "Método '_run' encontrado e chamável via inspeção." res)
  | None => None
  end.
Proof.
  unfold tool_member. induction modulo as [|[name obj] rest IH]; [reflexivity|].
  cbn [inspect_members List.find fst snd].
  destruct (String.eqb name class_name) eqn:E; cbn [andb].
  - apply String.eqb_eq in E as ->.
    destruct (mb_isclass obj); cbn [andb]; [|exact IH].
    destruct (mb_is_BaseTool obj); cbn [negb andb]; [reflexivity|exact IH].
  - exact IH.
Qed.

(** The import stage when the module loads and holds the class. *)
Lemma import_stage w res sys_path class_name modulo classe :
  tool_class_name res = Some class_name ->
  class_name <> "" ->
  import_spec w (stem (tool_path res)) (path_str (tool_path res)) = Returned true ->
  fst (exec_module w (stem (tool_path res)) (path_str (tool_path res))
                   (search_path w (tool_path res) sys_path))
  = Returned modulo ->
  tool_member class_name modulo = Some classe ->
  mb_run_callable classe = true ->
  exists res' sys_path',
    _verify_import_and_inspect w res sys_path = (Returned res', sys_path') /\
    errors res' = errors res /\
    tool_class res' = Some classe /\
    tool_class_name res' = Some class_name /\
    tool_instance res' = tool_instance res.
Proof.
  intros Hname Hne Hspec Hexec Hmember Hr.
  unfold _verify_import_and_inspect. rewrite Hname.
  destruct class_name as [|c0 cn]; [contradiction|].
  fields. rewrite Hspec.
  unfold search_path in Hexec.
  destruct (exec_module w _ _ _) as [loaded sp'].
  cbn [fst] in Hexec. subst loaded.
  rewrite inspect_members_tool_member, Hmember. cbv zeta. rewrite Hr. cbn [negb].
  eexists. eexists. split; [reflexivity|]. fields. repeat split; assumption.
Qed.

(** And when the import stage leaves no error, the module loaded and held
    the class. *)
Lemma import_stage_clean w res sys_path class_name res' sys_path' :
  tool_class_name res = Some class_name ->
  class_name <> "" ->
  _verify_import_and_inspect w res sys_path = (Returned res', sys_path') ->
  errors res' = [] ->
  import_spec w (stem (tool_path res)) (path_str (tool_path res)) = Returned true /\
  exists modulo classe,
    fst (exec_module w (stem (tool_path res)) (path_str (tool_path res))
                     (search_path w (tool_path res) sys_path))
    = Returned modulo /\
    tool_member class_name modulo = Some classe /\
    mb_run_callable classe = true /\
    tool_class res' = Some classe.
Proof.
  intros Hname Hne. unfold _verify_import_and_inspect. rewrite Hname.
  destruct class_name as [|c0 cn]; [contradiction|].
  fields. unfold search_path.
  destruct (import_spec w _ _) as [[|]|e].
  - destruct (exec_module w _ _ _) as [[modulo|e] sp'].
    + rewrite inspect_members_tool_member.
      destruct (tool_member _ modulo) as [classe|] eqn:Hmember; cbv zeta.
      * destruct (mb_run_callable classe) eqn:Hr; cbn [negb]; intros H Herr;
          injection H as <- <-; [|no_error].
        split; [reflexivity|]. exists modulo, classe. repeat split; assumption.
      * intros H Herr. injection H as <- <-. no_error.
    + destruct (is_Exception e); intros H Herr; [|discriminate H].
      injection H as <- <-. no_error.
  - intros H Herr. injection H as <- <-. no_error.
  - unfold on_import_exception.
    destruct e; cbn [is_Exception]; intros H Herr; try discriminate H;
      injection H as <- <-; no_error.
Qed.

(** The instance stage when the class can be constructed and the instance
    has its three attributes. *)
Lemma instance_stage w res classe instancia nome descricao modelo :
  tool_class res = Some classe ->
  mb_call classe = Returned instancia ->
  inst_name instancia = Some (AttrStr nome) ->
  inst_description instancia = Some (AttrStr descricao) ->
  inst_args_schema instancia = Some (AttrClass modelo) ->
  cv_is_BaseModel modelo = true ->
  exists res',
    _verify_instance w res = Returned res' /\
    errors res' = errors res /\
    tool_class_name res' = tool_class_name res /\
    tool_instance res' = Some instancia.
Proof.
  intros Hcls Hcall Hn Hd Hs Hm. unfold _verify_instance.
  rewrite Hcls, Hcall, Hn, Hd, Hs, Hm. cbn [attr_is_str].
  eexists. split; [reflexivity|]. repeat split.
Qed.

(** And when the instance stage leaves no error, the class was constructed
    and the instance has them. *)
Lemma instance_stage_clean w res classe res' :
  tool_class res = Some classe ->
  _verify_instance w res = Returned res' ->
  errors res' = [] ->
  errors res = [] /\
  exists instancia nome descricao modelo,
    mb_call classe = Returned instancia /\
    inst_name instancia = Some (AttrStr nome) /\
    inst_description instancia = Some (AttrStr descricao) /\
    inst_args_schema instancia = Some (AttrClass modelo) /\
    cv_is_BaseModel modelo = true /\
    tool_instance res' = Some instancia.
Proof.
  intros Hcls. unfold _verify_instance. rewrite Hcls.
  destruct (mb_call classe) as [instancia|e].
  - destruct (inst_name instancia) as [[nome| |]|] eqn:Hn; cbn [attr_is_str];
      (destruct (inst_description instancia) as [[descricao| |]|] eqn:Hd; cbn [attr_is_str];
       (destruct (inst_args_schema instancia) as [[|modelo|]|] eqn:Hs;
        [| destruct (cv_is_BaseModel modelo) eqn:Hm | |]));
      intros H Herr; injection H as <-; fields;
      try solve [exfalso;
                 repeat match goal with
                        | H : _ ++ [_] = [] |- _ => exact (added_error _ _ H)
                        end].
    split; [assumption|].
    exists instancia, nome, descricao, modelo. repeat split; assumption.
  - destruct (is_Exception e); intros H Herr; [|discriminate H].
    injection H as <-. no_error.
Qed.

(** The schema stage when the schema can be generated: it may warn, it
    reports no error. *)
Lemma schema_stage w res instancia modelo schema :
  inst_args_schema instancia = Some (AttrClass modelo) ->
  cv_is_BaseModel modelo = true ->
  cv_model_json_schema modelo = Returned schema ->
  exists res',
    _verify_args_schema w instancia res = Returned res' /\
    errors res' = errors res /\
    tool_class_name res' = tool_class_name res.
Proof.
  intros Hs Hm Hj. unfold _verify_args_schema. rewrite Hs, Hm, Hj.
  eexists. split; [reflexivity|].
  destruct (negb (schema_truthy schema) || negb (schema_has_properties schema));
    split; reflexivity.
Qed.

(** And when the schema stage leaves no error, the schema was generated. *)
Lemma schema_stage_clean w res instancia modelo res' :
  inst_args_schema instancia = Some (AttrClass modelo) ->
  cv_is_BaseModel modelo = true ->
  _verify_args_schema w instancia res = Returned res' ->
  errors res' = [] ->
  exists schema, cv_model_json_schema modelo = Returned schema.
Proof.
  intros Hs Hm. unfold _verify_args_schema. rewrite Hs, Hm.
  destruct (cv_model_json_schema modelo) as [schema|e]; [eauto|].
  destruct (is_Exception e); intros H Herr; [|discriminate H].
  injection H as <-. no_error.
Qed.

(** The schema stage removes no error. *)
Lemma schema_stage_grows w res instancia res' :
  _verify_args_schema w instancia res = Returned res' ->
  errors res' = [] ->
  errors res = [].
Proof.
  unfold _verify_args_schema. intros H Herr.
  repeat case_match; simplify_eq; fields; try assumption; no_error.
Qed.

(** A result without errors is reported as a success, and only such a
    result. *)
Lemma conclude_success res :
  errors res = [] ->
  sucesso (_build_result_dict (conclude res)) = true /\
  erros (_build_result_dict (conclude res)) = [] /\
  r_tool_class_name (_build_result_dict (conclude res)) = tool_class_name res.
Proof.
  intros H. unfold conclude. rewrite H. cbn [is_empty andb].
  destruct (is_empty (warnings res)); cbn; now rewrite H.
Qed.

Lemma conclude_clean res :
  sucesso (_build_result_dict (conclude res)) = true -> errors res = [].
Proof.
  unfold conclude, _build_result_dict. cbn [sucesso].
  destruct (errors res) as [|x l] eqn:E; [reflexivity|].
  cbn [is_empty andb]. fields. rewrite E. intros H. discriminate H.
Qed.

(** C1, as the code has it.  For a specification that [synthesize] turns
    into a file (its fragments parse, no auxiliary method is empty), with a
    name whose lower-case form has no slash and imports that are no tool
    classes, when the parser reads the generated text back with the
    outlines of the synthesized tree: [run] on the path of the file returns
    a report with success exactly when the file loads as a tool.  When it
    does, the report has no error and names the class of the tool; when it
    does not, no report with success is returned.  What the three
    conditions are needed for is shown by [round_trip_conditions] below. *)
Theorem synthesized_artifact_verifies w fs sys_path name description parameters
      implementation imports custom_methods p code fs' tree :
  let class_name := replace_char " " "" name +:+ "Tool" in
  has_char "/" (lower (str_lower w) name) = false ->
  synthesize w fs name description parameters implementation imports custom_methods
  = (Returned (Written p code), fs') ->
  synthesized_tree w name description parameters implementation imports custom_methods
  = Returned tree ->
  imports_plain w imports ->
  reads_back w code tree ->
  (loads_as_tool w p class_name sys_path ->
   exists rep,
     fst (run w fs' sys_path (Some (path_str p)) None) = Returned rep /\
     sucesso rep = true /\
     erros rep = [] /\
     r_tool_class_name rep = Some class_name) /\
  (forall rep,
      fst (run w fs' sys_path (Some (path_str p)) None) = Returned rep ->
      sucesso rep = true ->
      loads_as_tool w p class_name sys_path).
Proof.
  intros class_name Hname Hsyn Htree Himports (body & Hparse & Houtline).
  destruct (CreatorFacts.synthesize_written _ _ _ _ _ _ _ _ _ _ _ Hname Hsyn)
    as (-> & Hfile & _).
  destruct (synthesized_tool_class _ _ _ _ _ _ _ _ Htree Himports)
    as (cls & Hfind & Hclsname & Hcheck).
  destruct (find_tool_class_outline _ _ _ Houtline Hfind) as (cls' & Hfind' & Hout).
  assert (Hne : class_name <> "") by (apply CreatorFacts.app_not_short; simpl; lia).
  unfold run, new_result. rewrite (tool_file_path_reparsed w name Hname).
  cbn [Verifier.tool_path add_info set_info].
  assert (Hisfile : is_file fs' (tool_file_path w name) = true).
  { unfold is_file. rewrite Hfile. apply bool_decide_eq_true. eauto. }
  unfold path_exists. rewrite Hisfile, orb_true_r, (tool_file_suffix w name Hname).
  cbn [negb orb String.eqb Ascii.eqb Bool.eqb].
  match goal with
  | |- context [_verify_ast w fs' ?r] =>
      rewrite (static_stage w fs' r code body cls');
      [|unfold read_text; cbn [Verifier.tool_path add_info set_info]; now rewrite Hfile
       |exact Hparse|exact Hfind']
  end.
  rewrite (check_class_outline _ _ _ Hout), Hcheck, Hclsname. fold class_name.
  match goal with
  | |- context [_verify_import_and_inspect w ?r sys_path] => set (res1 := r)
  end.
  assert (Hname1 : tool_class_name res1 = Some class_name) by reflexivity.
  assert (Herr1 : errors res1 = []) by reflexivity.
  assert (Hinst1 : tool_instance res1 = None) by reflexivity.
  assert (Hpath1 : tool_path res1 = tool_file_path w name) by reflexivity.
  clearbody res1.
  split.
  - intros (Hspec & modulo & classe & instancia & nome & descricao & modelo &
            Hexec & Hmember & Hrun & Hcall & Hn & Hd & Hs & Hmodel & Hschema).
    rewrite <- Hpath1 in Hspec, Hexec.
    destruct (import_stage w res1 sys_path class_name modulo classe
                           Hname1 Hne Hspec Hexec Hmember Hrun)
      as (res2 & sys_path2 & -> & Herr2 & Hcls2 & Hname2 & _).
    rewrite Hcls2.
    destruct (instance_stage w res2 classe instancia nome descricao modelo
                             Hcls2 Hcall Hn Hd Hs Hmodel)
      as (res3 & -> & Herr3 & Hname3 & Hinst3).
    rewrite Hinst3.
    destruct (inst_truthy instancia) eqn:Htruthy.
    + destruct (Hschema eq_refl) as [schema Hsch].
      destruct (schema_stage w res3 instancia modelo schema Hs Hmodel Hsch)
        as (res4 & -> & Herr4 & Hname4).
      eexists. split; [reflexivity|].
      destruct (conclude_success res4) as (H1 & H2 & H3); [congruence|].
      repeat split; [exact H1|exact H2|congruence].
    + eexists. split; [reflexivity|].
      match goal with
      | |- context [conclude ?r] =>
          destruct (conclude_success r) as (H1 & H2 & H3); [fields; congruence|]
      end.
      repeat split; [exact H1|exact H2|rewrite H3; fields; congruence].
  - intros rep Hrep Hsuc.
    destruct (_verify_import_and_inspect w res1 sys_path) as [[res2|e] sys_path2] eqn:Himp;
      [|discriminate Hrep].
    assert (Hclean : forall res4,
               Returned (_build_result_dict (conclude res4)) = Returned rep ->
               errors res4 = []).
    { intros res4 H. injection H as <-. now apply conclude_clean. }
    assert (Hloaded : errors res2 = [] ->
                      exists classe, tool_class res2 = Some classe /\
                        import_spec w (stem (tool_file_path w name))
                                    (path_str (tool_file_path w name)) = Returned true /\
                        exists modulo,
                          fst (exec_module w (stem (tool_file_path w name))
                                 (path_str (tool_file_path w name))
                                 (search_path w (tool_file_path w name) sys_path))
                          = Returned modulo /\
                          tool_member class_name modulo = Some classe /\
                          mb_run_callable classe = true).
    { intros Herr2.
      destruct (import_stage_clean w res1 sys_path class_name res2 sys_path2
                                   Hname1 Hne Himp Herr2)
        as (Hspec & modulo & classe & Hexec & Hmember & Hrun & Hcls).
      rewrite Hpath1 in Hspec, Hexec. eauto 10. }
    destruct (tool_class res2) as [classe|] eqn:Hcls2.
    + destruct (_verify_instance w res2) as [res3|e] eqn:Hinst; [|discriminate Hrep].
      assert (Hend : errors res3 = [] /\
                     forall instancia modelo,
                       tool_instance res3 = Some instancia ->
                       inst_args_schema instancia = Some (AttrClass modelo) ->
                       cv_is_BaseModel modelo = true ->
                       inst_truthy instancia = true ->
                       exists schema, cv_model_json_schema modelo = Returned schema).
      { destruct (tool_instance res3) as [instancia|] eqn:Hti.
        - destruct (inst_truthy instancia) eqn:Htruthy.
          + destruct (_verify_args_schema w instancia res3) as [res4|e] eqn:Hsch;
              [|discriminate Hrep].
            cbn [fst] in Hrep. pose proof (Hclean _ Hrep) as Herr4.
            split; [eapply schema_stage_grows; eauto|].
            intros i m Hi Hs Hm _. injection Hi as <-. eapply schema_stage_clean; eauto.
          + cbn [fst] in Hrep. pose proof (Hclean _ Hrep) as Herr4. fields.
            split; [exact Herr4|]. intros i m Hi _ _ Ht. injection Hi as <-. congruence.
        - cbn [fst] in Hrep. pose proof (Hclean _ Hrep) as Herr4. fields.
          split; [exact Herr4|]. intros i m Hi. discriminate Hi. }
      destruct Hend as [Herr3 Hschema].
      destruct (instance_stage_clean w res2 classe res3 Hcls2 Hinst Herr3)
        as (Herr2 & instancia & nome & descricao & modelo & Hcall & Hn & Hd & Hs & Hm & Hti).
      destruct (Hloaded Herr2) as (classe' & Hc & Hspec & modulo & Hexec & Hmember & Hrun).
      injection Hc as <-.
      split; [exact Hspec|].
      exists modulo, classe, instancia, nome, descricao, modelo.
      repeat split; try assumption.
      intros Ht. eapply Hschema; eauto.
    + exfalso.
      assert (Herr2 : errors res2 = []).
      { destruct (tool_instance res2) as [instancia|] eqn:Hti.
        - destruct (inst_truthy instancia).
          + destruct (_verify_args_schema w instancia res2) as [res4|e] eqn:Hsch;
              [|discriminate Hrep].
            cbn [fst] in Hrep. eapply schema_stage_grows; eauto.
          + cbn [fst] in Hrep. pose proof (Hclean _ Hrep) as H. fields. exact H.
        - cbn [fst] in Hrep. pose proof (Hclean _ Hrep) as H. fields. exact H. }
      destruct (Hloaded Herr2) as (classe' & Hc & _). discriminate Hc.
Qed.

(** The theorem at the tool [Eco], synthesized on the empty file system. *)
Lemma synthesized_artifact_verifies_witness :
  exists rep,
    fst (run mundo_eco (disco_eco_escrito fonte_eco) ["/usr/lib/python3"]
             (Some (path_str ["crews"; "pdca"; "tools"; "eco_tool"; "eco_tool.py"])) None)
    = Returned rep /\
    sucesso rep = true /\
    erros rep = [] /\
    r_tool_class_name rep = Some "EcoTool".
Proof.
  apply (proj1 (synthesized_artifact_verifies mundo_eco disco_vazio ["/usr/lib/python3"]
           "Eco" "Devolve o texto recebido." [ParamDict parametro_texto] "return texto" [] []
           ["crews"; "pdca"; "tools"; "eco_tool"; "eco_tool.py"] fonte_eco
           (disco_eco_escrito fonte_eco) arvore_eco
           eq_refl
           ltac:(vm_compute; reflexivity)
           ltac:(vm_compute; reflexivity)
           ltac:(intros imp n [<-|[<-|[<-|[]]]] H; vm_compute in H; injection H as <-;
                 reflexivity)
           ltac:(exists (List.map relida (node_field "body" arvore_eco));
                 split; vm_compute; reflexivity))).
  split; [reflexivity|].
  exists modulo_eco, classe_eco, instancia_eco, "Eco", "Devolve o texto recebido.", modelo_eco.
  repeat split; try reflexivity.
  intros _. eexists. reflexivity.
Defined.

(** C1 as stated fails for a tool that imports a module that is not
    installed: every fragment parses and there is no auxiliary method, the
    file is written, and the verifier reports the failed import as an
    error. *)
Lemma missing_module_fails_verification :
  exists code rep,
    synthesize mundo_import disco_vazio "Eco" "Devolve o texto recebido."
               [ParamDict parametro_texto] "return texto" [import_ausente] []
    = (Returned (Written ["crews"; "pdca"; "tools"; "eco_tool"; "eco_tool.py"] code),
       disco_eco_escrito code) /\
    fst (run mundo_import (disco_eco_escrito code) ["/usr/lib/python3"]
             (Some (path_str ["crews"; "pdca"; "tools"; "eco_tool"; "eco_tool.py"])) None)
    = Returned rep /\
    sucesso rep = false /\
    erros rep =
      ["ERRO: Erro durante a execução do código do módulo (nível superior): " +:+
         "No module named 'modulo_inexistente'" +:+ nl +:+
         "Traceback (most recent call last):" +:+ nl +:+
         "No module named 'modulo_inexistente'";
       "ERRO: Verificação concluída com erros críticos."].
Proof.
  exists fonte_import. eexists.
  split; [vm_compute; reflexivity|]. split; [vm_compute; reflexivity|].
  split; reflexivity.
Qed.

(** The conditions of the theorem at work.  A name that is no identifier
    gives a text the parser rejects: the file is written and its
    verification ends at the syntax error.  And a class named [...Tool]
    among the imports is the class the verifier stops at: it reports the
    missing [_run] and a class that is no tool, although the tool itself
    loads. *)
Lemma round_trip_conditions :
  (exists fs' rep,
      synthesize mundo_hifen disco_vazio "Eco-2" "Devolve o texto recebido."
                 [ParamDict parametro_texto] "return texto" [] []
      = (Returned (Written ["crews"; "pdca"; "tools"; "eco-2_tool"; "eco-2_tool.py"]
                           fonte_hifen), fs') /\
      fst (run mundo_hifen fs' ["/usr/lib/python3"]
               (Some "crews/pdca/tools/eco-2_tool/eco-2_tool.py") None) = Returned rep /\
      sucesso rep = false /\
      erros rep =
        ["ERRO: Erro de sintaxe na linha 14: invalid decimal literal";
         "ERRO: Componente: Schema de Entrada";
         "ERRO: Código: class Eco-2Parameters(BaseM...";
         "ERRO: Sugestão: Verifique a sintaxe Python na linha"]) /\
  (exists rep,
      synthesize mundo_apoio disco_vazio "Eco" "Devolve o texto recebido."
                 [ParamDict parametro_texto] "return texto" [import_apoio] []
      = (Returned (Written ["crews"; "pdca"; "tools"; "eco_tool"; "eco_tool.py"] fonte_apoio),
         disco_eco_escrito fonte_apoio) /\
      loads_as_tool mundo_apoio ["crews"; "pdca"; "tools"; "eco_tool"; "eco_tool.py"]
                    "EcoTool" ["/usr/lib/python3"] /\
      fst (run mundo_apoio (disco_eco_escrito fonte_apoio) ["/usr/lib/python3"]
               (Some "crews/pdca/tools/eco_tool/eco_tool.py") None) = Returned rep /\
      sucesso rep = false /\
      r_tool_class_name rep = Some "ApoioTool" /\
      length (erros rep) = 3%nat).
Proof.
  split.
  - eexists. eexists. split; [vm_compute; reflexivity|].
    split; [vm_compute; reflexivity|]. split; reflexivity.
  - eexists. split; [vm_compute; reflexivity|]. split.
    + split; [reflexivity|].
      exists modulo_apoio, classe_eco, instancia_eco, "Eco", "Devolve o texto recebido.",
             modelo_eco.
      repeat split; try reflexivity. intros _. eexists. reflexivity.
    + split; [vm_compute; reflexivity|]. repeat split.
Qed.

End PipelineFacts.

(** * Further properties *)

(** ** The verifier: guards, stages and the search for the class *)

Module VerifierStages.
Import Py Runtime Ast Verifier Examples Scenarios.

(** X1.  A path that is not an existing [.py] file is turned down before anything
    is read or loaded: the report has one error, which names the path, the
    opening info and nothing else, and [sys.path] is not touched. *)
Theorem not_a_python_file w fs sys_path tool_path :
  is_file fs (Path tool_path) = false \/ suffix (Path tool_path) <> ".py" ->
  exists erro,
    run w fs sys_path (Some tool_path) None =
    (Returned {| sucesso := false;
                 erros := [erro];
                 avisos := [];
                 infos := ["INFO: Iniciando verificação para: " +:+ path_str (Path tool_path)];
                 r_tool_path := Some (path_str (Path tool_path));
                 r_tool_class_name := None |},
     sys_path) /\
    occurs_in (path_str (Path tool_path)) erro.
Proof.
  intros H. unfold run, new_result. cbn [Verifier.tool_path add_info set_info].
  destruct (path_exists fs (Path tool_path)); cbn [negb].
  - assert (Hguard : negb (is_file fs (Path tool_path)) ||
                     negb (String.eqb (suffix (Path tool_path)) ".py") = true).
    { destruct H as [->|H]; [reflexivity|].
      apply String.eqb_neq in H. rewrite H. apply orb_true_r. }
    rewrite Hguard. eexists. split; [reflexivity|]. PyFacts.find_piece.
  - eexists. split; [reflexivity|]. PyFacts.find_piece.
Qed.

(** The theorem at a directory and at a text file. *)
Lemma not_a_python_file_witness :
  (exists erro,
      run mundo_eco disco_eco ["/usr/lib/python3"] (Some "crews/pdca/tools") None =
      (Returned {| sucesso := false;
                   erros := [erro];
                   avisos := [];
                   infos := ["INFO: Iniciando verificação para: " +:+
                               path_str (Path "crews/pdca/tools")];
                   r_tool_path := Some (path_str (Path "crews/pdca/tools"));
                   r_tool_class_name := None |},
       ["/usr/lib/python3"]) /\
      occurs_in (path_str (Path "crews/pdca/tools")) erro).
Proof.
  apply (not_a_python_file mundo_eco disco_eco ["/usr/lib/python3"] "crews/pdca/tools").
  left. vm_compute. reflexivity.
Defined.

(** *** What the stages keep *)

Lemma add_error_keeps message component res :
  tool_path (add_error message component res) = tool_path res /\
  tool_class_name (add_error message component res) = tool_class_name res.
Proof. destruct component as [[|c s]|]; split; reflexivity. Qed.

Lemma add_warning_keeps message component res :
  tool_path (add_warning message component res) = tool_path res /\
  tool_class_name (add_warning message component res) = tool_class_name res.
Proof. destruct component as [[|c s]|]; split; reflexivity. Qed.

Lemma check_class_keeps n res :
  tool_path (check_class n res) = tool_path res /\
  tool_class_name (check_class n res) = Some (node_name n).
Proof.
  unfold check_class. repeat case_match; split; reflexivity.
Qed.

(** The static stage keeps the path; when it lets the pipeline go on, the
    class name it leaves is the name of the first class definition, in the
    order of the walk, whose name ends in [Tool]. *)
Lemma verify_ast_keeps w fs res b res' :
  _verify_ast w fs res = Returned (b, res') ->
  tool_path res' = tool_path res /\
  (b = false -> tool_class_name res' = tool_class_name res) /\
  (b = true ->
   exists source body n,
     read_text fs (tool_path res) = Returned source /\
     py_parse w source = Returned body /\
     List.find is_tool_class (walk (Module_ body)) = Some n /\
     tool_class_name res' = Some (node_name n)).
Proof.
  unfold _verify_ast. intros H.
  destruct (read_text fs (tool_path (add_info _ res))) as [source|e] eqn:Hread.
  2:{ destruct (is_Exception e); simplify_eq.
      split; [reflexivity|]. split; [reflexivity|discriminate]. }
  destruct (py_parse w source) as [body|e] eqn:Hparse.
  - unfold find_tool_class in H.
    destruct (List.find is_tool_class (walk (Module_ body))) as [n|] eqn:Hfind; simplify_eq.
    + split; [exact (proj1 (check_class_keeps n _))|]. split; [discriminate|]. intros _.
      exists source, body, n. repeat split; try assumption.
      exact (proj2 (check_class_keeps n _)).
    + split; [reflexivity|]. split; [reflexivity|discriminate].
  - assert (Hother : forall r,
               (if is_Exception e
                then Returned (false, add_error r None (add_info
                       "Analisando AST para erros de sintaxe e estrutura" res))
                else Raised e) = Returned (b, res') ->
               tool_path res' = tool_path res /\
               (b = false -> tool_class_name res' = tool_class_name res) /\
               (b = true -> exists source body n,
                   read_text fs (tool_path res) = Returned source /\
                   py_parse w source = Returned body /\
                   List.find is_tool_class (walk (Module_ body)) = Some n /\
                   tool_class_name res' = Some (node_name n))).
    { intros r Hr. destruct (is_Exception e); simplify_eq.
      split; [reflexivity|]. split; [reflexivity|discriminate]. }
    destruct e as [se| | | | | |];
      try (solve [cbn in H; discriminate H]); try (eapply Hother; exact H).
    unfold on_syntax_error in H.
    destruct (se_lineno se) as [lineno|]; [|discriminate].
    destruct (_identificar_componente_com_erro w source lineno) as [componente|];
      [|discriminate].
    cbn [mbind outcome_bind] in H.
    repeat (case_match; simplify_eq; cbn [mbind outcome_bind] in * ); simplify_eq;
      (split; [reflexivity|split; [reflexivity|discriminate]]).
Qed.

Lemma inspect_members_keeps class_name members res res' :
  inspect_members class_name members res = Some res' ->
  tool_path res' = tool_path res /\ tool_class_name res' = tool_class_name res.
Proof.
  induction members as [|[name obj] rest IH]; [discriminate|].
  cbn [inspect_members]. intros H.
  repeat (case_match; simplify_eq); auto; split; reflexivity.
Qed.

Lemma verify_import_keeps w res sys_path res' :
  fst (_verify_import_and_inspect w res sys_path) = Returned res' ->
  tool_path res' = tool_path res /\ tool_class_name res' = tool_class_name res.
Proof.
  unfold _verify_import_and_inspect, on_import_exception. intros H.
  repeat (case_match; simplify_eq; cbn [fst] in * ); simplify_eq;
    try (split; [reflexivity|cbn; congruence]).
  all: match goal with
       | Hi : inspect_members _ _ _ = Some _ |- _ =>
           apply inspect_members_keeps in Hi as [Hp Hc];
           split; [rewrite Hp; reflexivity|rewrite Hc; cbn; congruence]
       end.
Qed.

Lemma verify_instance_keeps w res res' :
  _verify_instance w res = Returned res' ->
  tool_path res' = tool_path res /\ tool_class_name res' = tool_class_name res.
Proof.
  unfold _verify_instance. intros H.
  repeat (case_match; simplify_eq); split; reflexivity.
Qed.

Lemma verify_args_schema_keeps w instance res res' :
  _verify_args_schema w instance res = Returned res' ->
  tool_path res' = tool_path res /\ tool_class_name res' = tool_class_name res.
Proof.
  unfold _verify_args_schema. intros H.
  repeat (case_match; simplify_eq); split; reflexivity.
Qed.

Lemma conclude_keeps res :
  tool_path (conclude res) = tool_path res /\
  tool_class_name (conclude res) = tool_class_name res.
Proof. unfold conclude. repeat case_match; split; reflexivity. Qed.

(** *** The walk visits the nodes of the tree, all of them *)

Lemma list_sum_app_nat (l1 l2 : list nat) :
  list_sum (l1 ++ l2) = (list_sum l1 + list_sum l2)%nat.
Proof. apply List.list_sum_app. Qed.

Lemma size_children n : size n = S (list_sum (List.map size (iter_child_nodes n))).
Proof.
  destruct n as [cls attrs fields]. cbn [size iter_child_nodes]. f_equal.
  induction fields as [|f fields IH]; [reflexivity|].
  cbn [List.map List.concat list_sum fold_right].
  rewrite List.map_app, list_sum_app_nat.
  change (fold_right Nat.add 0%nat
            (List.map (fun f0 => list_sum (List.map size (snd f0))) fields))
    with (list_sum (List.map (fun f0 => list_sum (List.map size (snd f0))) fields)).
  now rewrite IH.
Qed.

Lemma size_le_total n (q : list node) : In n q -> (size n <= list_sum (List.map size q))%nat.
Proof.
  unfold list_sum. induction q as [|x q IH]; [contradiction|]. intros [->|H]; cbn.
  - lia.
  - specialize (IH H). lia.
Qed.

Lemma walk_queue_complete fuel :
  forall q, (list_sum (List.map size q) <= fuel)%nat ->
    forall n m, In n q -> subnode m n -> In m (walk_queue fuel q).
Proof.
  induction fuel as [|fuel IH]; intros q Hq n m Hin Hsub.
  - pose proof (size_le_total n q Hin). pose proof (PipelineFacts.size_pos n). lia.
  - destruct q as [|n0 q']; [contradiction|]. cbn [walk_queue].
    assert (Hfuel : (list_sum (List.map size (q' ++ iter_child_nodes n0)) <= fuel)%nat).
    { rewrite List.map_app, list_sum_app_nat.
      cbn [List.map list_sum fold_right] in Hq. rewrite (size_children n0) in Hq.
      change (fold_right Nat.add 0%nat (List.map size q'))
        with (list_sum (List.map size q')) in Hq.
      lia. }
    destruct Hin as [<-|Hin].
    + inversion Hsub as [|? c Hc Hs]; subst.
      * now left.
      * right. apply (IH _ Hfuel c m); [|assumption]. apply in_or_app. now right.
    + right. apply (IH _ Hfuel n m); [|assumption]. apply in_or_app. now left.
Qed.

Lemma walk_queue_sound fuel :
  forall q m, In m (walk_queue fuel q) -> exists n, In n q /\ subnode m n.
Proof.
  induction fuel as [|fuel IH]; intros q m H; [contradiction|].
  destruct q as [|n0 q']; [contradiction|]. cbn [walk_queue] in H.
  destruct H as [<-|H].
  - exists n0. split; [now left|constructor].
  - destruct (IH _ _ H) as (n & Hin & Hsub). apply in_app_or in Hin as [Hin|Hin].
    + exists n. split; [now right|assumption].
    + exists n0. split; [now left|]. econstructor; eassumption.
Qed.

(** [ast.walk] yields exactly the nodes of the tree. *)
Lemma walk_nodes n m : In m (walk n) <-> subnode m n.
Proof.
  unfold walk. split.
  - intros H. destruct (walk_queue_sound _ _ _ H) as (n' & [<-|[]] & Hsub). exact Hsub.
  - intros H. apply (walk_queue_complete (size n) [n]) with (n := n); [|now left|exact H].
    cbn. lia.
Qed.

(** X2.  The search of the static stage is complete: it reports that no class
    was found exactly when no class definition anywhere in the tree, nested
    ones included, has a name that ends in [Tool].  And it is breadth first:
    a class at the top level of the module is preferred to every nested
    one, in whatever statement that one stands. *)
Theorem tool_class_search tree res :
  (fst (find_tool_class tree res) = true <->
   exists n, subnode n tree /\ isinstance n "ClassDef" = true /\
             endswith "Tool" (node_name n) = true) /\
  (forall body n,
      tree = Module_ body ->
      List.find is_tool_class body = Some n ->
      tool_class_name (snd (find_tool_class tree res)) = Some (node_name n)).
Proof.
  split.
  - unfold find_tool_class.
    destruct (List.find is_tool_class (walk tree)) as [n|] eqn:Hfind; cbn [fst].
    + split; [intros _|reflexivity]. apply find_some in Hfind as [Hin Hn].
      exists n. split; [now apply walk_nodes|]. now apply andb_true_iff in Hn.
    + split; [discriminate|]. intros (n & Hsub & Hc & He). exfalso.
      apply walk_nodes in Hsub.
      pose proof (find_none _ _ Hfind n Hsub) as Hn. unfold is_tool_class in Hn.
      now rewrite Hc, He in Hn.
  - intros body n -> Hfind. unfold find_tool_class.
    rewrite (PipelineFacts.find_tool_class_top body n Hfind). cbn [snd].
    exact (proj2 (check_class_keeps n res)).
Qed.

(** X3.  The class name of a report is the name of a class definition of the
    file, and it ends in [Tool]; the path of the report is the path of the
    file that was read. *)
Theorem reported_class_name w fs sys_path tool_path kwargs_tool_path rep c :
  fst (run w fs sys_path tool_path kwargs_tool_path) = Returned rep ->
  r_tool_class_name rep = Some c ->
  endswith "Tool" c = true /\
  exists p source body n,
    r_tool_path rep = Some (path_str (Path p)) /\
    files fs !! Path p = Some source /\
    py_parse w source = Returned body /\
    subnode n (Module_ body) /\
    isinstance n "ClassDef" = true /\
    node_name n = c.
Proof.
  unfold run. intros H Hc.
  destruct (match tool_path with Some p => Some p | None => kwargs_tool_path end) as [p|];
    [|cbn in H; simplify_eq; discriminate].
  unfold new_result in H. cbn [Verifier.tool_path add_info set_info] in H.
  destruct (negb (path_exists fs (Path p))); [cbn in H; simplify_eq; discriminate|].
  destruct (negb (is_file fs (Path p)) || _); [cbn in H; simplify_eq; discriminate|].
  destruct (_verify_ast w fs _) as [[b res1]|e] eqn:Hast; [|discriminate].
  destruct (verify_ast_keeps _ _ _ _ _ Hast) as (Hp1 & Hfalse & Htrue).
  cbn [Verifier.tool_path] in Hp1.
  destruct b.
  2:{ cbn [fst] in H. simplify_eq. cbn in Hc. rewrite (Hfalse eq_refl) in Hc. discriminate. }
  destruct (Htrue eq_refl) as (source & body & n & Hread & Hparse & Hfind & Hname1).
  clear Hfalse Htrue.
  destruct (_verify_import_and_inspect w res1 sys_path) as [[res2|e] sp] eqn:Himp;
    [|discriminate].
  destruct (verify_import_keeps w res1 sys_path res2) as [Hp2 Hn2]; [now rewrite Himp|].
  assert (Hafter : exists res4,
             rep = _build_result_dict (conclude res4) /\
             Verifier.tool_path res4 = Verifier.tool_path res2 /\
             tool_class_name res4 = tool_class_name res2).
  { cbv zeta in H.
    match type of H with
    | fst (match ?x with _ => _ end) = _ => destruct x as [res3|e] eqn:Hinst; [|discriminate]
    end.
    assert (H3 : Verifier.tool_path res3 = Verifier.tool_path res2 /\
                 tool_class_name res3 = tool_class_name res2).
    { destruct (tool_class res2); [now apply verify_instance_keeps in Hinst|].
      now simplify_eq. }
    destruct H3 as [Hp3 Hn3].
    match type of H with
    | fst (match ?x with _ => _ end) = _ => destruct x as [res4|e] eqn:Hschema; [|discriminate]
    end.
    cbn [fst] in H. simplify_eq. exists res4.
    split; [reflexivity|]. rewrite <- Hp3, <- Hn3.
    destruct (tool_instance res3) as [instance|]; [destruct (inst_truthy instance)|];
      simplify_eq; try (now apply verify_args_schema_keeps in Hschema);
      split; reflexivity. }
  destruct Hafter as (res4 & -> & Hp4 & Hn4).
  cbn [r_tool_class_name r_tool_path _build_result_dict] in *.
  rewrite (proj2 (conclude_keeps res4)), Hn4, Hn2, Hname1 in Hc. simplify_eq.
  apply find_some in Hfind as [Hin Hn]. apply andb_true_iff in Hn as [Hcls Hend].
  split; [exact Hend|].
  exists p, source, body, n.
  rewrite (proj1 (conclude_keeps res4)), Hp4, Hp2, Hp1.
  split; [reflexivity|]. split.
  { unfold read_text in Hread. cbn [Verifier.tool_path add_info set_info] in Hread.
    destruct (files fs !! Path p); now simplify_eq. }
  split; [exact Hparse|]. split; [now apply walk_nodes|]. split; [exact Hcls|reflexivity].
Qed.

(** The theorem at the tool [Eco], written and verified. *)
Lemma reported_class_name_witness :
  exists rep,
    fst (run mundo_eco (disco_eco_escrito fonte_eco) ["/usr/lib/python3"]
             (Some "crews/pdca/tools/eco_tool/eco_tool.py") None) = Returned rep /\
    r_tool_class_name rep = Some "EcoTool" /\
    endswith "Tool" "EcoTool" = true /\
    exists p source body n,
      r_tool_path rep = Some (path_str (Path p)) /\
      files (disco_eco_escrito fonte_eco) !! Path p = Some source /\
      py_parse mundo_eco source = Returned body /\
      subnode n (Module_ body) /\
      isinstance n "ClassDef" = true /\
      node_name n = "EcoTool".
Proof.
  eexists. split; [vm_compute; reflexivity|]. split; [reflexivity|].
  eapply (reported_class_name mundo_eco (disco_eco_escrito fonte_eco) ["/usr/lib/python3"]
            (Some "crews/pdca/tools/eco_tool/eco_tool.py") None).
  - vm_compute. reflexivity.
  - reflexivity.
Defined.

(** The search at a module with a nested tool class before the one at the
    top level: the one at the top level is taken. *)
Lemma tool_class_search_witness :
  tool_class_name (snd (find_tool_class (Module_ arvore_aninhada)
                                        (new_result "ferramentas/externa_tool.py")))
  = Some "ExternaTool" /\
  subnode (ClassDef "InternaTool" [Name "BaseTool" Load] [Pass]) (Module_ arvore_aninhada).
Proof.
  split.
  - apply (proj2 (tool_class_search (Module_ arvore_aninhada)
                    (new_result "ferramentas/externa_tool.py"))
             arvore_aninhada
             (ClassDef "ExternaTool" [Name "BaseTool" Load]
                [FunctionDef "_run" (arguments [arg "self" []] [])
                   [Return (Constant (PyStr "ok"))] []]));
      reflexivity.
  - apply walk_nodes. vm_compute. tauto.
Defined.

(** X4.  [sys.path] is a frame of the whole verification: when the directory of
    the file is not on it beforehand and the code of the module leaves it
    alone, [run] hands it back as it was, whether it returns a report or
    raises. *)
Theorem run_restores_sys_path w fs sys_path tool_path :
  (forall m p sp, snd (exec_module w m p sp) = sp) ->
  str_in_list (resolve_parent w (Path tool_path)) sys_path = false ->
  snd (run w fs sys_path (Some tool_path) None) = sys_path.
Proof.
  intros Hexec Habsent. unfold run, new_result.
  cbn [Verifier.tool_path add_info set_info].
  destruct (negb (path_exists fs (Path tool_path))); [reflexivity|].
  destruct (negb (is_file fs (Path tool_path)) || _); [reflexivity|].
  destruct (_verify_ast w fs _) as [[b res1]|e] eqn:Hast; [|reflexivity].
  destruct (verify_ast_keeps _ _ _ _ _ Hast) as (Hp1 & _). cbn [Verifier.tool_path] in Hp1.
  destruct b; [|reflexivity].
  pose proof (VerifierFacts.import_stage_restores_sys_path w res1 sys_path Hexec) as Hsp.
  rewrite Hp1 in Hsp. specialize (Hsp Habsent).
  destruct (_verify_import_and_inspect w res1 sys_path) as [[res2|e] sp]; cbn [snd] in Hsp;
    subst sp; [|reflexivity].
  cbv zeta. repeat case_match; reflexivity.
Qed.

(** The theorem at the tool [Eco]. *)
Lemma run_restores_sys_path_witness :
  snd (run mundo_eco (disco_eco_escrito fonte_eco) ["/usr/lib/python3"]
           (Some "crews/pdca/tools/eco_tool/eco_tool.py") None)
  = ["/usr/lib/python3"].
Proof.
  apply (run_restores_sys_path mundo_eco (disco_eco_escrito fonte_eco) ["/usr/lib/python3"]
           "crews/pdca/tools/eco_tool/eco_tool.py").
  - reflexivity.
  - vm_compute. reflexivity.
Defined.

(** *** The component blamed for a syntax error *)

Lemma linha_indexada (linhas : list string) (linha_erro : Z) :
  - Z.of_nat (length linhas) < linha_erro <= Z.of_nat (length linhas) ->
  exists linha, index linhas (linha_erro - 1) = Some linha.
Proof.
  intros H. unfold index.
  destruct ((0 <=? linha_erro - 1) && (linha_erro - 1 <? Z.of_nat (length linhas))) eqn:E1.
  - apply lookup_lt_is_Some_2. lia.
  - destruct ((- Z.of_nat (length linhas) <=? linha_erro - 1) && (linha_erro - 1 <? 0)) eqn:E2.
    + apply lookup_lt_is_Some_2. lia.
    + lia.
Qed.

Lemma componente_fora_do_arquivo w source_code linha_erro :
  let n := Z.of_nat (length (split_char (ascii_of_nat 10) source_code)) in
  linha_erro <= - n \/ n < linha_erro ->
  _identificar_componente_com_erro w source_code linha_erro
  = Raised (IndexError "list index out of range").
Proof.
  intros n H. unfold _identificar_componente_com_erro, index. fold n.
  destruct ((0 <=? linha_erro - 1) && (linha_erro - 1 <? n)) eqn:E1; [lia|].
  destruct ((- n <=? linha_erro - 1) && (linha_erro - 1 <? 0)) eqn:E2; [lia|].
  reflexivity.
Qed.

(** X5.  [_identificar_componente_com_erro] answers for the lines [1 .. n] of the
    text and, because a negative index counts from the end, also for
    [-n+1 .. 0]; for any other line it raises [IndexError].  When it
    answers, the component is a key of its table, so the lookup that ends
    the function cannot fail.  And the first test wins over all others: as
    soon as [_run] is written on one of the five lines before the line of
    the error, on that line or on one of the four after it, the error is
    blamed on the method [_run]. *)
Theorem componente_com_erro w source_code linha_erro :
  let linhas := split_char (ascii_of_nat 10) source_code in
  let n := Z.of_nat (length linhas) in
  (- n < linha_erro <= n ->
   exists componente,
     _identificar_componente_com_erro w source_code linha_erro = Returned componente /\
     In componente MAPEAMENTO_COMPONENTES) /\
  (linha_erro <= - n \/ n < linha_erro ->
   _identificar_componente_com_erro w source_code linha_erro
   = Raised (IndexError "list index out of range")) /\
  (forall linha,
      - n < linha_erro <= n ->
      In linha (slice linhas (Z.max 0 (linha_erro - 1 - 5)) (Z.min n (linha_erro - 1 + 5))) ->
      occurs_in "_run" linha ->
      _identificar_componente_com_erro w source_code linha_erro
      = Returned ("Método _run", "implementação do método _run")).
Proof.
  intros linhas n.
  pose proof (linha_indexada linhas linha_erro) as Hin. fold n in Hin.
  split; [|split].
  - intros H. destruct (Hin H) as [linha Hl].
    unfold _identificar_componente_com_erro. fold linhas. rewrite Hl.
    eexists. split; [reflexivity|].
    repeat case_match; cbn; tauto.
  - exact (componente_fora_do_arquivo w source_code linha_erro).
  - intros linha H Hjanela Hocc. destruct (Hin H) as [atual Hl].
    unfold _identificar_componente_com_erro. fold linhas. rewrite Hl. fold n.
    assert (Hrun : py_in "_run"
                     (join "" (slice linhas (Z.max 0 (linha_erro - 1 - 5))
                                     (Z.min n (linha_erro - 1 + 5)))) = true).
    { apply PyFacts.py_in_occurs. eapply PyFacts.occurs_in_trans; [exact Hocc|].
      now apply PyFacts.occurs_in_join. }
    rewrite Hrun. reflexivity.
Qed.

(** The theorem at a file of three lines: the second line is blamed on
    [_run] because the third one defines it; line 0 is the last line; line 4
    is outside. *)
Lemma componente_com_erro_witness :
  _identificar_componente_com_erro mundo_sem_dois_pontos fonte_sem_dois_pontos 1
  = Returned ("Herança de Classe", "estrutura da classe") /\
  _identificar_componente_com_erro mundo_sem_dois_pontos fonte_sem_dois_pontos 4
  = Raised (IndexError "list index out of range") /\
  _identificar_componente_com_erro mundo_sem_dois_pontos
    ("class A:" +:+ nl +:+ "    x = (1" +:+ nl +:+ "    def _run(self): pass") 2
  = Returned ("Método _run", "implementação do método _run").
Proof.
  split; [reflexivity|]. split.
  - apply (proj1 (proj2 (componente_com_erro mundo_sem_dois_pontos fonte_sem_dois_pontos 4))).
    right. vm_compute. reflexivity.
  - apply (proj2 (proj2 (componente_com_erro mundo_sem_dois_pontos
             ("class A:" +:+ nl +:+ "    x = (1" +:+ nl +:+ "    def _run(self): pass") 2))
             "    def _run(self): pass").
    + vm_compute. split; [reflexivity|discriminate].
    + vm_compute. tauto.
    + exists "    def ", "(self): pass". reflexivity.
Defined.

(** X6.  A failure of the parser that is no [SyntaxError] (the [ValueError]
    for a text with a null byte, a [MemoryError], a [RecursionError]) ends
    the verification with a report.  Its only error holds the text of the
    exception and the traceback; there is no warning, no info of a later
    stage and no class name, and [sys.path] is as it was. *)
Theorem parser_failure_is_reported w fs sys_path tool_path source_code e :
  files fs !! Path tool_path = Some source_code ->
  suffix (Path tool_path) = ".py" ->
  py_parse w source_code = Raised e ->
  is_Exception e = true ->
  (forall se, e <> SyntaxError se) ->
  run w fs sys_path (Some tool_path) None =
  (Returned
     {| sucesso := false;
        erros := ["ERRO: Erro ao ler ou parsear o arquivo: " +:+ exn_str e +:+ nl +:+
                    format_exc w e];
        avisos := [];
        infos := ["INFO: Iniciando verificação para: " +:+ path_str (Path tool_path);
                  "INFO: Analisando AST para erros de sintaxe e estrutura"];
        r_tool_path := Some (path_str (Path tool_path));
        r_tool_class_name := None |},
   sys_path).
Proof.
  intros Hfile Hsuf Hparse Hexc Hother.
  unfold run, new_result. cbn [Verifier.tool_path add_info set_info].
  assert (Hisfile : is_file fs (Path tool_path) = true).
  { unfold is_file. rewrite Hfile. apply bool_decide_eq_true. eauto. }
  unfold path_exists. rewrite Hisfile, orb_true_r, Hsuf. cbn [negb orb String.eqb].
  unfold _verify_ast. cbn [Verifier.tool_path add_info set_info].
  unfold read_text. rewrite Hfile, Hparse.
  destruct e as [se| | | | | |]; [now destruct (Hother se)| | | | | |];
    rewrite Hexc; reflexivity.
Qed.

(** The theorem at a file with a null byte. *)
Lemma parser_failure_is_reported_witness :
  run mundo_nulo (disco "nulo_tool.py" fonte_com_nulo) ["/usr/lib/python3"]
      (Some "ferramentas/nulo_tool.py") None
  = (Returned
       {| sucesso := false;
          erros := ["ERRO: Erro ao ler ou parsear o arquivo: " +:+
                      "source code string cannot contain null bytes" +:+ nl +:+
                      "Traceback (most recent call last):" +:+ nl +:+
                      "source code string cannot contain null bytes"];
          avisos := [];
          infos := ["INFO: Iniciando verificação para: ferramentas/nulo_tool.py";
                    "INFO: Analisando AST para erros de sintaxe e estrutura"];
          r_tool_path := Some "ferramentas/nulo_tool.py";
          r_tool_class_name := None |},
     ["/usr/lib/python3"]).
Proof.
  apply (parser_failure_is_reported mundo_nulo (disco "nulo_tool.py" fonte_com_nulo)
           ["/usr/lib/python3"] "ferramentas/nulo_tool.py" fonte_com_nulo
           (OtherException "source code string cannot contain null bytes")).
  - vm_compute. reflexivity.
  - vm_compute. reflexivity.
  - vm_compute. reflexivity.
  - reflexivity.
  - discriminate.
Defined.

(** *** A class of the right name that is no tool *)

Lemma inspect_members_none class_name members res :
  (forall obj, In (class_name, obj) members -> mb_isclass obj && mb_is_BaseTool obj = false) ->
  inspect_members class_name members res = None.
Proof.
  induction members as [|[name obj] rest IH]; intros H; [reflexivity|].
  cbn [inspect_members].
  destruct (String.eqb name class_name) eqn:En; cbn [andb].
  - apply String.eqb_eq in En as ->.
    pose proof (H obj (or_introl eq_refl)) as Hobj.
    destruct (mb_isclass obj); cbn [andb] in *.
    + rewrite Hobj. cbn [negb]. apply IH. intros o Ho. apply H. now right.
    + apply IH. intros o Ho. apply H. now right.
  - apply IH. intros o Ho. apply H. now right.
Qed.

(** X7.  When the module loads but what it holds under the name found in the
    syntax tree is not a class derived from [BaseTool], the import stage
    reports the class as not found in the module: one more error, and no
    class is kept for the later stages. *)
Theorem class_that_is_no_tool w res sys_path class_name modulo :
  tool_class_name res = Some class_name ->
  class_name <> "" ->
  import_spec w (stem (tool_path res)) (path_str (tool_path res)) = Returned true ->
  (forall sp, fst (exec_module w (stem (tool_path res)) (path_str (tool_path res)) sp)
              = Returned modulo) ->
  (forall obj, In (class_name, obj) modulo -> mb_isclass obj && mb_is_BaseTool obj = false) ->
  exists res',
    fst (_verify_import_and_inspect w res sys_path) = Returned res' /\
    errors res' =
      errors res ++
      ["ERRO: Classe '" +:+ class_name +:+
       "' (encontrada na AST) não foi encontrada no módulo importado."] /\
    warnings res' = warnings res /\
    tool_class res' = tool_class res.
Proof.
  intros Hname Hne Hspec Hexec Hnone. unfold _verify_import_and_inspect. rewrite Hname.
  destruct class_name as [|c cn]; [contradiction|].
  cbn [tool_path add_info set_info]. rewrite Hspec.
  match goal with
  | |- context [exec_module w ?m ?p ?sp] =>
      pose proof (Hexec sp) as Hm; destruct (exec_module w m p sp) as [loaded sp']
  end.
  cbn [fst] in Hm. subst loaded.
  rewrite (inspect_members_none _ _ _ Hnone). cbn [fst].
  eexists. split; [reflexivity|]. repeat split; reflexivity.
Qed.

(** The theorem at a module whose [ExemploTool] is a plain class. *)
Lemma class_that_is_no_tool_witness :
  exists res',
    fst (_verify_import_and_inspect mundo_classe_simples
           (set_tool_class_name (Some "ExemploTool") (new_result "ferramentas/exemplo_tool.py"))
           ["/usr/lib/python3"]) = Returned res' /\
    errors res' =
      [] ++
      ["ERRO: Classe '" +:+ "ExemploTool" +:+
       "' (encontrada na AST) não foi encontrada no módulo importado."] /\
    warnings res' = [] /\
    tool_class res' = None.
Proof.
  apply (class_that_is_no_tool mundo_classe_simples
           (set_tool_class_name (Some "ExemploTool") (new_result "ferramentas/exemplo_tool.py"))
           ["/usr/lib/python3"] "ExemploTool" [("ExemploTool", classe_simples)]).
  - reflexivity.
  - discriminate.
  - reflexivity.
  - reflexivity.
  - intros obj [H|[]]. injection H as <-. reflexivity.
Defined.

(** *** A bad [args_schema] is reported once *)

(** X8.  When the instance is created but its [args_schema] is missing or is
    not a class derived from [BaseModel], the instance stage records one
    error that names [args_schema], and the schema stage, which meets the
    same fault, adds nothing to it: no second error and no warning. *)
Theorem bad_args_schema_reported_once w res classe instancia :
  tool_class res = Some classe ->
  mb_call classe = Returned instancia ->
  (forall c, inst_args_schema instancia = Some (AttrClass c) -> cv_is_BaseModel c = false) ->
  exists res1 erro,
    _verify_instance w res = Returned res1 /\
    In erro (errors res1) /\
    occurs_in "args_schema" erro /\
    tool_instance res1 = Some instancia /\
    _verify_args_schema w instancia res1 = Returned res1.
Proof.
  intros Hcls Hcall Hbad. unfold _verify_instance. rewrite Hcls, Hcall.
  cbv zeta.
  assert (Hmsg : forall r m,
             In ("ERRO: " +:+ m) (errors (add_error m None r))).
  { intros r m. cbn [add_error errors set_errors]. apply in_or_app. right. now left. }
  assert (Hguard : forall r erro,
             In erro (errors r) -> occurs_in "args_schema" erro ->
             existsb (py_in "args_schema") (errors r) = true).
  { intros r erro Hin Hocc. apply existsb_exists. exists erro. split; [exact Hin|].
    now apply PyFacts.py_in_occurs. }
  destruct (attr_is_str (inst_name instancia)), (attr_is_str (inst_description instancia)).
  all: destruct (inst_args_schema instancia) as [[txt|c|t r]|] eqn:Hs;
    try rewrite (Hbad c eq_refl).
  all: eexists; eexists; split; [reflexivity|]; split; [apply Hmsg|]; split;
    [exists "ERRO: Atributo '"; eexists; reflexivity|];
    split; [reflexivity|]; unfold _verify_args_schema; rewrite Hs;
    try rewrite (Hbad c eq_refl);
    (erewrite Hguard; [reflexivity|apply Hmsg|]);
    exists "ERRO: Atributo '"; eexists; reflexivity.
Qed.

(** The theorem at a tool whose [args_schema] is a dictionary. *)
Lemma bad_args_schema_reported_once_witness :
  exists res1 erro,
    _verify_instance mundo_esquema_errado
      (set_tool_class (Some classe_esquema_errado)
         (set_tool_class_name (Some "EcoTool")
            (new_result "crews/pdca/tools/eco_tool/eco_tool.py")))
    = Returned res1 /\
    In erro (errors res1) /\
    occurs_in "args_schema" erro /\
    tool_instance res1 = Some instancia_esquema_errado /\
    _verify_args_schema mundo_esquema_errado instancia_esquema_errado res1 = Returned res1.
Proof.
  apply (bad_args_schema_reported_once mundo_esquema_errado
           (set_tool_class (Some classe_esquema_errado)
              (set_tool_class_name (Some "EcoTool")
                 (new_result "crews/pdca/tools/eco_tool/eco_tool.py")))
           classe_esquema_errado instancia_esquema_errado).
  - reflexivity.
  - reflexivity.
  - intros c H. discriminate H.
Defined.

(** *** The textual report *)

(** A text joined from lines starts with the first of them. *)
Lemma startswith_join x sep l : startswith x (join sep (x :: l)) = true.
Proof.
  unfold startswith, join. destruct l as [|y l]; cbn [String.concat].
  - rewrite <- (PyFacts.app_nil_r x) at 2. apply PyFacts.prefix_app.
  - apply PyFacts.prefix_app.
Qed.

(** X9.  [_format_report] leaves nothing out: every info, warning and error of
    the result occurs in the text, which opens with the title that names the
    file.  And it agrees with the dictionary of [run]: its status line is
    the line of failure exactly when the dictionary has no success. *)
Theorem format_report_complete res :
  (forall m, In m (info res) \/ In m (warnings res) \/ In m (errors res) ->
             occurs_in m (_format_report res)) /\
  startswith ("## Relatório de Verificação: " +:+ name (tool_path res)) (_format_report res)
  = true /\
  (format_report_lines res !! 1%nat = Some "**Status: FALHA**" <->
   sucesso (_build_result_dict res) = false).
Proof.
  split; [|split].
  - intros m H. apply PyFacts.occurs_in_join. unfold format_report_lines.
    apply in_or_app. right. apply in_or_app. right. apply in_or_app. right.
    destruct H as [H|[H|H]].
    + apply in_or_app. left. destruct (info res); [contradiction|]. now right.
    + apply in_or_app. right. apply in_or_app. left.
      destruct (warnings res); [contradiction|]. now right.
    + apply in_or_app. right. apply in_or_app. right. apply in_or_app. left.
      destruct (errors res); [contradiction|]. now right.
  - unfold _format_report, format_report_lines. cbn [app]. apply startswith_join.
  - unfold format_report_lines. cbn [sucesso _build_result_dict].
    destruct (errors res), (warnings res); cbn; split; congruence.
Qed.

(** *** The static check of the class attributes *)

Lemma mark_target_keys found target :
  List.map fst (mark_target found target) = List.map fst found.
Proof.
  unfold mark_target. case_match; [|reflexivity].
  rewrite List.map_map. apply List.map_ext. intros [k v]. cbn. now case_match.
Qed.

Lemma mark_targets_keys targets : forall found,
  List.map fst (fold_left mark_target targets found) = List.map fst found.
Proof.
  induction targets as [|t targets IH]; intros found; [reflexivity|].
  cbn [fold_left]. now rewrite IH, mark_target_keys.
Qed.

Lemma mark_items_keys items : forall found,
  List.map fst (fold_left mark_item items found) = List.map fst found.
Proof.
  induction items as [|i items IH]; intros found; [reflexivity|].
  cbn [fold_left]. rewrite IH. unfold mark_item.
  repeat case_match; auto using mark_targets_keys.
Qed.

(** What a target, a statement and a class body do to the entry of
    [attr] in the dictionary. *)
Lemma assoc_keys {A} k (l : list (string * A)) v :
  assoc k l = Some v -> str_in_list k (List.map fst l) = true.
Proof.
  induction l as [|[k' v'] l IH]; [discriminate|].
  cbn [assoc List.map fst str_in_list existsb].
  destruct (String.eqb k k'); [reflexivity|]. intros H. exact (IH H).
Qed.

Lemma assoc_mark id attr (found : list (string * bool)) :
  assoc attr (List.map (fun kv => if String.eqb (fst kv) id then (fst kv, true) else kv) found)
  = (fun v => v || String.eqb id attr) <$> assoc attr found.
Proof.
  induction found as [|[k v] found IH]; [reflexivity|].
  cbn [List.map fst snd].
  destruct (String.eqb k id) eqn:Ek; cbn [assoc].
  - destruct (String.eqb attr k) eqn:Ea; [|exact IH].
    cbn. apply String.eqb_eq in Ek, Ea. subst. now rewrite String.eqb_refl, orb_true_r.
  - destruct (String.eqb attr k) eqn:Ea; [|exact IH].
    cbn. apply String.eqb_eq in Ea. subst. rewrite String.eqb_sym, Ek. now rewrite orb_false_r.
Qed.

Lemma mark_target_assoc attr found target :
  assoc attr (mark_target found target)
  = (fun v => v || names_attr attr target) <$> assoc attr found.
Proof.
  unfold mark_target, names_attr.
  destruct (isinstance target "Name"); cbn [andb].
  - destruct (str_in_list (node_id target) (List.map fst found)) eqn:Hin.
    + apply assoc_mark.
    + destruct (assoc attr found) as [v|] eqn:Ha; [|reflexivity].
      cbn. f_equal.
      destruct (String.eqb (node_id target) attr) eqn:E; [|now rewrite orb_false_r].
      apply String.eqb_eq in E. subst attr. apply assoc_keys in Ha. congruence.
  - destruct (assoc attr found); cbn; [now rewrite orb_false_r|reflexivity].
Qed.

Lemma mark_targets_assoc attr targets : forall found,
  assoc attr (fold_left mark_target targets found)
  = (fun v => v || existsb (names_attr attr) targets) <$> assoc attr found.
Proof.
  induction targets as [|t targets IH]; intros found; cbn [fold_left existsb].
  - destruct (assoc attr found); cbn; [now rewrite orb_false_r|reflexivity].
  - rewrite IH, mark_target_assoc. destruct (assoc attr found); cbn; [|reflexivity].
    now rewrite orb_assoc.
Qed.

Lemma mark_item_assoc attr found item :
  assoc attr (mark_item found item)
  = (fun v => v || assigns attr item) <$> assoc attr found.
Proof.
  unfold mark_item, assigns.
  destruct (isinstance item "AnnAssign") eqn:Hann; cbn [andb orb].
  - assert (Hassign : isinstance item "Assign" = false).
    { unfold isinstance in *. apply String.eqb_eq in Hann. now rewrite Hann. }
    rewrite Hassign, mark_targets_assoc. cbn [andb]. now rewrite orb_false_r.
  - destruct (isinstance item "Assign"); cbn [andb].
    + apply mark_targets_assoc.
    + destruct (assoc attr found); cbn; [now rewrite orb_false_r|reflexivity].
Qed.

Lemma mark_items_assoc attr items : forall found,
  assoc attr (fold_left mark_item items found)
  = (fun v => v || existsb (assigns attr) items) <$> assoc attr found.
Proof.
  induction items as [|i items IH]; intros found; cbn [fold_left existsb].
  - destruct (assoc attr found); cbn; [now rewrite orb_false_r|reflexivity].
  - rewrite IH, mark_item_assoc. destruct (assoc attr found); cbn; [|reflexivity].
    now rewrite orb_assoc.
Qed.

(** X10.  [_check_for_class_attributes] adds one message for each of [name],
    [description] and [args_schema], in this order: an info when a
    statement of the class body assigns to that name (with an annotation or
    without), and a warning when none does.  It never adds an error. *)
Theorem class_attributes_checked n res :
  let found (attr : string) := existsb (assigns attr) (node_field "body" n) in
  let entry (attr : string) (r : ToolAnalysisResult) :=
    if found attr
    then add_info ("Atributo de classe '" +:+ attr +:+ "' encontrado na AST.") r
    else add_warning ("Atributo de classe '" +:+ attr +:+
                      "' não detectado estaticamente via AST. Será verificado na instância.")
                     None r in
  _check_for_class_attributes n res
  = entry "args_schema" (entry "description" (entry "name" res)) /\
  errors (_check_for_class_attributes n res) = errors res.
Proof.
  intros found entry.
  assert (Hres : _check_for_class_attributes n res
                 = entry "args_schema" (entry "description" (entry "name" res))).
  { unfold _check_for_class_attributes.
    pose proof (mark_items_keys (node_field "body" n) required_attrs) as Hkeys.
    pose proof (mark_items_assoc "name" (node_field "body" n) required_attrs) as H1.
    pose proof (mark_items_assoc "description" (node_field "body" n) required_attrs) as H2.
    pose proof (mark_items_assoc "args_schema" (node_field "body" n) required_attrs) as H3.
    destruct (fold_left mark_item (node_field "body" n) required_attrs)
      as [|[k1 f1] [|[k2 f2] [|[k3 f3] [|]]]]; try discriminate.
    cbn in Hkeys. simplify_eq. cbn in H1, H2, H3. simplify_eq.
    cbn [fold_left fst snd]. unfold entry, found.
    destruct (existsb (assigns "name") _), (existsb (assigns "description") _),
      (existsb (assigns "args_schema") _); reflexivity. }
  split; [exact Hres|]. rewrite Hres. unfold entry.
  destruct (found "name"), (found "description"), (found "args_schema"); reflexivity.
Qed.

End VerifierStages.

(** ** The creator: the tree it builds *)

Module CreatorTree.
Import Py Runtime Ast Creator Examples Scenarios.

(** *** Imports *)

Lemma str_in_list_In x l : str_in_list x l = true <-> In x l.
Proof.
  unfold str_in_list. rewrite existsb_exists. split.
  - intros (y & Hin & Heq). apply String.eqb_eq in Heq. now subst.
  - intros H. exists x. split; [assumption|apply String.eqb_refl].
Qed.

Lemma unique_imports_fresh seen l x : In x (unique_imports seen l) -> ~ In x seen.
Proof.
  revert seen. induction l as [|imp l IH]; intros seen H; [contradiction|].
  cbn [unique_imports] in H. destruct (str_in_list imp seen) eqn:E.
  - now apply IH.
  - destruct H as [<-|H].
    + intros Hin. apply str_in_list_In in Hin. congruence.
    + intros Hin. apply (IH _ H). now right.
Qed.

Lemma unique_imports_NoDup seen l : NoDup (unique_imports seen l).
Proof.
  revert seen. induction l as [|imp l IH]; intros seen; [constructor|].
  cbn [unique_imports]. destruct (str_in_list imp seen); [apply IH|].
  apply NoDup_cons_2; [|apply IH].
  intros Hin. apply list_elem_of_In, unique_imports_fresh in Hin. apply Hin. now left.
Qed.

Lemma unique_imports_complete seen l x :
  In x l -> ~ In x seen -> In x (unique_imports seen l).
Proof.
  revert seen. induction l as [|imp l IH]; intros seen Hin Hseen; [contradiction|].
  cbn [unique_imports]. destruct (str_in_list imp seen) eqn:E.
  - destruct Hin as [->|Hin]; [|now apply IH].
    apply str_in_list_In in E. contradiction.
  - destruct (String.eqb_spec imp x) as [->|Hne]; [now left|].
    right. destruct Hin as [->|Hin]; [contradiction|].
    apply IH; [assumption|]. intros [->|H]; contradiction.
Qed.

Lemma unique_imports_sublist seen l : sublist (unique_imports seen l) l.
Proof.
  revert seen. induction l as [|imp l IH]; intros seen; [constructor|].
  cbn [unique_imports]. destruct (str_in_list imp seen).
  - apply sublist_cons, IH.
  - apply sublist_skip, IH.
Qed.

(** X11.  [add_imports] parses every import statement once: the standard three
    first and in their order, then the imports of the tool that are new,
    each once and in the order they are given; the four statements of the
    dictionary of descriptions follow. *)
Theorem imports_parsed_once w tool_def nodes :
  add_imports w tool_def = Returned nodes ->
  exists unique parsed,
    unique_imports [] (standard_imports ++ def_imports tool_def) = standard_imports ++ unique /\
    NoDup (standard_imports ++ unique) /\
    sublist unique (def_imports tool_def) /\
    (forall imp, In imp unique <-> In imp (def_imports tool_def) /\ ~ In imp standard_imports) /\
    Forall2 (fun imp n => first_statement w imp = Returned n) (standard_imports ++ unique) parsed /\
    nodes = parsed ++ _create_descriptions_dict tool_def.
Proof.
  intros H. unfold add_imports in H.
  destruct (mapM (first_statement w) _) as [parsed|e] eqn:Hmap; [|discriminate].
  cbn in H. simplify_eq.
  exists (unique_imports (rev standard_imports) (def_imports tool_def)), parsed.
  assert (Heq : unique_imports [] (standard_imports ++ def_imports tool_def)
                = standard_imports ++ unique_imports (rev standard_imports)
                                                     (def_imports tool_def))
    by reflexivity.
  split; [exact Heq|]. split; [|split; [|split; [|split]]].
  - rewrite <- Heq. apply unique_imports_NoDup.
  - apply unique_imports_sublist.
  - intros imp. split.
    + intros Hin. split; [eapply PipelineFacts.unique_imports_subset, Hin|].
      intros Hs. apply (unique_imports_fresh _ _ _ Hin). apply in_rev.
      now rewrite rev_involutive.
    + intros [Hin Hs]. apply unique_imports_complete; [assumption|].
      intros Hr. apply Hs. now apply in_rev.
  - rewrite <- Heq. now apply PipelineFacts.mapM_Returned.
  - reflexivity.
Qed.

(** The theorem at the tool [Eco] with one import given twice and one
    standard import given again. *)
Lemma imports_parsed_once_witness :
  unique_imports [] (standard_imports ++
                     ["import json"; "from pydantic import BaseModel, Field"; "import json"])
  = standard_imports ++ ["import json"].
Proof.
  destruct (imports_parsed_once
              (runtime (parse_from (("import json", Returned [Import [alias "json"]])
                                    :: fragmentos_eco))
                       "" (Returned []) (fun _ => false))
              (tool_definition "Eco" "Devolve o texto recebido." [ParamDict parametro_texto]
                 "return texto"
                 ["import json"; "from pydantic import BaseModel, Field"; "import json"] [])
              (List.map (fun r => match r with
                                  | (_, Returned (n :: _)) => n
                                  | _ => Pass
                                  end)
                        (take 3 fragmentos_eco ++
                         [("import json", Returned [Import [alias "json"]])])
               ++ _create_descriptions_dict
                    (tool_definition "Eco" "Devolve o texto recebido."
                       [ParamDict parametro_texto] "return texto" [] [])))
    as (unique & parsed & Heq & _).
  - vm_compute. reflexivity.
  - reflexivity.
Defined.

(** *** Parameters *)

(** X12.  The two conversions of a parameter undo each other: [_run] turns a
    [ToolParameter] into a dictionary, the builder turns the dictionary back
    into the same [ToolParameter].  So a tool defined with [ToolParameter]
    objects is built from exactly these. *)
Theorem parameter_round_trip (p : ToolParameter) (ps : list ToolParameter)
    name description implementation imports custom_methods :
  to_parameter (to_dict (ParamObject p)) = p /\
  def_parameters (tool_definition name description (List.map ParamObject ps) implementation
                                  imports custom_methods) = ps.
Proof.
  split; [now destruct p|].
  unfold tool_definition. cbn [def_parameters]. rewrite !List.map_map.
  induction ps as [|q ps IH]; [reflexivity|]. cbn [List.map]. rewrite IH. now destruct q.
Qed.

(** X13.  The signature of [_run]: [self], then one argument for every
    parameter, in order and with the annotation of its type.  The defaults
    are one for every optional parameter; Python gives them to the last
    arguments, and when the optional parameters are declared after the
    required ones these are the optional parameters, each with its own
    default. *)
Theorem run_signature tool_def required optional :
  def_parameters tool_def = required ++ optional ->
  Forall (fun p => param_required p = true) required ->
  Forall (fun p => param_required p = false) optional ->
  run_args tool_def
  = arg "self" [] ::
    List.map (fun p => arg (param_name p) [_get_type_annotation (param_type p)])
             (required ++ optional) /\
  run_defaults tool_def = List.map run_default optional /\
  drop (length (run_args tool_def) - length (run_defaults tool_def)) (run_args tool_def)
  = List.map (fun p => arg (param_name p) [_get_type_annotation (param_type p)]) optional.
Proof.
  intros Hp Hreq Hopt.
  assert (Hargs : run_args tool_def
                  = arg "self" [] ::
                    List.map (fun p => arg (param_name p) [_get_type_annotation (param_type p)])
                             (required ++ optional)).
  { unfold run_args. now rewrite Hp. }
  assert (Hdef : run_defaults tool_def = List.map run_default optional).
  { unfold run_defaults. rewrite Hp, List.filter_app. f_equal.
    replace (List.filter _ required) with (@nil ToolParameter).
    - cbn [app]. clear Hp Hargs. induction Hopt as [|p l Hp Hl IH]; [reflexivity|].
      cbn [List.filter]. rewrite Hp. cbn [negb]. now rewrite IH.
    - clear Hp Hargs. induction Hreq as [|p l Hp Hl IH]; [reflexivity|].
      cbn [List.filter]. rewrite Hp. cbn [negb]. exact IH. }
  split; [exact Hargs|]. split; [exact Hdef|].
  rewrite Hargs, Hdef. cbn [length]. rewrite !length_map, List.map_app, length_app.
  replace (S (length required + length optional) - length optional)%nat
    with (S (length required)) by lia.
  cbn [drop]. rewrite drop_app_length'; [reflexivity|]. now rewrite length_map.
Qed.

(** The theorem at a required text and an optional number. *)
Lemma run_signature_witness :
  run_defaults (tool_definition "Eco" "Devolve o texto recebido."
                  [ParamDict parametro_texto; ParamObject parametro_limite]
                  "return texto" [] [])
  = [Constant (PyInt 0)] /\
  drop 2 (run_args (tool_definition "Eco" "Devolve o texto recebido."
                      [ParamDict parametro_texto; ParamObject parametro_limite]
                      "return texto" [] []))
  = [arg "limite" [Name "float" Load]].
Proof.
  destruct (run_signature
              (tool_definition "Eco" "Devolve o texto recebido."
                 [ParamDict parametro_texto; ParamObject parametro_limite]
                 "return texto" [] [])
              [to_parameter parametro_texto] [parametro_limite])
    as (_ & Hdef & Hdrop).
  - reflexivity.
  - repeat constructor.
  - repeat constructor.
  - split; [exact Hdef|exact Hdrop].
Defined.

(** *** Descriptions *)

(** X14.  The dictionary [DESCRIPTIONS] of a generated module has one entry for
    every parameter, in order, and a last entry for the tool; its key is the
    key the generated class passes to [get_description] for its
    description, so the class finds its description in the dictionary. *)
Theorem descriptions_cover_the_class tool_def :
  let key := Constant (PyStr (tool_name_clean tool_def +:+ "Tool.description")) in
  exists keys values,
    _create_descriptions_dict tool_def !! 1%nat
    = Some (Assign [Name "DESCRIPTIONS" Store] (Dict keys values)) /\
    length keys = S (length (def_parameters tool_def)) /\
    length values = S (length (def_parameters tool_def)) /\
    (forall (i : nat) p,
        def_parameters tool_def !! i = Some p ->
        keys !! i = Some (Constant (PyStr (tool_name_clean tool_def +:+ "Parameters." +:+
                                           param_name p))) /\
        values !! i = Some (Constant (PyStr (param_description p)))) /\
    keys !! length (def_parameters tool_def) = Some key /\
    values !! length (def_parameters tool_def)
    = Some (Constant (PyStr (def_description tool_def))) /\
    In (AnnAssign (Name "description" Store) (Name "str" Load)
                  (Call (Name "get_description" Load) [key] []) 1)
       (class_head tool_def).
Proof.
  intros key. eexists _, _. split; [reflexivity|].
  rewrite !length_app, !length_map. cbn [length].
  split; [lia|]. split; [lia|]. split; [|split; [|split]].
  - intros i p Hi. split.
    + rewrite lookup_app_l by (rewrite length_map; eapply lookup_lt_Some, Hi).
      rewrite list_lookup_fmap. unfold fmap, option_fmap, option_map.
      change (list_fmap _ _ ?f ?l) with (List.map f l).
      now rewrite Hi.
    + rewrite lookup_app_l by (rewrite length_map; eapply lookup_lt_Some, Hi).
      rewrite list_lookup_fmap. now rewrite Hi.
  - rewrite lookup_app_r by (rewrite length_map; lia).
    rewrite length_map, Nat.sub_diag. reflexivity.
  - rewrite lookup_app_r by (rewrite length_map; lia).
    rewrite length_map, Nat.sub_diag. reflexivity.
  - unfold class_head. apply in_or_app. left. cbn. tauto.
Qed.

(** The theorem at the tool [Eco]: the entry of its parameter. *)
Lemma descriptions_cover_the_class_witness :
  exists keys values,
    _create_descriptions_dict
      (tool_definition "Eco" "Devolve o texto recebido." [ParamDict parametro_texto]
                       "return texto" [] []) !! 1%nat
    = Some (Assign [Name "DESCRIPTIONS" Store] (Dict keys values)) /\
    keys !! 0%nat = Some (Constant (PyStr ("Eco" +:+ "Parameters." +:+ "texto"))) /\
    values !! 0%nat = Some (Constant (PyStr "Texto a devolver")).
Proof.
  destruct (descriptions_cover_the_class
              (tool_definition "Eco" "Devolve o texto recebido." [ParamDict parametro_texto]
                               "return texto" [] []))
    as (keys & values & Hdict & _ & _ & Hentries & _).
  exists keys, values. split; [exact Hdict|].
  exact (Hentries 0%nat (to_parameter parametro_texto) eq_refl).
Defined.

End CreatorTree.

(** ** The creator: the files it writes *)

Module CreatorFiles.
Import Py Runtime Ast Creator Examples Scenarios.

Lemma mkdir_parents_Returned fs p fs1 :
  mkdir_parents fs p = Returned fs1 ->
  files fs1 = files fs /\ dirs fs1 = dirs fs ∪ list_to_set (prefixes p).
Proof.
  unfold mkdir_parents. intros H. repeat case_match; simplify_eq. now split.
Qed.

Lemma write_text_Returned fs p text fs1 :
  write_text fs p text = Returned fs1 ->
  files fs1 = <[p := text]> (files fs) /\ dirs fs1 = dirs fs.
Proof.
  unfold write_text. intros H. repeat case_match; simplify_eq. now split.
Qed.

(** X15.  What [synthesize] does to the file system, however it ends: it writes
    at most two files, the file of the tool and the [__init__.py] beside
    it, and leaves every other file as it was; it removes no directory and
    creates none but the directory of the tool and its parents. *)
Theorem synthesize_frame w fs name description parameters implementation
      imports custom_methods :
  let fs' := snd (synthesize w fs name description parameters implementation
                             imports custom_methods) in
  (forall q, q <> tool_file_path w name ->
             q <> truediv (tools_dir w name) "__init__.py" ->
             files fs' !! q = files fs !! q) /\
  dirs fs ⊆ dirs fs' /\
  dirs fs' ⊆ dirs fs ∪ list_to_set (prefixes (tools_dir w name)).
Proof.
  cbv zeta. unfold synthesize.
  destruct (mkdir_parents fs (tools_dir w name)) as [fs1|e] eqn:Hmk.
  2:{ cbn [snd]. split; [reflexivity|]. split; [reflexivity|apply union_subseteq_l]. }
  apply mkdir_parents_Returned in Hmk as [Hf1 Hd1].
  assert (Hbase : (forall q : path, files fs1 !! q = files fs !! q) /\
                  dirs fs ⊆ dirs fs1 /\
                  dirs fs1 ⊆ dirs fs ∪ list_to_set (prefixes (tools_dir w name))).
  { rewrite Hf1, Hd1. split; [reflexivity|]. split; [apply union_subseteq_l|reflexivity]. }
  destruct Hbase as (Hb1 & Hb2 & Hb3).
  destruct (verificar_metodos_vazios w custom_methods) as [[|m ms]|e]; cbn [snd]; auto.
  destruct (synthesized_tree w name description parameters implementation imports
                             custom_methods) as [tree|e]; cbn [snd]; auto.
  destruct (write_text fs1 (tool_file_path w name) _) as [fs2|e] eqn:Hw; cbn [snd]; auto.
  apply write_text_Returned in Hw as [Hf2 Hd2].
  assert (H2 : (forall q, q <> tool_file_path w name -> files fs2 !! q = files fs !! q) /\
               dirs fs ⊆ dirs fs2 /\
               dirs fs2 ⊆ dirs fs ∪ list_to_set (prefixes (tools_dir w name))).
  { rewrite Hf2, Hd2. split; [|split; assumption].
    intros q Hq. rewrite lookup_insert_ne by congruence. apply Hb1. }
  destruct H2 as (H21 & H22 & H23).
  destruct (negb (path_exists fs2 _)); cbn [snd]; auto.
  destruct (write_text fs2 _ _) as [fs3|e] eqn:Hw3; cbn [snd]; auto.
  apply write_text_Returned in Hw3 as [Hf3 Hd3]. rewrite Hf3, Hd3.
  split; [|split; assumption].
  intros q Hq Hi. rewrite lookup_insert_ne by congruence. now apply H21.
Qed.

(** The theorem at the tool [Eco], written beside a file of another tool:
    that file keeps its text. *)
Lemma synthesize_frame_witness :
  files (snd (synthesize mundo_eco (disco "exemplo_tool.py" fonte_exemplo) "Eco"
                         "Devolve o texto recebido." [ParamDict parametro_texto]
                         "return texto" [] []))
    !! ["ferramentas"; "exemplo_tool.py"]
  = Some fonte_exemplo.
Proof.
  rewrite (proj1 (synthesize_frame mundo_eco (disco "exemplo_tool.py" fonte_exemplo) "Eco"
                    "Devolve o texto recebido." [ParamDict parametro_texto]
                    "return texto" [] [])).
  - vm_compute. reflexivity.
  - vm_compute. discriminate.
  - vm_compute. discriminate.
Defined.

Lemma str_take_app a b n :
  str_take (String.length a + n) (a +:+ b) = a +:+ str_take n b.
Proof.
  induction a as [|x a IH]; [reflexivity|].
  rewrite !PyFacts.app_cons. cbn [String.length Nat.add str_take]. now rewrite IH.
Qed.

(** The stem of the file of a tool. *)
Lemma tool_file_stem w name :
  has_char "/" (lower (str_lower w) name) = false ->
  stem (tool_file_path w name) = replace_char " " "_" (lower (str_lower w) name) +:+ "_tool".
Proof.
  intros H. rewrite (CreatorFacts.tool_file_path_parts w name H).
  unfold stem, Py.name. cbn [last]. unfold tool_file_name.
  assert (Hs : startswith "/" (replace_char " " "_" (lower (str_lower w) name) +:+ "_tool.py")
               = false).
  { apply PyFacts.startswith_absent. rewrite PyFacts.has_char_app.
    rewrite PyFacts.has_slash_replace_space by reflexivity.
    now rewrite H. }
  rewrite Hs, PyFacts.suffix_cut_tool_py, str_take_app. reflexivity.
Qed.

Lemma init_path_parts w name :
  has_char "/" (lower (str_lower w) name) = false ->
  truediv (tools_dir w name) "__init__.py"
  = ["crews"; "pdca"; "tools"; tool_dir_name w name; "__init__.py"].
Proof. intros H. now rewrite (CreatorFacts.tools_dir_parts w name H). Qed.

(** X16.  The package file of a tool.  For a name whose lower-case form has no
    slash, the [__init__.py] that [synthesize] writes imports the class the
    builder defines from the module the tool was written to.  It is written
    when nothing stands at its path; a file that is there is kept with its
    text. *)
Theorem package_file w fs name description parameters implementation
      imports custom_methods p code fs' :
  has_char "/" (lower (str_lower w) name) = false ->
  synthesize w fs name description parameters implementation imports custom_methods
  = (Returned (Written p code), fs') ->
  let init := truediv (tools_dir w name) "__init__.py" in
  init_text w name
  = "# Pacote para ferramentas dinâmicas" +:+ nl +:+
    "from ." +:+ stem p +:+ " import " +:+
    tool_name_clean (tool_definition name description parameters implementation
                                     imports custom_methods) +:+ "Tool" +:+ nl /\
  (path_exists fs init = false -> files fs' !! init = Some (init_text w name)) /\
  (forall text, files fs !! init = Some text -> files fs' !! init = Some text).
Proof.
  intros Hname Hsyn init.
  destruct (CreatorFacts.synthesize_written _ _ _ _ _ _ _ _ _ _ _ Hname Hsyn) as (-> & _ & _).
  assert (Hne : tool_file_path w name <> init).
  { unfold init. rewrite (CreatorFacts.tool_file_path_parts w name Hname),
      (init_path_parts w name Hname).
    intros Heq. injection Heq as Heq. exact (CreatorFacts.tool_file_not_init w name Heq). }
  split; [|split].
  - rewrite (tool_file_stem w name Hname). unfold init_text, tool_name_clean.
    cbn [def_name tool_definition]. now rewrite !PyFacts.app_assoc.
  - intros Hex. unfold synthesize in Hsyn.
    destruct (mkdir_parents fs (tools_dir w name)) as [fs1|] eqn:Hmk; [|discriminate].
    apply mkdir_parents_Returned in Hmk as [Hf1 Hd1].
    destruct (verificar_metodos_vazios w custom_methods) as [[|]|]; try discriminate.
    destruct (synthesized_tree _ _ _ _ _ _ _) as [tree|]; [|discriminate].
    destruct (write_text fs1 _ _) as [fs2|] eqn:Hw; [|discriminate].
    apply write_text_Returned in Hw as [Hf2 Hd2].
    fold init in Hsyn.
    assert (Hex2 : path_exists fs2 init = false).
    { unfold path_exists, is_file, is_dir in *. unfold init in *.
      rewrite (init_path_parts w name Hname) in *.
      apply orb_false_iff in Hex as [Hdir Hfile].
      apply bool_decide_eq_false in Hdir, Hfile.
      apply orb_false_iff. split; apply bool_decide_eq_false.
      - rewrite Hd2, Hd1, (CreatorFacts.tools_dir_parts w name Hname). cbn [prefixes List.map].
        intros Hin. apply elem_of_union in Hin as [Hin|Hin]; [contradiction|].
        apply elem_of_list_to_set in Hin.
        repeat (apply elem_of_cons in Hin as [Hin|Hin]; [discriminate|]).
        now apply elem_of_nil in Hin.
      - rewrite Hf2, Hf1. rewrite lookup_insert_ne.
        + exact Hfile.
        + rewrite (CreatorFacts.tool_file_path_parts w name Hname). intros Heq.
          injection Heq as Heq. exact (CreatorFacts.tool_file_not_init w name Heq). }
    rewrite Hex2 in Hsyn. cbn [negb] in Hsyn.
    destruct (write_text fs2 init _) as [fs3|] eqn:Hw3; [|discriminate].
    apply write_text_Returned in Hw3 as [Hf3 _]. simplify_eq.
    rewrite Hf3. apply lookup_insert_eq.
  - intros text Htext. unfold synthesize in Hsyn.
    destruct (mkdir_parents fs (tools_dir w name)) as [fs1|] eqn:Hmk; [|discriminate].
    apply mkdir_parents_Returned in Hmk as [Hf1 Hd1].
    destruct (verificar_metodos_vazios w custom_methods) as [[|]|]; try discriminate.
    destruct (synthesized_tree _ _ _ _ _ _ _) as [tree|]; [|discriminate].
    destruct (write_text fs1 _ _) as [fs2|] eqn:Hw; [|discriminate].
    apply write_text_Returned in Hw as [Hf2 Hd2].
    fold init in Hsyn.
    assert (Hkept : files fs2 !! init = Some text).
    { rewrite Hf2, Hf1, lookup_insert_ne by exact Hne. exact Htext. }
    assert (Hex2 : path_exists fs2 init = true).
    { unfold path_exists, is_file. rewrite Hkept.
      apply orb_true_iff. right. apply bool_decide_eq_true. eauto. }
    rewrite Hex2 in Hsyn. cbn [negb] in Hsyn. now simplify_eq.
Qed.

(** The theorem at the tool [AÇÃO], on the empty file system: the module is
    [ação_tool] and the class [AÇÃOTool]. *)
Lemma package_file_witness :
  init_text mundo_acao "AÇÃO"
  = "# Pacote para ferramentas dinâmicas" +:+ nl +:+
    "from .ação_tool import AÇÃOTool" +:+ nl /\
  files disco_acao_escrito !! ["crews"; "pdca"; "tools"; "ação_tool"; "__init__.py"]
  = Some (init_text mundo_acao "AÇÃO").
Proof.
  destruct (package_file mundo_acao disco_vazio "AÇÃO" "Devolve o texto recebido."
              [ParamDict parametro_texto] "return texto" [] []
              ["crews"; "pdca"; "tools"; "ação_tool"; "ação_tool.py"] fonte_acao
              disco_acao_escrito)
    as (Htext & Hnew & _).
  - reflexivity.
  - vm_compute. reflexivity.
  - split; [rewrite Htext; vm_compute; reflexivity|].
    change ["crews"; "pdca"; "tools"; "ação_tool"; "__init__.py"]
      with (truediv (tools_dir mundo_acao "AÇÃO") "__init__.py").
    apply Hnew. vm_compute. reflexivity.
Defined.

End CreatorFiles.

(** ** The tree of a synthesized tool *)

Module SynthesizedTree.
Import Py Runtime Ast Verifier Creator Examples Scenarios.

Lemma parameters_converted name description (parameters : list param_input)
    implementation imports custom_methods :
  parameters <> [] ->
  exists p ps,
    def_parameters (tool_definition name description parameters implementation
                                    imports custom_methods) = p :: ps.
Proof.
  destruct parameters as [|q qs]; [contradiction|]. intros _.
  unfold tool_definition. cbn [def_parameters List.map]. eauto.
Qed.

(** X17.  With parameters, the generated module defines the parameter model
    just before the tool class: a class named after the tool, derived from
    [BaseModel], with a docstring and one field for every parameter, in
    order.  The tool class, which is named after the tool too and is
    followed by the main block alone, assigns this class to [args_schema].
    So [args_schema] never names a class the module does not define. *)
Theorem parameter_model_defined w name description parameters implementation
      imports custom_methods tree :
  synthesized_tree w name description parameters implementation imports custom_methods
  = Returned tree ->
  parameters <> [] ->
  let tool_def := tool_definition name description parameters implementation
                                  imports custom_methods in
  let model_name := tool_name_clean tool_def +:+ "Parameters" in
  exists before cls main,
    node_field "body" tree
    = before ++
      [ClassDef model_name [Name "BaseModel" Load]
         (Expr (Constant (PyStr ("Parâmetros para a ferramenta " +:+ name +:+ ".")))
          :: List.map field_assign (def_parameters tool_def));
       cls; main] /\
    isinstance cls "ClassDef" = true /\
    node_name cls = tool_name_clean tool_def +:+ "Tool" /\
    In (AnnAssign (Name "args_schema" Store) (Name "Type[BaseModel]" Load)
                  (Name model_name Load) 1)
       (node_field "body" cls).
Proof.
  intros Htree Hne tool_def model_name.
  destruct (PipelineFacts.synthesized_tree_body _ _ _ _ _ _ _ _ Htree)
    as (nodes & methods & body & _ & ->).
  fold tool_def.
  destruct (parameters_converted name description parameters implementation imports
                                 custom_methods Hne) as (p & ps & Hps).
  fold tool_def in Hps.
  assert (Hnonempty : negb (is_empty parameters) = true) by now destruct parameters.
  rewrite Hnonempty.
  exists (nodes ++ _create_descriptions_dict tool_def). eexists _, _.
  split; [|split; [|split]].
  - cbn [node_field Module_ assoc String.eqb Ascii.eqb Bool.eqb].
    unfold create_parameter_model. rewrite Hps. rewrite <- Hps.
    rewrite <- app_assoc. reflexivity.
  - reflexivity.
  - reflexivity.
  - cbn [node_field ClassDef assoc String.eqb Ascii.eqb Bool.eqb].
    apply in_or_app. left. unfold class_head. rewrite Hps.
    apply in_or_app. right. now left.
Qed.

(** The theorem at the tool [Eco]. *)
Lemma parameter_model_defined_witness :
  exists before cls main,
    node_field "body" arvore_eco
    = before ++
      [ClassDef "EcoParameters" [Name "BaseModel" Load]
         [Expr (Constant (PyStr "Parâmetros para a ferramenta Eco."));
          field_assign (to_parameter parametro_texto)];
       cls; main] /\
    node_name cls = "EcoTool".
Proof.
  destruct (parameter_model_defined mundo_fragmentos "Eco" "Devolve o texto recebido."
              [ParamDict parametro_texto] "return texto" [] [] arvore_eco)
    as (before & cls & main & Hbody & _ & Hname & _).
  - vm_compute. reflexivity.
  - discriminate.
  - exists before, cls, main. split; [exact Hbody|exact Hname].
Defined.

Lemma mark_target_found target :
  mark_target [("name", true); ("description", true); ("args_schema", true)] target
  = [("name", true); ("description", true); ("args_schema", true)].
Proof. unfold mark_target. cbn [List.map fst]. repeat case_match; reflexivity. Qed.

Lemma mark_item_found item :
  mark_item [("name", true); ("description", true); ("args_schema", true)] item
  = [("name", true); ("description", true); ("args_schema", true)].
Proof.
  assert (H : forall targets,
             fold_left mark_target targets
                       [("name", true); ("description", true); ("args_schema", true)]
             = [("name", true); ("description", true); ("args_schema", true)]).
  { induction targets as [|t ts IH]; [reflexivity|].
    cbn [fold_left]. now rewrite mark_target_found. }
  unfold mark_item. repeat case_match; auto.
Qed.

Lemma mark_items_found items :
  fold_left mark_item items [("name", true); ("description", true); ("args_schema", true)]
  = [("name", true); ("description", true); ("args_schema", true)].
Proof.
  induction items as [|i items IH]; [reflexivity|].
  cbn [fold_left]. now rewrite mark_item_found.
Qed.

(** X18.  The two halves of the pipeline agree on the class attributes: on the
    class the builder generates for a tool with parameters, the verifier's
    static check finds [name], [description] and [args_schema], whatever
    the auxiliary methods and the implementation are; it adds three infos
    and no warning. *)
Theorem synthesized_class_has_attributes w name description parameters implementation
      imports custom_methods tree :
  synthesized_tree w name description parameters implementation imports custom_methods
  = Returned tree ->
  parameters <> [] ->
  exists cls,
    In cls (node_field "body" tree) /\
    node_name cls = replace_char " " "" name +:+ "Tool" /\
    forall res,
      _check_for_class_attributes cls res
      = add_info "Atributo de classe 'args_schema' encontrado na AST."
          (add_info "Atributo de classe 'description' encontrado na AST."
             (add_info "Atributo de classe 'name' encontrado na AST." res)).
Proof.
  intros Htree Hne.
  destruct (PipelineFacts.synthesized_tree_body _ _ _ _ _ _ _ _ Htree)
    as (nodes & methods & body & _ & ->).
  destruct (parameters_converted name description parameters implementation imports
                                 custom_methods Hne) as (p & ps & Hps).
  eexists. split; [|split].
  - cbn [node_field Module_ assoc String.eqb Ascii.eqb Bool.eqb].
    apply in_or_app. right. apply in_or_app. right. apply in_or_app. right. now left.
  - reflexivity.
  - intros res. unfold _check_for_class_attributes.
    cbn [node_field ClassDef assoc String.eqb Ascii.eqb Bool.eqb].
    rewrite fold_left_app. unfold class_head. rewrite Hps.
    match goal with
    | |- context [fold_left mark_item (?l1 ++ ?l2) required_attrs] =>
        change (fold_left mark_item (l1 ++ l2) required_attrs)
          with [("name", true); ("description", true); ("args_schema", true)]
    end.
    rewrite mark_items_found. reflexivity.
Qed.

(** The theorem at the tool [Eco]. *)
Lemma synthesized_class_has_attributes_witness :
  exists cls,
    In cls (node_field "body" arvore_eco) /\
    node_name cls = "EcoTool" /\
    info (_check_for_class_attributes cls (new_result "crews/pdca/tools/eco_tool/eco_tool.py"))
    = ["INFO: Atributo de classe 'name' encontrado na AST.";
       "INFO: Atributo de classe 'description' encontrado na AST.";
       "INFO: Atributo de classe 'args_schema' encontrado na AST."].
Proof.
  destruct (synthesized_class_has_attributes mundo_fragmentos "Eco" "Devolve o texto recebido."
              [ParamDict parametro_texto] "return texto" [] [] arvore_eco)
    as (cls & Hin & Hname & Hcheck).
  - vm_compute. reflexivity.
  - discriminate.
  - exists cls. split; [exact Hin|]. split; [exact Hname|]. now rewrite Hcheck.
Defined.

End SynthesizedTree.

(** ** The executor: candidates, success and the mark of failure *)

Module ExecutorPaths.
Import Py Runtime Executor Examples Scenarios.

Lemma find_first {A} (P : A -> bool) l x :
  List.find P l = Some x ->
  exists before after,
    l = before ++ x :: after /\ P x = true /\ Forall (fun y => P y = false) before.
Proof.
  induction l as [|y l IH]; [discriminate|]. cbn [List.find].
  destruct (P y) eqn:Hy.
  - intros H. simplify_eq. exists [], l. repeat split; [assumption|constructor].
  - intros H. destruct (IH H) as (before & after & -> & Hx & Hb).
    exists (y :: before), after. repeat split; [assumption|now constructor].
Qed.

Lemma endswith_slash_crews x : endswith "/" (x +:+ "crews") = false.
Proof.
  induction x as [|c x IH]; [reflexivity|].
  rewrite PyFacts.app_cons. cbn [endswith]. rewrite IH, orb_false_r.
  cbn [String.eqb]. destruct (x +:+ "crews") eqn:E.
  - destruct x; discriminate.
  - apply andb_false_r.
Qed.

Lemma join_snoc sep l x :
  join sep (l ++ [x]) = (if is_empty l then "" else join sep l +:+ sep) +:+ x.
Proof.
  unfold join. induction l as [|a l IH]; [reflexivity|].
  cbn [app is_empty]. destruct l as [|b l].
  - cbn [app String.concat]. now rewrite !PyFacts.app_assoc.
  - change (String.concat sep (a :: (b :: l) ++ [x]))
      with (a +:+ sep +:+ String.concat sep ((b :: l) ++ [x])).
    rewrite IH. cbn [is_empty].
    change (String.concat sep (a :: b :: l)) with (a +:+ sep +:+ String.concat sep (b :: l)).
    now rewrite !PyFacts.app_assoc.
Qed.

Lemma find_crews_innermost pre post :
  ~ In "crews" post ->
  find_crews (rev (pre ++ "crews" :: post)) = Some ("crews" :: rev pre).
Proof.
  intros Hpost. rewrite rev_app_distr. cbn [rev]. rewrite <- app_assoc. cbn [app].
  assert (H : ~ In "crews" (rev post)) by (intros H; apply Hpost; now apply in_rev).
  induction (rev post) as [|c l IH].
  - cbn. reflexivity.
  - cbn [app find_crews]. destruct (String.eqb_spec c "crews") as [->|Hc].
    + exfalso. apply H. now left.
    + apply IH. intros Hin. apply H. now right.
Qed.

(** X19.  The paths the executor tries, in this order: the path as given; for a
    relative path, the path under the project root; and for a relative path
    under [crews/], when the current directory is inside a directory named
    [crews], the rest of the path under the innermost such directory.  An
    absolute path is tried as given and nowhere else.  The path used is the
    first of them that exists. *)
Theorem candidate_paths w caminho_ferramenta :
  (isabs caminho_ferramenta = true ->
   caminhos_possiveis w caminho_ferramenta = [caminho_ferramenta]) /\
  (isabs caminho_ferramenta = false ->
   exists rest,
     caminhos_possiveis w caminho_ferramenta
     = caminho_ferramenta :: os_path_join (project_root w) caminho_ferramenta :: rest /\
     (length rest <= 1)%nat) /\
  (forall pre post resto,
      cwd w = pre ++ "crews" :: post ->
      ~ In "crews" post ->
      caminho_ferramenta = "crews/" +:+ resto ->
      startswith "/" resto = false ->
      caminhos_possiveis w caminho_ferramenta
      = [caminho_ferramenta;
         os_path_join (project_root w) caminho_ferramenta;
         dir_text (pre ++ ["crews"]) +:+ "/" +:+ resto]) /\
  (forall caminho,
      caminho_valido w caminho_ferramenta = Some caminho ->
      exists before after,
        caminhos_possiveis w caminho_ferramenta = before ++ caminho :: after /\
        os_path_exists w caminho = true /\
        Forall (fun c => os_path_exists w c = false) before).
Proof.
  split; [|split; [|split]].
  - intros H. unfold caminhos_possiveis. now rewrite H.
  - intros H. unfold caminhos_possiveis. rewrite H. cbn [negb].
    eexists. split; [reflexivity|]. repeat case_match; cbn; lia.
  - intros pre post resto Hcwd Hpost -> Hresto. unfold caminhos_possiveis.
    assert (Habs : isabs ("crews/" +:+ resto) = false) by reflexivity.
    rewrite Habs. cbn [negb].
    assert (Hstart : startswith "crews/" ("crews/" +:+ resto) = true)
      by apply PyFacts.prefix_app.
    rewrite Hstart. cbn [orb].
    rewrite Hcwd, (find_crews_innermost pre post Hpost).
    cbn [rev]. rewrite rev_involutive.
    change (str_drop 6 ("crews/" +:+ resto)) with resto.
    unfold os_path_join at 2. rewrite Hresto.
    assert (Hdir : dir_text (pre ++ ["crews"])
                   = ("/" +:+ (if is_empty pre then "" else join "/" pre +:+ "/")) +:+ "crews").
    { unfold dir_text. now rewrite join_snoc, PyFacts.app_assoc. }
    assert (Hsel : String.eqb (dir_text (pre ++ ["crews"])) "" ||
                   endswith "/" (dir_text (pre ++ ["crews"])) = false).
    { rewrite Hdir, endswith_slash_crews, orb_false_r. apply String.eqb_neq.
      intros He. apply (f_equal String.length) in He.
      rewrite !PyFacts.length_app in He. cbn in He. lia. }
    rewrite Hsel. reflexivity.
  - intros caminho H. unfold caminho_valido in H.
    destruct (List.find (os_path_exists w) (caminhos_possiveis w caminho_ferramenta))
      as [c|] eqn:Hfind; [|discriminate].
    destruct c as [|a c]; [discriminate|]. simplify_eq.
    exact (find_first _ _ _ Hfind).
Qed.

(** The theorem at a path under [crews/], from a directory inside
    [/projeto/crews]. *)
Lemma candidate_paths_witness :
  caminhos_possiveis mundo_em_crews "crews/pdca/tools/eco_tool/eco_tool.py"
  = ["crews/pdca/tools/eco_tool/eco_tool.py";
     "/projeto/crews/pdca/tools/eco_tool/eco_tool.py";
     "/projeto/crews/pdca/tools/eco_tool/eco_tool.py"].
Proof.
  assert (Hpost : ~ In "crews" ["pdca"]) by (intros [H|[]]; discriminate).
  exact (proj1 (proj2 (proj2 (candidate_paths mundo_em_crews
                                "crews/pdca/tools/eco_tool/eco_tool.py")))
           ["projeto"] ["pdca"] "pdca/tools/eco_tool/eco_tool.py"
           eq_refl Hpost eq_refl eq_refl).
Defined.

(** X20.  When the file is found, the module loads, the class is there, can be
    constructed and has a callable [run], and the call returns, [_run]
    returns the report of the execution: it holds the class name, the path
    as given, the arguments and the result. *)
Theorem execution_reported w sys_path caminho_ferramenta nome_classe parametros
      caminho modulo classe_ferramenta ferramenta resultado :
  caminho_valido w caminho_ferramenta = Some caminho ->
  import_spec w "modulo_dinamico" caminho = Returned true ->
  fst (exec_module w "modulo_dinamico" caminho sys_path) = Returned modulo ->
  assoc nome_classe modulo = Some classe_ferramenta ->
  mb_call classe_ferramenta = Returned ferramenta ->
  inst_run_callable ferramenta = true ->
  inst_run ferramenta parametros = Returned resultado ->
  exists text,
    _run w sys_path caminho_ferramenta nome_classe parametros = Returned text /\
    text = relatorio_execucao w caminho_ferramenta nome_classe parametros resultado /\
    occurs_in nome_classe text /\
    occurs_in caminho_ferramenta text /\
    occurs_in (repr_kwargs w parametros) text /\
    occurs_in resultado text.
Proof.
  intros Hc Hspec Hexec Hcls Hcall Hrun Hres.
  eexists. split; [|split; [reflexivity|]].
  - unfold _run, tentar. rewrite Hc, Hspec. cbn [mbind outcome_bind negb].
    rewrite Hexec. cbn [mbind outcome_bind]. rewrite Hcls, Hcall.
    cbn [mbind outcome_bind]. rewrite Hrun. cbn [negb]. rewrite Hres. reflexivity.
  - unfold relatorio_execucao. repeat split; PyFacts.find_piece.
Qed.

(** The theorem at the tool [Eco], called with a text. *)
Lemma execution_reported_witness :
  exists text,
    _run mundo_eco ["/usr/lib/python3"] "crews/pdca/tools/eco_tool/eco_tool.py" "EcoTool"
         [("texto", PyStr "bom dia")] = Returned text /\
    occurs_in "bom dia" text.
Proof.
  destruct (execution_reported mundo_eco ["/usr/lib/python3"]
              "crews/pdca/tools/eco_tool/eco_tool.py" "EcoTool" [("texto", PyStr "bom dia")]
              "crews/pdca/tools/eco_tool/eco_tool.py" modulo_eco classe_eco instancia_eco
              "bom dia")
    as (text & Hrun & _ & _ & _ & _ & Hres); try reflexivity.
  exists text. split; [exact Hrun|exact Hres].
Defined.

(** Every text of the executor that is not the report of an execution
    carries the mark [ERRO]. *)
Lemma falha_marcada w sys_path caminho_ferramenta nome_classe parametros text :
  _run w sys_path caminho_ferramenta nome_classe parametros = Returned text ->
  (exists resultado,
      text = relatorio_execucao w caminho_ferramenta nome_classe parametros resultado) \/
  occurs_in "ERRO" text.
Proof.
  unfold _run. destruct (tentar w sys_path caminho_ferramenta nome_classe parametros)
    as [t|e] eqn:Ht.
  2:{ destruct (is_Exception e); [|discriminate]. intros H. simplify_eq. right.
      unfold erro_execucao. exists (nl +:+ "## "). eexists.
      rewrite !PyFacts.app_assoc. reflexivity. }
  intros H. simplify_eq. unfold tentar in Ht.
  destruct (caminho_valido w caminho_ferramenta) as [caminho|].
  2:{ simplify_eq. right. unfold nao_encontrado. exists "". eexists. reflexivity. }
  destruct (import_spec w "modulo_dinamico" caminho) as [[|]|]; cbn [mbind outcome_bind negb] in Ht.
  2:{ simplify_eq. right. unfold modulo_nao_carregado. exists "". eexists. reflexivity. }
  2:{ discriminate. }
  destruct (fst (exec_module w "modulo_dinamico" caminho sys_path)) as [modulo|];
    cbn [mbind outcome_bind] in Ht; [|discriminate].
  destruct (assoc nome_classe modulo) as [classe|].
  2:{ simplify_eq. right. unfold classe_nao_encontrada. exists "". eexists. reflexivity. }
  destruct (mb_call classe) as [ferramenta|]; cbn [mbind outcome_bind] in Ht; [|discriminate].
  destruct (inst_run_callable ferramenta); cbn [negb] in Ht.
  2:{ simplify_eq. right. unfold sem_metodo_run. exists "". eexists. reflexivity. }
  destruct (inst_run ferramenta parametros) as [resultado|]; cbn [mbind outcome_bind] in Ht;
    [|discriminate].
  simplify_eq. left. now exists resultado.
Qed.

(** X21.  Whatever goes wrong in the executor can be told from its text: a text
    that [_run] returns is either the report of an execution, with the
    result of the tool, or it holds the word [ERRO]; this is the word the
    creator looks for in the result of its test execution. *)
Theorem failure_is_marked w sys_path caminho_ferramenta nome_classe parametros text :
  _run w sys_path caminho_ferramenta nome_classe parametros = Returned text ->
  (exists resultado,
      text = relatorio_execucao w caminho_ferramenta nome_classe parametros resultado) \/
  py_in "ERRO" text = true.
Proof.
  intros H. destruct (falha_marcada _ _ _ _ _ _ H) as [Hr|He]; [now left|].
  right. now apply PyFacts.py_in_occurs.
Qed.

(** The theorem at a class that the module does not have. *)
Lemma failure_is_marked_witness :
  py_in "ERRO" (classe_nao_encontrada "OutraTool" "crews/pdca/tools/eco_tool/eco_tool.py")
  = true.
Proof.
  destruct (failure_is_marked mundo_eco ["/usr/lib/python3"]
              "crews/pdca/tools/eco_tool/eco_tool.py" "OutraTool" []
              (classe_nao_encontrada "OutraTool" "crews/pdca/tools/eco_tool/eco_tool.py"))
    as [[resultado Hr]|He].
  - vm_compute. reflexivity.
  - vm_compute in Hr. discriminate Hr.
  - exact He.
Defined.

End ExecutorPaths.

(** ** The report of the creator and its test execution *)

Module ReportFacts.
Import Py Runtime Creator CreatorReport Examples Scenarios.

Lemma occurs_two x y z : occurs_in (x +:+ y) (x +:+ y +:+ z).
Proof. exists "", z. now rewrite PyFacts.app_assoc. Qed.

Lemma occurs_head x z : occurs_in x (x +:+ z).
Proof. exists "", z. reflexivity. Qed.

(** Finds a piece, or two pieces in a row, in a text appended from pieces. *)
Ltac find_in :=
  rewrite ?PyFacts.app_assoc;
  repeat first [ apply PyFacts.occurs_in_refl
               | apply occurs_head
               | apply occurs_two
               | apply PyFacts.occurs_in_app_r ].

(** X22.  The test execution comes after a successful verification and at no
    other time.  When an auxiliary method is empty the call returns the
    message about it, and when the verifier reports no success the call
    returns the report built from the verifier's dictionary: in both cases
    whatever the executor would do, so the tool is not executed. *)
Theorem unverified_tool_is_not_executed w str_of executar_tool_run fs sys_path
      name description parameters implementation imports custom_methods :
  (forall mensagem fs' sys_path',
      Creator._run w fs sys_path name description parameters implementation
                   imports custom_methods
      = (Returned (RunRejected mensagem), fs', sys_path') ->
      _run w str_of executar_tool_run fs sys_path name description parameters
           implementation imports custom_methods
      = (Returned mensagem, fs', sys_path')) /\
  (forall p v fs' sys_path',
      Creator._run w fs sys_path name description parameters implementation
                   imports custom_methods
      = (Returned (RunCreated p v), fs', sys_path') ->
      Verifier.sucesso v = false ->
      _run w str_of executar_tool_run fs sys_path name description parameters
           implementation imports custom_methods
      = (Returned (final_report (report_lines str_of name description p parameters v)),
         fs', sys_path')).
Proof.
  split.
  - intros mensagem fs' sys_path' H. unfold _run. now rewrite H.
  - intros p v fs' sys_path' H Hv. unfold _run. rewrite H. unfold relatorio. now rewrite Hv.
Qed.

(** The theorem at a tool with an empty auxiliary method. *)
Lemma unverified_tool_is_not_executed_witness :
  exists mensagem,
    _run mundo_pendente str_simples (executar mundo_pendente ["/usr/lib/python3"])
         disco_vazio ["/usr/lib/python3"] "Eco" "Devolve o texto recebido."
         [ParamDict parametro_texto] "return texto" [] [metodo_pendente]
    = (Returned mensagem, disco_eco, ["/usr/lib/python3"]) /\
    occurs_in "pendente" mensagem.
Proof.
  eexists. split.
  - apply (proj1 (unverified_tool_is_not_executed mundo_pendente str_simples
                    (executar mundo_pendente ["/usr/lib/python3"])
                    disco_vazio ["/usr/lib/python3"] "Eco" "Devolve o texto recebido."
                    [ParamDict parametro_texto] "return texto" [] [metodo_pendente])).
    vm_compute. reflexivity.
  - exists "ERRO: Os seguintes métodos auxiliares estão vazios (apenas 'pass'): ". eexists.
    reflexivity.
Defined.

(** X23.  The test execution cannot make the creation fail with an ordinary
    error: when the tool was written and verified with success, an
    exception derived from [Exception] that leaves the executor becomes a
    section of the report with the text of the error, and the call returns;
    only an exception outside [Exception] propagates. *)
Theorem test_failure_is_reported w str_of executar_tool_run fs sys_path
      name description parameters implementation imports custom_methods p v fs' sys_path' e :
  Creator._run w fs sys_path name description parameters implementation
               imports custom_methods
  = (Returned (RunCreated p v), fs', sys_path') ->
  Verifier.sucesso v = true ->
  executar_tool_run (path_str p) (replace_char " " "" name +:+ "Tool")
                    (parametros_teste (List.map to_dict parameters)) = Raised e ->
  (is_Exception e = true ->
   exists text,
     _run w str_of executar_tool_run fs sys_path name description parameters
          implementation imports custom_methods
     = (Returned text, fs', sys_path') /\
     occurs_in "## Teste de Execução Dinâmica" text /\
     occurs_in ("**Erro:** " +:+ exn_str e) text) /\
  (is_Exception e = false ->
   _run w str_of executar_tool_run fs sys_path name description parameters
        implementation imports custom_methods
   = (Raised e, fs', sys_path')).
Proof.
  intros H Hv He. unfold _run. rewrite H. unfold relatorio, teste_dinamico.
  rewrite Hv, He. split; intros Hexc; rewrite Hexc; cbn [mbind outcome_bind].
  - eexists. split; [reflexivity|]. unfold falha_dinamica. split.
    + cbv zeta. find_in.
    + cbv zeta. find_in.
  - reflexivity.
Qed.

(** The theorem at the tool [Eco] and an executor that cannot be used. *)
Lemma test_failure_is_reported_witness :
  exists text,
    _run mundo_eco str_simples executar_falho disco_vazio ["/usr/lib/python3"]
         "Eco" "Devolve o texto recebido." [ParamDict parametro_texto] "return texto" [] []
    = (Returned text, disco_eco_escrito fonte_eco, ["/usr/lib/python3"]) /\
    occurs_in "## Teste de Execução Dinâmica" text /\
    occurs_in ("**Erro:** " +:+ "limite de uso da ferramenta atingido") text.
Proof.
  edestruct (test_failure_is_reported mundo_eco str_simples executar_falho disco_vazio
               ["/usr/lib/python3"] "Eco" "Devolve o texto recebido."
               [ParamDict parametro_texto] "return texto" [] []) as [Hyes _].
  - vm_compute. reflexivity.
  - reflexivity.
  - reflexivity.
  - exact (Hyes eq_refl).
Defined.

(** *** The test parameters *)

Lemma dict_set_In k v d k' v' :
  In (k', v') (dict_set k v d) -> (k', v') = (k, v) \/ In (k', v') d.
Proof.
  unfold dict_set. destruct (str_in_list k (List.map fst d)).
  - intros Hm. apply in_map_iff in Hm as ([k0 v0] & Heq & Hin). cbn [fst] in Heq.
    destruct (String.eqb k0 k); simplify_eq; auto.
  - intros Hm. apply in_app_or in Hm as [Hm|[Hm|[]]]; auto.
Qed.

Lemma dict_set_keys k v d k' :
  In k' (List.map fst (dict_set k v d)) <-> k' = k \/ In k' (List.map fst d).
Proof.
  unfold dict_set. destruct (str_in_list k (List.map fst d)) eqn:E.
  - apply CreatorTree.str_in_list_In in E.
    assert (Hsame : List.map fst (List.map (fun kv : string * pyval =>
                       if String.eqb (fst kv) k then (k, v) else kv) d) = List.map fst d).
    { rewrite List.map_map. apply List.map_ext. intros [k0 v0]. cbn [fst].
      destruct (String.eqb_spec k0 k); now subst. }
    rewrite Hsame. split; [auto|]. intros [->|H]; assumption.
  - rewrite List.map_app, in_app_iff. cbn. split.
    + intros [H|[H|[]]]; auto.
    + intros [H|H]; auto.
Qed.

Lemma dict_set_NoDup k v d :
  NoDup (List.map fst d) -> NoDup (List.map fst (dict_set k v d)).
Proof.
  intros Hd. unfold dict_set. destruct (str_in_list k (List.map fst d)) eqn:E.
  - assert (Hsame : List.map fst (List.map (fun kv : string * pyval =>
                       if String.eqb (fst kv) k then (k, v) else kv) d) = List.map fst d).
    { rewrite List.map_map. apply List.map_ext. intros [k0 v0]. cbn [fst].
      destruct (String.eqb_spec k0 k); now subst. }
    now rewrite Hsame.
  - rewrite List.map_app. cbn [List.map fst]. apply NoDup_app. split; [assumption|].
    split; [|apply NoDup_singleton].
    intros x Hx Hk. apply list_elem_of_In in Hx. apply list_elem_of_singleton in Hk. subst x.
    apply CreatorTree.str_in_list_In in Hx. congruence.
Qed.

(** X24.  The dictionary of test parameters has one entry for every name of a
    required parameter whose type is [string], [integer], [boolean], [array]
    or [object], and no other entry; each value is the test value of such a
    parameter of that name.  A required parameter of another type, [number]
    among them, gets no test value: the tool is tested without it. *)
Theorem test_parameters converted_parameters :
  let tested param k v :=
    In param converted_parameters /\
    default true (d_required param) = true /\
    default "" (d_name param) = k /\
    valor_teste (default "string" (d_type param)) k = Some v in
  NoDup (List.map fst (parametros_teste converted_parameters)) /\
  (forall k, In k (List.map fst (parametros_teste converted_parameters)) <->
             exists param v, tested param k v) /\
  (forall k v, In (k, v) (parametros_teste converted_parameters) ->
               exists param, tested param k v) /\
  (forall k,
      (forall param, In param converted_parameters -> default "" (d_name param) = k ->
                     d_type param = Some "number") ->
      ~ In k (List.map fst (parametros_teste converted_parameters))).
Proof.
  intros tested. unfold parametros_teste.
  assert (Hgen : forall params (d : kwargs),
             let step := fun (d : kwargs) (param : param_dict) =>
               if default true (d_required param)
               then match valor_teste (default "string" (d_type param))
                                      (default "" (d_name param)) with
                    | Some v => dict_set (default "" (d_name param)) v d
                    | None => d
                    end
               else d in
             let hit param k v :=
               In param params /\
               default true (d_required param) = true /\
               default "" (d_name param) = k /\
               valor_teste (default "string" (d_type param)) k = Some v in
             (NoDup (List.map fst d) -> NoDup (List.map fst (fold_left step params d))) /\
             (forall k, In k (List.map fst (fold_left step params d)) <->
                        In k (List.map fst d) \/ exists param v, hit param k v) /\
             (forall k v, In (k, v) (fold_left step params d) ->
                          In (k, v) d \/ exists param, hit param k v)).
  { induction params as [|param params IH]; intros d step hit.
    - cbn [fold_left]. split; [auto|]. split.
      + intros k. split; [auto|]. intros [H|(p & v & [] & _)]. exact H.
      + auto.
    - cbn [fold_left]. destruct (IH (step d param)) as (IH1 & IH2 & IH3).
      fold step in IH1, IH2, IH3.
      assert (Hstep : (NoDup (List.map fst d) -> NoDup (List.map fst (step d param))) /\
                      (forall k, In k (List.map fst (step d param)) <->
                                 In k (List.map fst d) \/
                                 exists v, default true (d_required param) = true /\
                                           default "" (d_name param) = k /\
                                           valor_teste (default "string" (d_type param)) k
                                           = Some v) /\
                      (forall k v, In (k, v) (step d param) ->
                                   In (k, v) d \/
                                   (default true (d_required param) = true /\
                                    default "" (d_name param) = k /\
                                    valor_teste (default "string" (d_type param)) k
                                    = Some v))).
      { unfold step. destruct (default true (d_required param)) eqn:Hreq.
        - destruct (valor_teste _ _) as [v|] eqn:Hv.
          + split; [apply dict_set_NoDup|]. split.
            * intros k. rewrite dict_set_keys. split.
              -- intros [->|H]; [right; eauto|now left].
              -- intros [H|(v' & _ & <- & _)]; auto.
            * intros k v' H. apply dict_set_In in H as [H|H]; [|now left].
              simplify_eq. right. auto.
          + split; [auto|]. split.
            * intros k. split; [auto|]. intros [H|(v & _ & <- & Hv')]; [exact H|congruence].
            * auto.
        - split; [auto|]. split.
          + intros k. split; [auto|]. intros [H|(v & Hr & _)]; [exact H|discriminate].
          + auto. }
      destruct Hstep as (S1 & S2 & S3).
      split; [auto|]. split.
      + intros k. rewrite IH2, S2. split.
        * intros [[H|(v & Hr & Hn & Hv)]|(p & v & Hin & Hrest)].
          -- now left.
          -- right. exists param, v. repeat split; auto. now left.
          -- right. exists p, v. split; [now right|exact Hrest].
        * intros [H|(p & v & [<-|Hin] & Hr & Hn & Hv)].
          -- left. now left.
          -- left. right. eauto.
          -- right. exists p, v. repeat split; auto.
      + intros k v H. apply IH3 in H as [H|(p & Hin & Hrest)].
        * apply S3 in H as [H|(Hr & Hn & Hv)]; [now left|].
          right. exists param. repeat split; auto. now left.
        * right. exists p. split; [now right|exact Hrest]. }
  destruct (Hgen converted_parameters []) as (G1 & G2 & G3).
  split; [apply G1; constructor|]. split; [|split].
  - intros k. rewrite G2. split; [intros [[]|H]; exact H|auto].
  - intros k v H. apply G3 in H as [[]|H]. exact H.
  - intros k Hnum Hin. apply G2 in Hin as [[]|(p & v & Hp & _ & Hn & Hv)].
    rewrite (Hnum p Hp Hn) in Hv. discriminate Hv.
Qed.

(** The theorem at a required text and a required number. *)
Lemma test_parameters_witness :
  parametros_teste [parametro_texto; parametro_peso]
  = [("texto", PyStr "valor_teste_texto")] /\
  ~ In "peso" (List.map fst (parametros_teste [parametro_texto; parametro_peso])).
Proof.
  split; [reflexivity|].
  apply (proj2 (proj2 (proj2 (test_parameters [parametro_texto; parametro_peso])))).
  intros param [<-|[<-|[]]] H; [discriminate H|reflexivity].
Defined.

(** *** Placebo values *)

(** X25.  When the tool is tested with a placebo text and the executor does not
    come back with the report of an execution, the creator leaves the text
    of the failure out of its report: in its place stands the note about
    placebo values. *)
Theorem placebo_hides_failure w str_of sys_path_teste fs sys_path
      name description parameters implementation imports custom_methods
      p v fs' sys_path' text :
  Creator._run w fs sys_path name description parameters implementation
               imports custom_methods
  = (Returned (RunCreated p v), fs', sys_path') ->
  Verifier.sucesso v = true ->
  let nome_classe := replace_char " " "" name +:+ "Tool" in
  let parametros := parametros_teste (List.map to_dict parameters) in
  py_in "valor_teste_" (repr_kwargs w parametros) = true ->
  Executor._run w sys_path_teste (path_str p) nome_classe parametros = Returned text ->
  (forall resultado,
      text <> Executor.relatorio_execucao w (path_str p) nome_classe parametros resultado) ->
  _run w str_of (executar w sys_path_teste) fs sys_path name description parameters
       implementation imports custom_methods
  = (Returned
       (final_report (report_lines str_of name description p parameters v) +:+
        (nl +:+ nl +:+ "## Teste de Execução Dinâmica" +:+ nl +:+ nl) +:+
        "A ferramenta foi compilada e executada dinamicamente para verificar sua funcionalidade." +:+
        nl +:+ nl +:+
        "**Parâmetros de teste:** " +:+ repr_kwargs w parametros +:+ nl +:+ nl +:+
        "**Nota:** A ferramenta foi testada com valores placebo. Em uma execução real, serão usados valores válidos fornecidos pelo agente."),
     fs', sys_path').
Proof.
  intros H Hv nome_classe parametros Hplacebo Hexec Hfail.
  unfold _run. rewrite H. unfold relatorio, teste_dinamico, executar.
  fold nome_classe. fold parametros. rewrite Hv, Hexec.
  cbn [mbind outcome_bind]. unfold relato_execucao. rewrite Hplacebo.
  destruct (ExecutorPaths.falha_marcada _ _ _ _ _ _ Hexec) as [[resultado Hr]|Hm].
  { exfalso. exact (Hfail resultado Hr). }
  apply PyFacts.py_in_occurs in Hm. rewrite Hm. cbn [andb orb].
  now rewrite !PyFacts.app_assoc.
Qed.

(** The theorem at a tool [Eco] that turns the placebo text down. *)
Lemma placebo_hides_failure_witness :
  exists report,
    _run mundo_exigente str_simples (executar mundo_exigente ["/usr/lib/python3"])
         disco_vazio ["/usr/lib/python3"] "Eco" "Devolve o texto recebido."
         [ParamDict parametro_texto] "return texto" [] []
    = (Returned report, disco_eco_escrito fonte_eco, ["/usr/lib/python3"]) /\
    endswith "serão usados valores válidos fornecidos pelo agente." report = true /\
    py_in "texto desconhecido" report = false.
Proof.
  eexists. split.
  - eapply (placebo_hides_failure mundo_exigente str_simples ["/usr/lib/python3"] disco_vazio
              ["/usr/lib/python3"] "Eco" "Devolve o texto recebido."
              [ParamDict parametro_texto] "return texto" [] []).
    + vm_compute. reflexivity.
    + reflexivity.
    + vm_compute. reflexivity.
    + vm_compute. reflexivity.
    + intros resultado Hr. vm_compute in Hr. discriminate Hr.
  - split; vm_compute; reflexivity.
Defined.

(** *** The errors of the verifier in the report *)

Lemma prefix_within pat : forall a c x b,
  has_char c pat = false ->
  String.prefix pat (a +:+ String c x +:+ b) = true ->
  (String.length pat <= String.length a)%nat.
Proof.
  induction pat as [|p pat IH]; intros a c x b Hc Hp; [cbn; lia|].
  cbn [has_char] in Hc. apply orb_false_iff in Hc as [Hpc Hc].
  destruct a as [|d a].
  - rewrite PyFacts.app_nil_l, PyFacts.app_cons in Hp. cbn [String.prefix] in Hp.
    destruct (ascii_dec p c) as [->|]; [|discriminate].
    now rewrite Ascii.eqb_refl in Hpc.
  - rewrite PyFacts.app_cons in Hp. cbn [String.prefix] in Hp.
    destruct (ascii_dec p d); [|discriminate].
    specialize (IH a c x b Hc Hp). cbn [String.length]. lia.
Qed.

Lemma replace_from_plain pat rep x b :
  pat <> "" ->
  (forall c, has_char c x = true -> has_char c pat = false) ->
  replace_from pat rep 0 (x +:+ b) = x +:+ replace_from pat rep 0 b.
Proof.
  intros Hpat. induction x as [|c x IH]; intros Hx; [reflexivity|].
  rewrite !PyFacts.app_cons. cbn [replace_from].
  assert (Hno : String.prefix pat (String c (x +:+ b)) = false).
  { destruct pat as [|p pat]; [contradiction|]. cbn [String.prefix].
    destruct (ascii_dec p c) as [->|]; [|reflexivity].
    assert (Hc : has_char c (String c pat) = false).
    { apply Hx. cbn [has_char]. now rewrite Ascii.eqb_refl. }
    cbn [has_char] in Hc. now rewrite Ascii.eqb_refl in Hc. }
  rewrite Hno. f_equal. apply IH. intros c' Hc'. apply Hx. cbn [has_char].
  rewrite Hc'. apply orb_true_r.
Qed.

Lemma replace_from_keeps pat rep x b :
  pat <> "" -> x <> "" ->
  (forall c, has_char c x = true -> has_char c pat = false) ->
  forall a skip, (skip <= String.length a)%nat ->
    exists r, replace_from pat rep skip (a +:+ x +:+ b)
              = r +:+ x +:+ replace_from pat rep 0 b.
Proof.
  intros Hpat Hne Hx. induction a as [|d a IH]; intros skip Hskip.
  - cbn [String.length] in Hskip. replace skip with 0%nat by lia.
    exists "". rewrite !PyFacts.app_nil_l. now apply replace_from_plain.
  - rewrite PyFacts.app_cons. cbn [replace_from]. destruct skip as [|k].
    + destruct (String.prefix pat (String d (a +:+ x +:+ b))) eqn:Hp.
      * destruct x as [|c x]; [contradiction|].
        assert (Hc : has_char c pat = false).
        { apply Hx. cbn [has_char]. now rewrite Ascii.eqb_refl. }
        pose proof (prefix_within pat (String d a) c x b Hc) as Hlen.
        rewrite PyFacts.app_cons in Hlen. specialize (Hlen Hp).
        cbn [String.length] in Hlen.
        destruct (IH (String.length pat - 1)%nat) as [r Hr]; [lia|].
        exists (rep +:+ r). rewrite Hr. now rewrite PyFacts.app_assoc.
      * destruct (IH 0%nat) as [r Hr]; [lia|].
        exists (String d r). rewrite Hr. reflexivity.
    + cbn [String.length] in Hskip. destruct (IH k) as [r Hr]; [lia|].
      exists r. exact Hr.
Qed.

(** A text survives [replace] when none of its characters is in the
    pattern. *)
Lemma str_replace_keeps pat rep x s :
  pat <> "" ->
  (forall c, has_char c x = true -> has_char c pat = false) ->
  occurs_in x s -> occurs_in x (str_replace pat rep s).
Proof.
  intros Hpat Hx (a & b & ->). destruct x as [|c x].
  - exists "", (str_replace pat rep (a +:+ "" +:+ b)). reflexivity.
  - destruct (replace_from_keeps pat rep (String c x) b Hpat ltac:(discriminate) Hx a 0%nat)
      as [r Hr]; [lia|].
    unfold str_replace. rewrite Hr. now exists r, (replace_from pat rep 0 b).
Qed.

Lemma has_char_other c d s :
  has_char c s = true -> has_char d s = false -> Ascii.eqb d c = false.
Proof.
  intros Hc Hd. destruct (Ascii.eqb_spec d c) as [->|]; [congruence|reflexivity].
Qed.

(** X26.  When the tool was written and the verifier reports no success, the
    report of the creator shows the verifier's errors: every error that is
    one line of text (not blank, without line feed or carriage return)
    stands in the report as the verifier gave it. *)
Theorem errors_shown_in_report w str_of executar_tool_run fs sys_path
      name description parameters implementation imports custom_methods p v fs' sys_path' :
  Creator._run w fs sys_path name description parameters implementation
               imports custom_methods
  = (Returned (RunCreated p v), fs', sys_path') ->
  Verifier.sucesso v = false ->
  exists report,
    _run w str_of executar_tool_run fs sys_path name description parameters
         implementation imports custom_methods
    = (Returned report, fs', sys_path') /\
    forall erro,
      In erro (Verifier.erros v) ->
      strip erro <> "" ->
      has_char (ascii_of_nat 10) erro = false ->
      has_char (ascii_of_nat 13) erro = false ->
      occurs_in erro report.
Proof.
  intros H Hv. eexists. split.
  - unfold _run. rewrite H. unfold relatorio. rewrite Hv. reflexivity.
  - intros erro Hin Hblank Hnl Hcr. unfold final_report.
    apply str_replace_keeps; [unfold cr, nl, chr; discriminate| |].
    { intros c Hc. unfold cr, nl, chr. rewrite PyFacts.app_cons, PyFacts.app_nil_l.
      cbn [has_char].
      rewrite (has_char_other c _ erro Hc Hcr), (has_char_other c _ erro Hc Hnl).
      reflexivity. }
    apply str_replace_keeps; [unfold nl, chr; discriminate| |].
    { intros c Hc. unfold nl, chr. rewrite PyFacts.app_cons, PyFacts.app_nil_l.
      cbn [has_char].
      rewrite (has_char_other c _ erro Hc Hnl). reflexivity. }
    unfold raw_report. apply PyFacts.occurs_in_join. apply filter_In. split.
    + unfold report_lines. rewrite Hv. cbn [negb].
      apply in_or_app. right. apply in_or_app. right. right.
      apply in_or_app. now left.
    + apply negb_true_iff. now apply String.eqb_neq.
Qed.

(** The theorem at the tool that imports a module that is not installed. *)
Lemma errors_shown_in_report_witness :
  exists report,
    _run mundo_import str_simples (executar mundo_import ["/usr/lib/python3"])
         disco_vazio ["/usr/lib/python3"] "Eco" "Devolve o texto recebido."
         [ParamDict parametro_texto] "return texto" [import_ausente] []
    = (Returned report, disco_eco_escrito fonte_import, ["/usr/lib/python3"]) /\
    occurs_in "ERRO: Verificação concluída com erros críticos." report.
Proof.
  edestruct (errors_shown_in_report mundo_import str_simples
               (executar mundo_import ["/usr/lib/python3"]) disco_vazio
               ["/usr/lib/python3"] "Eco" "Devolve o texto recebido."
               [ParamDict parametro_texto] "return texto" [import_ausente] [])
    as (report & Hrun & Herros).
  - vm_compute. reflexivity.
  - reflexivity.
  - exists report. split; [exact Hrun|]. apply Herros.
    + cbn. right. now left.
    + vm_compute. discriminate.
    + reflexivity.
    + reflexivity.
Defined.

End ReportFacts.
